(** * Argument translation of the D and GNU-like compiler adapters

    A shallow embedding of [mesonbuild/compilers/d.py] and
    [mesonbuild/compilers/mixins/gnu.py]: the static flag tables, the
    capability gates, the GNU-to-native argument translator, the feature
    argument builder and the path normaliser, together with the properties
    their specification states about them.

    Python values are modelled as follows.
    - [str] is [string]: the sequence of the characters of the text, a
      character being its code point, below 256.  White space
      ([str.strip]) and digits ([str.isdigit], [int]) are classified as
      Python classifies these code points; [str.lower] changes the ASCII
      letters, and the code only compares lowered text with ASCII words.
      Text with code points from 256 on is outside the model: what is
      stated about stripped sub-arguments and about the tokens of levels
      and identifiers is stated for ASCII text ([ascii_text]).
    - a list of strings (an argument vector) is [list string].
    - [int] is [Z].
    - a [dict] whose key order is observable (keyword arguments) is an
      association list; static tables are association lists as well, a
      missing key being the [KeyError] of the lookup.
    - a raised exception is the [Err] branch of [result].
    - [os.path] is the module of the host ([os_path]): [posixpath], which
      is modelled, everywhere but on Windows, where it is [ntpath], a
      parameter of the development. *)

From Stdlib Require Import List Bool Arith ZArith Lia.
From Stdlib Require Import Ascii String DecimalString.
From Stdlib Require Import Permutation.
Import ListNotations.

Open Scope list_scope.
Open Scope string_scope.

(** ** Exceptions and results *)

Inductive exn : Type :=
| EnvironmentException (msg : string)
| KeyError (key : string)
| AssertionError
| AttributeError
| ValueError.

Inductive result (A : Type) : Type :=
| Ok (a : A)
| Err (e : exn).

Arguments Ok {A} a.
Arguments Err {A} e.

Definition bind {A B : Type} (r : result A) (k : A -> result B) : result B :=
  match r with
  | Ok a => k a
  | Err e => Err e
  end.

Notation "x <- r ;; k" := (bind r (fun x => k))
  (at level 61, r at next level, right associativity).

(** A loop whose body may raise: the left fold that stops at the first
    exception. *)
Fixpoint fold_result {A B : Type} (f : A -> B -> result A) (l : list B)
  (a : A) : result A :=
  match l with
  | [] => Ok a
  | x :: l' => a' <- f a x ;; fold_result f l' a'
  end.

(** ** Python string primitives *)

Module Py.

(** [s[n:]] *)
Fixpoint drop (n : nat) (s : string) : string :=
  match n, s with
  | O, _ => s
  | S _, EmptyString => EmptyString
  | S n', String _ s' => drop n' s'
  end.

(** [s[:n]] *)
Fixpoint take (n : nat) (s : string) : string :=
  match n, s with
  | O, _ => EmptyString
  | S _, EmptyString => EmptyString
  | S n', String c s' => String c (take n' s')
  end.

(** [s.startswith(p)] *)
Fixpoint startswith (s p : string) {struct p} : bool :=
  match p with
  | EmptyString => true
  | String b p' =>
      match s with
      | EmptyString => false
      | String a s' => Ascii.eqb a b && startswith s' p'
      end
  end.

(** [s.startswith((p1, ..., pn))] *)
Definition startswith_any (s : string) (ps : list string) : bool :=
  existsb (startswith s) ps.

(** [s.endswith(p)] *)
Definition endswith (s p : string) : bool :=
  Nat.leb (String.length p) (String.length s)
  && String.eqb (drop (String.length s - String.length p) s) p.

(** [s.endswith((p1, ..., pn))] *)
Definition endswith_any (s : string) (ps : list string) : bool :=
  existsb (endswith s) ps.

(** [s.index(c)] for a one-character needle; [None] is the [ValueError]. *)
Fixpoint index (c : ascii) (s : string) : option nat :=
  match s with
  | EmptyString => None
  | String a s' => if Ascii.eqb a c then Some O
                   else option_map S (index c s')
  end.

(** [s.split(c)] for a one-character separator. *)
Fixpoint split (c : ascii) (s : string) : list string :=
  match s with
  | EmptyString => [EmptyString]
  | String a s' =>
      if Ascii.eqb a c then EmptyString :: split c s'
      else match split c s' with
           | [] => [String a EmptyString]
           | w :: ws => String a w :: ws
           end
  end.

(** [sep.join(l)] *)
Definition join (sep : string) (l : list string) : string :=
  String.concat sep l.

(** [c.isspace()]: tab, line feed, vertical tab, form feed, carriage
    return, the four separators 28 to 31, space, next line (133) and the
    no-break space (160). *)
Definition isspace (c : ascii) : bool :=
  let n := nat_of_ascii c in
  (Nat.leb 9 n && Nat.leb n 13) || (Nat.leb 28 n && Nat.leb n 32)
  || Nat.eqb n 133 || Nat.eqb n 160.

Fixpoint lstrip (s : string) : string :=
  match s with
  | EmptyString => EmptyString
  | String c s' => if isspace c then lstrip s' else s
  end.

(** Strips trailing white space; the result of the tail decides whether the
    head survives. *)
Fixpoint rstrip (s : string) : string :=
  match s with
  | EmptyString => EmptyString
  | String c s' =>
      match rstrip s' with
      | EmptyString => if isspace c then EmptyString else String c EmptyString
      | r => String c r
      end
  end.

(** [s.strip()] *)
Definition strip (s : string) : string := rstrip (lstrip s).

Definition lower_char (c : ascii) : ascii :=
  let n := nat_of_ascii c in
  if Nat.leb 65 n && Nat.leb n 90 then ascii_of_nat (n + 32) else c.

(** [s.lower()], which the code compares with ASCII words only: the ASCII
    letters are lowered, and no other character becomes an ASCII letter. *)
Fixpoint lower (s : string) : string :=
  match s with
  | EmptyString => EmptyString
  | String c s' => String (lower_char c) (lower s')
  end.

(** The decimal digits, 0 to 9. *)
Definition isdecimal_char (c : ascii) : bool :=
  let n := nat_of_ascii c in Nat.leb 48 n && Nat.leb n 57.

(** [c.isdigit()]: the decimal digits and the superscript digits two (178),
    three (179) and one (185). *)
Definition isdigit_char (c : ascii) : bool :=
  let n := nat_of_ascii c in
  isdecimal_char c || Nat.eqb n 178 || Nat.eqb n 179 || Nat.eqb n 185.

Fixpoint all_decimal (s : string) : bool :=
  match s with
  | EmptyString => true
  | String c s' => isdecimal_char c && all_decimal s'
  end.

Fixpoint all_digits (s : string) : bool :=
  match s with
  | EmptyString => true
  | String c s' => isdigit_char c && all_digits s'
  end.

(** [s.isdigit()]: non-empty and made of digits only. *)
Definition isdigit (s : string) : bool :=
  match s with
  | EmptyString => false
  | _ => all_digits s
  end.

Fixpoint int_acc (acc : Z) (s : string) : Z :=
  match s with
  | EmptyString => acc
  | String c s' =>
      int_acc (10 * acc + Z.of_nat (nat_of_ascii c - 48))%Z s'
  end.

(** [s.isdecimal()]: non-empty and made of decimal digits only. *)
Definition isdecimal (s : string) : bool :=
  match s with
  | EmptyString => false
  | _ => all_decimal s
  end.

(** The number a string of decimal digits writes. *)
Definition decimal_value (s : string) : Z := int_acc 0%Z s.

(** [int(s)] on a string for which [isdigit] holds, the only strings the
    code passes to it: the number written if every digit is a decimal
    digit, and a [ValueError] if a superscript digit occurs. *)
Definition int (s : string) : result Z :=
  if isdecimal s then Ok (decimal_value s) else Err ValueError.

(** [s.isascii()]: every character is an ASCII character. *)
Fixpoint isascii (s : string) : bool :=
  match s with
  | EmptyString => true
  | String c s' => Nat.ltb (nat_of_ascii c) 128 && isascii s'
  end.

(** [str(n)] for an [int]. *)
Definition str (n : Z) : string := NilZero.string_of_int (Z.to_int n).

(** [l.append(x)] and [l.extend(m)], as the list they leave. *)
Definition append {A : Type} (l : list A) (x : A) : list A := (l ++ [x])%list.

Definition extend {A : Type} (l m : list A) : list A := (l ++ m)%list.

(** The double-quote character. *)
Definition dquote : string := String (ascii_of_nat 34) EmptyString.

(** [enumerate(l)] *)
Fixpoint enumerate_from {A : Type} (n : nat) (l : list A) : list (nat * A) :=
  match l with
  | [] => []
  | x :: l' => (n, x) :: enumerate_from (S n) l'
  end.

Definition enumerate {A : Type} (l : list A) : list (nat * A) :=
  enumerate_from 0 l.

(** [l[idx] = v] for an index inside the list, the only use the code makes
    of it (the index comes from [enumerate] over the same list). *)
Fixpoint setitem {A : Type} (l : list A) (idx : nat) (v : A) : list A :=
  match l, idx with
  | [], _ => []
  | _ :: l', O => v :: l'
  | x :: l', S idx' => x :: setitem l' idx' v
  end.

(** [k in d] and [d[k]] on an association list. *)
Fixpoint lookup {A : Type} (k : string) (d : list (string * A)) : option A :=
  match d with
  | [] => None
  | (k', v) :: d' => if String.eqb k' k then Some v else lookup k d'
  end.

Definition getitem {A : Type} (d : list (string * A)) (k : string) : result A :=
  match lookup k d with
  | Some v => Ok v
  | None => Err (KeyError k)
  end.

Definition contains {A : Type} (k : string) (d : list (string * A)) : bool :=
  match lookup k d with
  | Some _ => true
  | None => false
  end.

(** The dictionary left by [d.pop(k)]. *)
Definition remove {A : Type} (k : string) (d : list (string * A))
  : list (string * A) :=
  filter (fun kv => negb (String.eqb (fst kv) k)) d.

(** [d.keys()], in insertion order. *)
Definition keys {A : Type} (d : list (string * A)) : list string :=
  map fst d.

(** [c * n] for a one-character string [c]. *)
Fixpoint repeat_char (c : ascii) (n : nat) : string :=
  match n with
  | O => EmptyString
  | S n' => String c (repeat_char c n')
  end.

(** [needle in s] for two strings. *)
Fixpoint contains_sub (s needle : string) : bool :=
  startswith s needle
  || match s with
     | EmptyString => false
     | String _ s' => contains_sub s' needle
     end.

(** [x in l] for a list of strings. *)
Definition mem (x : string) (l : list string) : bool :=
  existsb (String.eqb x) l.

(** [l.index(x)] for a list of strings; [None] is the [ValueError]. *)
Fixpoint list_index (x : string) (l : list string) : option nat :=
  match l with
  | [] => None
  | y :: l' => if String.eqb y x then Some O
               else option_map S (list_index x l')
  end.

End Py.


(** ** [os.path] on a POSIX host *)

Module PosixPath.

(** [os.path.join(a, b)] *)
Definition join (a b : string) : string :=
  if Py.startswith b "/" then b
  else if String.eqb a "" || Py.endswith a "/" then a ++ b
  else a ++ "/" ++ b.

(** The number of leading slashes [normpath] keeps: POSIX allows one or two
    initial slashes and treats three or more as one. *)
Definition initial_slashes (path : string) : nat :=
  if Py.startswith path "/" then
    if Py.startswith path "//" && negb (Py.startswith path "///") then 2
    else 1
  else 0.

Definition is_nil {A : Type} (l : list A) : bool :=
  match l with [] => true | _ => false end.

(** One iteration of the loop over the components. *)
Definition normpath_step (slashes : nat) (new_comps : list string)
  (comp : string) : list string :=
  if String.eqb comp "" || String.eqb comp "." then new_comps
  else if negb (String.eqb comp "..")
          || (Nat.eqb slashes 0 && is_nil new_comps)
          || (negb (is_nil new_comps) && String.eqb (last new_comps "") "..")
       then Py.append new_comps comp
       else if negb (is_nil new_comps) then removelast new_comps
       else new_comps.

Fixpoint slashes_string (n : nat) : string :=
  match n with
  | O => ""
  | S n' => String "/" (slashes_string n')
  end.

(** [os.path.normpath(path)] *)
Definition normpath (path : string) : string :=
  if String.eqb path "" then "."
  else
    let slashes := initial_slashes path in
    let comps := Py.split "/" path in
    let new_comps := fold_left (normpath_step slashes) comps [] in
    let path := Py.join "/" new_comps in
    let path := slashes_string slashes ++ path in
    if String.eqb path "" then "." else path.

End PosixPath.

(** ** The environment of a call *)

(** The host platform, as [mesonlib.is_windows] and [mesonlib.is_osx]
    report it. *)
Inductive platform : Type := Windows | OSX | OtherPlatform.

Definition is_windows (host : platform) : bool :=
  match host with Windows => true | _ => false end.

Definition is_osx (host : platform) : bool :=
  match host with OSX => true | _ => false end.

(** The two functions of [os.path] the code calls. *)
Record os_path_module : Type := {
  path_join : string -> string -> string;
  path_normpath : string -> string
}.

Definition posixpath : os_path_module :=
  {| path_join := PosixPath.join; path_normpath := PosixPath.normpath |}.

(** [os.path] on the host: [ntpath] on Windows and [posixpath] elsewhere.
    [ntpath] belongs to the Python library and is not modelled: the
    methods that call [os.path] take it as a parameter. *)
Definition os_path (ntpath : os_path_module) (host : platform)
  : os_path_module :=
  if is_windows host then ntpath else posixpath.

(** The two flags of [CompilerType] the GNU-like mixin reads. *)
Record CompilerType : Type := {
  is_osx_compiler : bool;
  is_windows_compiler : bool
}.

(** The concrete classes that inherit [DmdLikeCompilerMixin]; class methods
    receive one of them as [cls]. *)
Inductive dmd_like_class : Type := LLVMDCompiler_cls | DmdDCompiler_cls.

Definition is_LLVMDCompiler (cls : dmd_like_class) : bool :=
  match cls with LLVMDCompiler_cls => true | DmdDCompiler_cls => false end.

(** ** Static tables *)

Definition d_feature_args : list (string * list (string * string)) :=
  [ ("gcc",  [ ("unittest", "-funittest"); ("debug", "-fdebug");
               ("version", "-fversion"); ("import_dir", "-J") ]);
    ("llvm", [ ("unittest", "-unittest"); ("debug", "-d-debug");
               ("version", "-d-version"); ("import_dir", "-J") ]);
    ("dmd",  [ ("unittest", "-unittest"); ("debug", "-debug");
               ("version", "-version"); ("import_dir", "-J") ]) ].

Definition ldc_optimization_args : list (string * list string) :=
  [ ("0", []); ("g", []); ("1", ["-O1"]); ("2", ["-O2"]); ("3", ["-O3"]);
    ("s", ["-Os"]) ].

Definition dmd_optimization_args : list (string * list string) :=
  [ ("0", []); ("g", []); ("1", ["-O"]); ("2", ["-O"]); ("3", ["-O"]);
    ("s", ["-O"]) ].

Definition gnu_optimization_args : list (string * list string) :=
  [ ("0", []); ("g", ["-Og"]); ("1", ["-O1"]); ("2", ["-O2"]);
    ("3", ["-O3"]); ("s", ["-Os"]) ].

Definition gnu_color_args : list (string * list string) :=
  [ ("auto", ["-fdiagnostics-color=auto"]);
    ("always", ["-fdiagnostics-color=always"]);
    ("never", ["-fdiagnostics-color=never"]) ].

(** ** Feature requests *)

(** A directory-description object of the build graph ([IncludeDirs]), seen
    through the two accessors the code calls. *)
Record IncludeDirs : Type := {
  get_curdir : string;
  get_incdirs : list string
}.

(** A Python [int] object; [bool] is a subclass of [int]. *)
Inductive pyint : Type :=
| Int (n : Z)
| Bool (b : bool).

Definition int_value (i : pyint) : Z :=
  match i with
  | Int n => n
  | Bool true => 1%Z
  | Bool false => 0%Z
  end.

(** [str(i)], which is what [format] prints for it. *)
Definition format_pyint (i : pyint) : string :=
  match i with
  | Int n => Py.str n
  | Bool true => "True"
  | Bool false => "False"
  end.

(** One value of a keyword argument, or one element of a list value. *)
Inductive elem : Type :=
| ENum (i : pyint)
| EStr (s : string)
| EObj (d : IncludeDirs).

(** The value bound to a key: one element, or a list of them. *)
Inductive value : Type :=
| VOne (e : elem)
| VList (l : list elem).

(** [if not isinstance(v, list): v = [v]] *)
Definition as_list (v : value) : list elem :=
  match v with
  | VList l => l
  | VOne e => [e]
  end.

(** Truth value of an object in an [if]. *)
Definition truthy (v : value) : bool :=
  match v with
  | VOne (ENum i) => negb (Z.eqb (int_value i) 0)
  | VOne (EStr s) => negb (String.eqb s "")
  | VOne (EObj _) => true
  | VList l => negb (PosixPath.is_nil l)
  end.

Definition kwargs_t : Type := list (string * value).

(** The fields of a D compiler object the modelled methods read. *)
Record DCompiler_self : Type := {
  exelist : list string;
  version : string;
  arch : string;
  id : string
}.

Definition name_string (self : DCompiler_self) : string :=
  Py.join " " (exelist self).

(** ** [DmdLikeCompilerMixin] *)

Module DmdLikeCompilerMixin.

Section Methods.

(** [format] of a directory-description object; its [__repr__] lives in the
    build graph, outside these two files. *)
Variable format_IncludeDirs : IncludeDirs -> string.

(** [os.path] of a Windows host. *)
Variable ntpath : os_path_module.

(** One iteration of the loop over [enumerate(parameter_list)]; the four
    tests are independent [if]s that all read the element [i] bound by the
    loop header. *)
Definition absolute_paths_step (host : platform) (build_dir : string)
  (parameter_list : list string) (entry : nat * string) : list string :=
  let '(idx, i) := entry in
  let parameter_list :=
    if String.eqb (Py.take 3 i) "-I=" then
      Py.setitem parameter_list idx
        (Py.take 3 i
         ++ path_normpath (os_path ntpath host)
              (path_join (os_path ntpath host) build_dir (Py.drop 3 i)))
    else parameter_list in
  let parameter_list :=
    if String.eqb (Py.take 4 i) "-L-L" then
      Py.setitem parameter_list idx
        (Py.take 4 i
         ++ path_normpath (os_path ntpath host)
              (path_join (os_path ntpath host) build_dir (Py.drop 4 i)))
    else parameter_list in
  let parameter_list :=
    if String.eqb (Py.take 5 i) "-L=-L" then
      Py.setitem parameter_list idx
        (Py.take 5 i
         ++ path_normpath (os_path ntpath host)
              (path_join (os_path ntpath host) build_dir (Py.drop 5 i)))
    else parameter_list in
  let parameter_list :=
    if String.eqb (Py.take 6 i) "-Wl,-L" then
      Py.setitem parameter_list idx
        (Py.take 6 i
         ++ path_normpath (os_path ntpath host)
              (path_join (os_path ntpath host) build_dir (Py.drop 6 i)))
    else parameter_list in
  parameter_list.

Definition compute_parameters_with_absolute_paths (host : platform)
  (parameter_list : list string) (build_dir : string) : list string :=
  fold_left (absolute_paths_step host build_dir)
    (Py.enumerate parameter_list) parameter_list.

Definition get_pic_args (host : platform) : list string :=
  if is_windows host then [] else ["-fPIC"].

(** The loop over the values of [debug] (and of [versions]): the state is
    the result list and the largest level seen so far.  [int(d)] is
    evaluated first in the comparison, and raises there if it raises at
    all. *)
Definition level_step (flag_arg : string) (st : list string * pyint)
  (d : elem) : result (list string * pyint) :=
  let '(res, level) := st in
  match d with
  | ENum i =>
      if Z.gtb (int_value i) (int_value level)
      then Ok (res, i) else Ok (res, level)
  | EStr s =>
      if Py.isdigit s then
        n <- Py.int s ;;
        if Z.gtb n (int_value level) then
          n' <- Py.int s ;; Ok (res, Int n')
        else Ok (res, level)
      else Ok (Py.append res (flag_arg ++ "=" ++ s), level)
  | EObj o =>
      Ok (Py.append res (flag_arg ++ "=" ++ format_IncludeDirs o), level)
  end.

(** The block guarded by [if 'debug' in kwargs] once the flag is known, and
    likewise for [versions]. *)
Definition level_block (flag_arg : string) (res : list string)
  (values : list elem) : result (list string) :=
  st <- fold_result (level_step flag_arg) values (res, Int (-1)) ;;
  let '(res, level) := st in
  if Z.geb (int_value level) 0
  then Ok (Py.append res (flag_arg ++ "=" ++ format_pyint level))
  else Ok res.

(** The inner loop over [idir_obj.get_incdirs()]. *)
Definition incdirs_step (host : platform)
  (import_dir_arg build_to_src basedir : string)
  (res : list string) (idir : string) : list string :=
  let expdir :=
    if negb (String.eqb idir "" || String.eqb idir ".")
    then path_join (os_path ntpath host) basedir idir
    else basedir in
  let srctreedir := path_join (os_path ntpath host) build_to_src expdir in
  Py.append res (import_dir_arg ++ srctreedir).

(** The outer loop over [import_dirs]; an element without [get_curdir] is
    an [AttributeError]. *)
Fixpoint import_dirs_loop (host : platform)
  (import_dir_arg build_to_src : string)
  (res : list string) (import_dirs : list elem) : result (list string) :=
  match import_dirs with
  | [] => Ok res
  | EObj idir_obj :: rest =>
      let basedir := get_curdir idir_obj in
      let res :=
        fold_left (incdirs_step host import_dir_arg build_to_src basedir)
          (get_incdirs idir_obj) res in
      import_dirs_loop host import_dir_arg build_to_src res rest
  | _ :: _ => Err AttributeError
  end.

(** [d_feature_args[self.id][key]] *)
Definition feature_arg (self : DCompiler_self) (key : string)
  : result string :=
  tbl <- Py.getitem d_feature_args (id self) ;;
  Py.getitem tbl key.

Definition unsupported (self : DCompiler_self) (what : string) : exn :=
  EnvironmentException
    ("D compiler " ++ name_string self ++ " does not support " ++ what).

(** The method threads two variables through four guarded blocks: the
    dictionary [kwargs], from which each block pops its key, and the result
    list [res]. *)
Definition feature_state : Type := (kwargs_t * list string)%type.

(** [if 'unittest' in kwargs: ...] *)
Definition unittest_block (self : DCompiler_self) (st : feature_state)
  : result feature_state :=
  let '(kwargs, res) := st in
  match Py.lookup "unittest" kwargs with
  | Some unittest =>
      let kwargs := Py.remove "unittest" kwargs in
      unittest_arg <- feature_arg self "unittest" ;;
      if String.eqb unittest_arg "" then
        Err (unsupported self
               ("the " ++ Py.dquote ++ "unittest" ++ Py.dquote
                ++ " feature."))
      else if truthy unittest
           then Ok (kwargs, Py.append res unittest_arg)
           else Ok (kwargs, res)
  | None => Ok (kwargs, res)
  end.

(** [if 'debug' in kwargs: ...] *)
Definition debug_block (self : DCompiler_self) (st : feature_state)
  : result feature_state :=
  let '(kwargs, res) := st in
  match Py.lookup "debug" kwargs with
  | Some debugs =>
      let kwargs := Py.remove "debug" kwargs in
      let debugs := as_list debugs in
      debug_arg <- feature_arg self "debug" ;;
      if String.eqb debug_arg "" then
        Err (unsupported self "conditional debug identifiers.")
      else
        res <- level_block debug_arg res debugs ;;
        Ok (kwargs, res)
  | None => Ok (kwargs, res)
  end.

(** [if 'versions' in kwargs: ...] *)
Definition versions_block (self : DCompiler_self) (st : feature_state)
  : result feature_state :=
  let '(kwargs, res) := st in
  match Py.lookup "versions" kwargs with
  | Some versions =>
      let kwargs := Py.remove "versions" kwargs in
      let versions := as_list versions in
      version_arg <- feature_arg self "version" ;;
      if String.eqb version_arg "" then
        Err (unsupported self "conditional version identifiers.")
      else
        res <- level_block version_arg res versions ;;
        Ok (kwargs, res)
  | None => Ok (kwargs, res)
  end.

(** [if 'import_dirs' in kwargs: ...] *)
Definition import_dirs_block (host : platform) (self : DCompiler_self)
  (build_to_src : string) (st : feature_state) : result feature_state :=
  let '(kwargs, res) := st in
  match Py.lookup "import_dirs" kwargs with
  | Some import_dirs =>
      let kwargs := Py.remove "import_dirs" kwargs in
      let import_dirs := as_list import_dirs in
      import_dir_arg <- feature_arg self "import_dir" ;;
      if String.eqb import_dir_arg "" then
        Err (unsupported self
               ("the " ++ Py.dquote ++ "string import directories"
                ++ Py.dquote ++ " feature."))
      else
        res <- import_dirs_loop host import_dir_arg build_to_src res
                 import_dirs ;;
        Ok (kwargs, res)
  | None => Ok (kwargs, res)
  end.

(** [if kwargs: raise ...] and [return res] *)
Definition leftover_check (st : feature_state) : result (list string) :=
  let '(kwargs, res) := st in
  if negb (PosixPath.is_nil kwargs) then
    Err (EnvironmentException
           ("Unknown D compiler feature(s) selected: "
            ++ Py.join ", " (Py.keys kwargs)))
  else Ok res.

Definition get_feature_args (host : platform) (self : DCompiler_self)
  (kwargs : kwargs_t) (build_to_src : string) : result (list string) :=
  let res := [] in
  st <- unittest_block self (kwargs, res) ;;
  st <- debug_block self st ;;
  st <- versions_block self st ;;
  st <- import_dirs_block host self build_to_src st ;;
  leftover_check st.

(** The text after the first comma: [arg[arg.index(',') + 1:]].  The code
    evaluates it only under the guard [arg.startswith('-Wl,')], where the
    comma exists (lemma [index_comma_Wl]); without one the slice is left
    empty here. *)
Definition after_first_comma (arg : string) : string :=
  match Py.index "," arg with
  | Some i => Py.drop (i + 1) arg
  | None => ""
  end.

Definition translate_arg_to_windows (cls : dmd_like_class) (arg : string)
  : list string :=
  let args := [] in
  if Py.startswith arg "-Wl," then
    let linkargs := Py.split "," (after_first_comma arg) in
    fold_left
      (fun args la =>
         if Py.startswith la "--out-implib="
         then Py.append args ("-L=/IMPLIB:" ++ Py.strip (Py.drop 13 la))
         else args)
      linkargs args
  else if Py.startswith arg "-mscrtlib=" then
    let args := Py.append args arg in
    let mscrtlib := Py.lower (Py.drop 10 arg) in
    if is_LLVMDCompiler cls then
      let args :=
        if negb (String.eqb mscrtlib "libcmt") then
          Py.append (Py.append args "-L=/NODEFAULTLIB:libcmt")
            "-L=/NODEFAULTLIB:libvcruntime"
        else args in
      let args :=
        if Py.startswith mscrtlib "msvcrt" then
          Py.append args "-L=/DEFAULTLIB:legacy_stdio_definitions.lib"
        else args in
      args
    else args
  else args.

Definition translate_arg_to_osx (cls : dmd_like_class) (arg : string)
  : list string :=
  let args := [] in
  if Py.startswith arg "-install_name" then Py.append args ("-L=" ++ arg)
  else args.

Definition linker_control_prefixes : list string :=
  ["-link-defaultlib"; "-linker"; "-link-internally"; "-linkonce-templates";
   "-lib"].

(** The value of [osargs] once the platform has been consulted. *)
Definition os_specific_args (host : platform) (cls : dmd_like_class)
  (arg : string) : list string :=
  if is_windows host then translate_arg_to_windows cls arg
  else if is_osx host then translate_arg_to_osx cls arg
  else [].

(** The body of the loop of [translate_args_to_nongnu] for one [arg]: the
    list [dcargs] as the iteration leaves it. *)
Definition translate_step (host : platform) (cls : dmd_like_class)
  (dcargs : list string) (arg : string) : list string :=
  let osargs := os_specific_args host cls arg in
  if negb (PosixPath.is_nil osargs) then Py.extend dcargs osargs
  else if String.eqb arg "-pthread" then dcargs
  else if Py.startswith arg "-fstack-protector" then dcargs
  else if Py.startswith arg "-D" then dcargs
  else if Py.startswith arg "-Wl," then
    let linkargs := Py.split "," (after_first_comma arg) in
    fold_left (fun dcargs la => Py.append dcargs ("-L=" ++ Py.strip la))
      linkargs dcargs
  else if Py.startswith_any arg linker_control_prefixes then
    Py.append dcargs arg
  else if Py.startswith arg "-l" then Py.append dcargs ("-L=" ++ arg)
  else if Py.startswith arg "-isystem" then
    if Py.startswith arg "-isystem="
    then Py.append dcargs ("-I=" ++ Py.drop 9 arg)
    else Py.append dcargs "-I"
  else if Py.startswith arg "-L/" || Py.startswith arg "-L./" then
    if Py.endswith arg ".a" || Py.endswith arg ".lib" then
      let farg :=
        if Py.startswith arg "-L=" then Py.drop 3 arg else Py.drop 2 arg in
      if Nat.ltb 0 (String.length farg) && negb (Py.startswith farg "-")
      then Py.append dcargs ("-L=" ++ farg)
      else Py.append dcargs ("-L=" ++ arg)
    else Py.append dcargs ("-L=" ++ arg)
  else if negb (Py.startswith arg "-") && Py.endswith_any arg [".a"; ".lib"]
  then Py.append dcargs ("-L=" ++ arg)
  else Py.append dcargs arg.

Definition translate_args_to_nongnu (host : platform) (cls : dmd_like_class)
  (args : list string) : list string :=
  fold_left (translate_step host cls) args [].

(** [mscrt_args] is the class attribute of [DCompiler] the method reads
    through [self]. *)
Definition get_crt_args (host : platform)
  (mscrt_args : list (string * list string)) (crt_val buildtype : string)
  : result (list string) :=
  if negb (is_windows host) then Ok []
  else if Py.contains crt_val mscrt_args then Py.getitem mscrt_args crt_val
  else if negb (String.eqb crt_val "from_buildtype") then Err AssertionError
  else if String.eqb buildtype "plain" then Ok []
  else if String.eqb buildtype "debug" then Py.getitem mscrt_args "mdd"
  else if String.eqb buildtype "debugoptimized" then Py.getitem mscrt_args "md"
  else if String.eqb buildtype "release" then Py.getitem mscrt_args "md"
  else if String.eqb buildtype "minsize" then Py.getitem mscrt_args "md"
  else if negb (String.eqb buildtype "custom") then Err AssertionError
  else Err (EnvironmentException
              ("Requested C runtime based on buildtype, but buildtype is "
               ++ Py.dquote ++ "custom" ++ Py.dquote ++ ".")).

Definition get_output_args (target : string) : list string :=
  ["-of=" ++ target].

Definition get_include_args (path : string) (is_system : bool)
  : list string :=
  ["-I=" ++ path].

Definition gen_import_library_args (implibname : string) : list string :=
  ["-Wl,--out-implib=" ++ implibname].

(** [self.get_target_arch_args()] is dispatched on the concrete class; its
    value is handed in. *)
Definition get_buildtype_linker_args (get_target_arch_args : list string)
  (buildtype : string) : list string :=
  if negb (String.eqb buildtype "plain") then get_target_arch_args else [].

(** The arguments [env] and [from_dir] are not read by the method.
    [os.path.join] is reached off Windows only, where it is the one of
    [posixpath]. *)
Definition build_rpath_args (host : platform) (build_dir from_dir : string)
  (rpath_paths : list string) (build_rpath install_rpath : string)
  : list string :=
  if is_windows host then []
  else if PosixPath.is_nil rpath_paths && String.eqb install_rpath "" then []
  else
    let paths :=
      Py.join ":" (map (fun p => PosixPath.join build_dir p) rpath_paths) in
    let paths :=
      if negb (String.eqb build_rpath "") then paths ++ ":" ++ build_rpath
      else paths in
    let paths :=
      if Nat.ltb (String.length paths) (String.length install_rpath) then
        let padding :=
          Py.repeat_char "X"
            (String.length install_rpath - String.length paths) in
        if String.eqb paths "" then padding else paths ++ ":" ++ padding
      else paths in
    ["-Wl,-rpath," ++ paths].

End Methods.

End DmdLikeCompilerMixin.

(** ** [DCompiler] *)

Module DCompiler.

Definition mscrt_args : list (string * list string) :=
  [ ("none", ["-mscrtlib="]);
    ("md", ["-mscrtlib=msvcrt"]);
    ("mdd", ["-mscrtlib=msvcrtd"]);
    ("mt", ["-mscrtlib=libcmt"]);
    ("mtd", ["-mscrtlib=libcmtd"]) ].

Definition get_pic_args (host : platform) : list string :=
  if is_windows host then [] else ["-fPIC"].

(** The body of [DCompiler.get_feature_args] is, line for line, the one of
    the mixin. *)
Definition get_feature_args := DmdLikeCompilerMixin.get_feature_args.

Definition get_target_arch_args (host : platform) (arch : string)
  : list string :=
  if is_windows host then
    if String.eqb arch "x86_64" then ["-m64"] else ["-m32"]
  else [].

End DCompiler.

(** ** [GnuLikeCompiler] and [GnuCompiler] *)

Module GnuLikeCompiler.

Definition get_pic_args (compiler_type : CompilerType) : list string :=
  if is_osx_compiler compiler_type || is_windows_compiler compiler_type
  then []
  else ["-fPIC"].

Section Paths.

(** [os.path] of a Windows host. *)
Variable ntpath : os_path_module.

Definition absolute_paths_step (host : platform) (build_dir : string)
  (parameter_list : list string) (entry : nat * string) : list string :=
  let '(idx, i) := entry in
  if String.eqb (Py.take 2 i) "-I" || String.eqb (Py.take 2 i) "-L" then
    Py.setitem parameter_list idx
      (Py.take 2 i
       ++ path_normpath (os_path ntpath host)
            (path_join (os_path ntpath host) build_dir (Py.drop 2 i)))
  else parameter_list.

Definition compute_parameters_with_absolute_paths (host : platform)
  (parameter_list : list string) (build_dir : string) : list string :=
  fold_left (absolute_paths_step host build_dir)
    (Py.enumerate parameter_list) parameter_list.

End Paths.

Definition sanitizer_compile_args (value : string) : list string :=
  if String.eqb value "none" then []
  else
    let args := ["-fsanitize=" ++ value] in
    if Py.contains_sub value "address"
    then Py.append args "-fno-omit-frame-pointer"
    else args.

Definition get_include_args (path : string) (is_system : bool)
  : list string :=
  if is_system then ["-isystem" ++ path] else ["-I" ++ path].

End GnuLikeCompiler.

Module GnuCompiler.

Section Methods.

(** [mesonlib.version_compare(version, condition)], defined outside these
    two files. *)
Variable version_compare : string -> string -> bool.

Definition get_colorout_args (version colortype : string)
  : result (list string) :=
  if version_compare version ">=4.9.0"
  then Py.getitem gnu_color_args colortype
  else Ok [].

(** The method [super()] resolves to, defined outside these two files. *)
Variable super_get_warn_args : string -> result (list string).

(** The flag is replaced where [args.index] finds it, the first place; under
    the membership test the index exists. *)
Definition get_warn_args (version level : string) : result (list string) :=
  args <- super_get_warn_args level ;;
  if version_compare version "<4.8.0" && Py.mem "-Wpedantic" args then
    match Py.list_index "-Wpedantic" args with
    | Some idx => Ok (Py.setitem args idx "-pedantic")
    | None => Ok args
    end
  else Ok args.

End Methods.

Definition get_optimization_args (optimization_level : string)
  : result (list string) :=
  Py.getitem gnu_optimization_args optimization_level.

(** Inherited from [GnuLikeCompiler]. *)
Definition get_pic_args := GnuLikeCompiler.get_pic_args.

End GnuCompiler.

(** ** [GnuDCompiler] *)

Module GnuDCompiler.

(** The two capabilities [__init__] derives from the version. *)
Record self_t : Type := {
  _has_color_support : bool;
  _has_deps_support : bool
}.

Section Methods.

Variable version_compare : string -> string -> bool.

Definition init (version : string) : self_t :=
  {| _has_color_support := version_compare version ">=4.9";
     _has_deps_support := version_compare version ">=7.1" |}.

(** The method that [super()] resolves to. *)
Variable super_get_colorout_args : string -> result (list string).

(** The value of the [super()] call is computed and dropped: the statement
    has no [return].  Only an exception of the call can escape. *)
Definition get_colorout_args (self : self_t) (colortype : string)
  : result (list string) :=
  _ <- (if _has_color_support self
        then super_get_colorout_args colortype
        else Ok []) ;;
  Ok [].

End Methods.

(** [DCompiler] comes first in the method resolution order. *)
Definition get_pic_args := DCompiler.get_pic_args.

(** The override repeats the body of [GnuLikeCompiler]. *)
Definition compute_parameters_with_absolute_paths :=
  GnuLikeCompiler.compute_parameters_with_absolute_paths.

End GnuDCompiler.

(** ** [LLVMDCompiler] and [DmdDCompiler] *)

Module LLVMDCompiler.

Definition get_pic_args (host : platform) : list string :=
  ["-relocation-model=pic"].

Definition get_crt_link_args (host : platform) (crt_val buildtype : string)
  : result (list string) :=
  DmdLikeCompilerMixin.get_crt_args host DCompiler.mscrt_args crt_val
    buildtype.

Definition unix_args_to_native (host : platform) (args : list string)
  : list string :=
  DmdLikeCompilerMixin.translate_args_to_nongnu host LLVMDCompiler_cls args.

Definition get_optimization_args (optimization_level : string)
  : result (list string) :=
  Py.getitem ldc_optimization_args optimization_level.

End LLVMDCompiler.

Module DmdDCompiler.

(** Inherited from [DmdLikeCompilerMixin]. *)
Definition get_pic_args := DmdLikeCompilerMixin.get_pic_args.

Definition get_crt_compile_args (host : platform) (crt_val buildtype : string)
  : result (list string) :=
  DmdLikeCompilerMixin.get_crt_args host DCompiler.mscrt_args crt_val
    buildtype.

Definition unix_args_to_native (host : platform) (args : list string)
  : list string :=
  DmdLikeCompilerMixin.translate_args_to_nongnu host DmdDCompiler_cls args.

Definition get_optimization_args (optimization_level : string)
  : result (list string) :=
  Py.getitem dmd_optimization_args optimization_level.

Definition get_std_exe_link_args (host : platform) (arch : string)
  : list string :=
  if is_windows host then
    if String.eqb arch "x86_64" then ["phobos64.lib"]
    else if String.eqb arch "x86_mscoff" then ["phobos32mscoff.lib"]
    else ["phobos.lib"]
  else [].

Definition get_std_shared_lib_link_args (host : platform) (arch : string)
  : list string :=
  let libname := "libphobos2.so" in
  let libname :=
    if is_windows host then
      if String.eqb arch "x86_64" then "phobos64.lib"
      else if String.eqb arch "x86_mscoff" then "phobos32mscoff.lib"
      else "phobos.lib"
    else libname in
  ["-shared"; "-defaultlib=" ++ libname].

Definition get_target_arch_args (host : platform) (arch : string)
  : list string :=
  if is_windows host then
    if String.eqb arch "x86_64" then ["-m64"]
    else if String.eqb arch "x86_mscoff" then ["-m32mscoff"]
    else ["-m32"]
  else [].

End DmdDCompiler.

(** ** The include-directory probe of [gnu.py] *)

Definition newline : ascii := ascii_of_nat 10.

Definition quote_marker : string :=
  "#include " ++ Py.dquote ++ "..." ++ Py.dquote ++ " search starts here:".

Definition angle_marker : string := "#include <...> search starts here:".

Definition end_marker : string := "End of search list.".

(** The loop over the lines of the diagnostic stream; [break] ends it with
    the paths collected so far. *)
Fixpoint include_dirs_loop (parse_state : nat) (paths : list string)
  (lines : list string) : list string :=
  match lines with
  | [] => paths
  | line :: rest =>
      if Nat.eqb parse_state 0 then
        if String.eqb line quote_marker
        then include_dirs_loop 1 paths rest
        else include_dirs_loop parse_state paths rest
      else if Nat.eqb parse_state 1 then
        if String.eqb line angle_marker
        then include_dirs_loop 2 paths rest
        else include_dirs_loop parse_state (Py.append paths (Py.drop 1 line))
               rest
      else if Nat.eqb parse_state 2 then
        if String.eqb line end_marker
        then paths
        else include_dirs_loop parse_state (Py.append paths (Py.drop 1 line))
               rest
      else include_dirs_loop parse_state paths rest
  end.

(** [gnulike_default_include_dirs], given the text the compiler wrote on
    its diagnostic stream: the paths returned and the warnings logged. *)
Definition gnulike_default_include_dirs (compiler : list string)
  (lang : string) (stderr : string) : list string * list string :=
  let lang := if String.eqb lang "cpp" then "c++" else lang in
  let cmd := Py.extend compiler ["-x" ++ lang; "-E"; "-v"; "-"] in
  let paths := include_dirs_loop 0 [] (Py.split newline stderr) in
  let warnings :=
    if PosixPath.is_nil paths then
      ["No include directory found parsing " ++ Py.dquote
       ++ Py.join " " cmd ++ Py.dquote ++ " output"]
    else [] in
  (paths, warnings).

(** ** Vocabulary of the statements *)

(** The string is ASCII text: every character is below 128. *)
Definition ascii_text (s : string) : Prop := Py.isascii s = true.

(** The character [c] does not occur in [s]. *)
Definition free_of (c : ascii) (s : string) : Prop := Py.index c s = None.

(** Rule 1 of the translator, by the shape of the token: on Windows a
    linker-wrapped token one of whose sub-arguments names an import library,
    or a C runtime selection; on macOS an install-name flag. *)
Definition platform_rule (host : platform) (arg : string) : bool :=
  match host with
  | Windows =>
      (Py.startswith arg "-Wl,"
       && existsb (fun la => Py.startswith la "--out-implib=")
            (Py.split "," (Py.drop 4 arg)))
      || Py.startswith arg "-mscrtlib="
  | OSX => Py.startswith arg "-install_name"
  | OtherPlatform => false
  end.

(** Rule 2: the tokens dropped unconditionally. *)
Definition drop_rule (arg : string) : bool :=
  String.eqb arg "-pthread"
  || Py.startswith arg "-fstack-protector"
  || Py.startswith arg "-D".

(** Rule 8: a bare static-library-like file name. *)
Definition bare_static_library (arg : string) : bool :=
  negb (Py.startswith arg "-")
  && (Py.endswith arg ".a" || Py.endswith arg ".lib").

(** Rules 3 to 8, the rewrites common to all platforms. *)
Definition rewrite_rule (arg : string) : bool :=
  Py.startswith arg "-Wl,"
  || Py.startswith_any arg DmdLikeCompilerMixin.linker_control_prefixes
  || Py.startswith arg "-l"
  || Py.startswith arg "-isystem"
  || Py.startswith arg "-L/" || Py.startswith arg "-L./"
  || bare_static_library arg.

(** A token that no rule of the translator matches on the given host. *)
Definition unmatched (host : platform) (arg : string) : bool :=
  negb (platform_rule host arg) && negb (drop_rule arg)
  && negb (rewrite_rule arg).

(** The values the data model of a feature request allows under [debug]
    and [versions]: an integer, or a string that is either a digit-string
    or an identifier. *)
Inductive dvalue : Type :=
| DInt (n : Z)
| DStr (s : string).

Definition elem_of (d : dvalue) : elem :=
  match d with
  | DInt n => ENum (Int n)
  | DStr s => EStr s
  end.

(** The numeric level a value stands for, if it is numeric: an integer, or
    a string of decimal digits. *)
Definition numeric (d : dvalue) : option Z :=
  match d with
  | DInt n => Some n
  | DStr s => if Py.isdecimal s then Some (Py.decimal_value s) else None
  end.

(** The strings among the values are ASCII text. *)
Definition ascii_dvalue (d : dvalue) : Prop :=
  match d with
  | DInt _ => True
  | DStr s => ascii_text s
  end.

Definition ascii_elem (e : elem) : Prop :=
  match e with
  | EStr s => ascii_text s
  | _ => True
  end.

(** What stands under the key, if anything, holds ASCII strings only. *)
Definition ascii_under (key : string) (kwargs : kwargs_t) : Prop :=
  forall v, Py.lookup key kwargs = Some v -> Forall ascii_elem (as_list v).

Definition numerics (l : list dvalue) : list Z :=
  flat_map (fun d => match numeric d with Some n => [n] | None => [] end) l.

(** The identifier strings of a list of values, in input order. *)
Definition identifiers (l : list dvalue) : list string :=
  flat_map (fun d => match d, numeric d with
                     | DStr s, None => [s]
                     | _, _ => []
                     end) l.

Definition maximum (l : list Z) : option Z :=
  match l with
  | [] => None
  | n :: l' => Some (fold_left Z.max l' n)
  end.

(** The token [FLAG=text]. *)
Definition flag_token (flag text : string) : string := flag ++ "=" ++ text.

(** The tokens the specification prescribes for the values [l] under the
    flag [flag]: one per identifier, then the maximum level if there is one
    and it is not negative. *)
Definition level_tokens (flag : string) (l : list dvalue) : list string :=
  (map (flag_token flag) (identifiers l)
   ++ match maximum (numerics l) with
      | Some m => if Z.leb 0 m then [flag_token flag (Py.str m)] else []
      | None => []
      end)%list.

(** The keys of a feature request the builder knows. *)
Definition recognized (k : string) : bool :=
  existsb (String.eqb k) ["unittest"; "debug"; "versions"; "import_dirs"].

(** The request restricted to the keys the builder knows. *)
Definition known_part (kwargs : kwargs_t) : kwargs_t :=
  filter (fun kv => recognized (fst kv)) kwargs.

(** The other keys of the request, in the order of the request. *)
Definition unrecognized_keys (kwargs : kwargs_t) : list string :=
  filter (fun k => negb (recognized k)) (Py.keys kwargs).

(** Every element of the value is a directory-description object. *)
Definition directory_objects (v : value) : Prop :=
  Forall (fun e => exists d, e = EObj d) (as_list v).

(** The request is one of the data model: its family is one of the three
    of the feature table, what stands under [import_dirs] is one
    directory-description object or a list of them, and the identifiers
    and levels under [debug] and [versions] are ASCII text. *)
Definition well_formed_request (self : DCompiler_self) (kwargs : kwargs_t)
  : Prop :=
  In (id self) ["gcc"; "llvm"; "dmd"]
  /\ (forall v,
         Py.lookup "import_dirs" kwargs = Some v -> directory_objects v)
  /\ ascii_under "debug" kwargs
  /\ ascii_under "versions" kwargs.

Definition unknown_feature_error (keys : list string) : exn :=
  EnvironmentException
    ("Unknown D compiler feature(s) selected: " ++ Py.join ", " keys).

(** The path-flag prefixes each family recognizes. *)
Definition dmd_path_flag (arg : string) : bool :=
  Py.startswith arg "-I=" || Py.startswith arg "-L-L"
  || Py.startswith arg "-L=-L" || Py.startswith arg "-Wl,-L".

Definition gnu_path_flag (arg : string) : bool :=
  Py.startswith arg "-I" || Py.startswith arg "-L".

(** A path component [normpath] keeps: not empty, not a dot, not two dots,
    and free of the separator. *)
Definition clean (comp : string) : Prop :=
  comp <> "" /\ comp <> "." /\ comp <> ".." /\ free_of "/" comp.

(** A normalized absolute path of [posixpath]: one or two slashes, then
    clean components joined by single slashes. *)
Definition normal_absolute (path : string) : Prop :=
  exists (k : nat) (comps : list string),
    (k = 1 \/ k = 2) /\ Forall clean comps
    /\ path = PosixPath.slashes_string k ++ Py.join "/" comps.

(** The token of one include subdirectory [idir] of a directory object
    whose base directory is [basedir], on a host other than Windows. *)
Definition import_dir_token (flag build_to_src basedir idir : string)
  : string :=
  flag ++ PosixPath.join build_to_src
            (if String.eqb idir "" || String.eqb idir "." then basedir
             else PosixPath.join basedir idir).

(** One token per pair of a directory object and one of its
    subdirectories, the objects in order and, within an object, the
    subdirectories in order. *)
Definition import_dir_tokens (flag build_to_src : string)
  (objs : list IncludeDirs) : list string :=
  flat_map (fun o => map (import_dir_token flag build_to_src (get_curdir o))
                       (get_incdirs o)) objs.

(** * Properties *)

(** ** Facts about the string primitives *)

Module PyFacts.

Example split_ex : Py.split "," "a,b,,c" = ["a"; "b"; ""; "c"].
Proof. reflexivity. Qed.

Example strip_ex : Py.strip "  a b  " = "a b".
Proof. reflexivity. Qed.

Example endswith_ex :
  Py.endswith "libfoo.a" ".a" = true /\ Py.endswith "a" ".a" = false
  /\ Py.endswith ".a" ".a" = true /\ Py.endswith "x.lib" ".a" = false.
Proof. repeat split. Qed.

Example str_ex : Py.str 0 = "0" /\ Py.str 30 = "30" /\ Py.str (-4) = "-4".
Proof. repeat split. Qed.

(** The superscript two is a digit that [int] refuses. *)
Example superscript_ex :
  let two := String (ascii_of_nat 178) "" in
  Py.isdigit two = true /\ Py.isdecimal two = false
  /\ Py.int two = Err ValueError.
Proof. repeat split. Qed.

(** The no-break space and the next-line character are stripped. *)
Example strip_latin_ex :
  Py.strip (String (ascii_of_nat 160) ("a" ++ String (ascii_of_nat 133) ""))
  = "a".
Proof. reflexivity. Qed.

(** On ASCII text the digits are the decimal digits. *)
Lemma isdigit_char_ascii (c : ascii) :
  Nat.ltb (nat_of_ascii c) 128 = true ->
  Py.isdigit_char c = Py.isdecimal_char c.
Proof.
  unfold Py.isdigit_char. intros H. apply Nat.ltb_lt in H.
  destruct (Nat.eqb_spec (nat_of_ascii c) 178) as [E|_]; [lia|].
  destruct (Nat.eqb_spec (nat_of_ascii c) 179) as [E|_]; [lia|].
  destruct (Nat.eqb_spec (nat_of_ascii c) 185) as [E|_]; [lia|].
  now rewrite !orb_false_r.
Qed.

Lemma all_digits_ascii (s : string) :
  Py.isascii s = true -> Py.all_digits s = Py.all_decimal s.
Proof.
  induction s as [|c s IH]; [reflexivity|].
  cbn [Py.isascii Py.all_digits Py.all_decimal].
  intros H. apply andb_true_iff in H as [Hc Hs].
  now rewrite (isdigit_char_ascii c Hc), (IH Hs).
Qed.

Lemma isdigit_ascii (s : string) :
  Py.isascii s = true -> Py.isdigit s = Py.isdecimal s.
Proof.
  intros H. destruct s as [|c s]; [reflexivity|].
  unfold Py.isdigit, Py.isdecimal. now apply all_digits_ascii.
Qed.

(** [int] succeeds on the ASCII strings for which [isdigit] holds. *)
Lemma int_ascii (s : string) :
  Py.isascii s = true -> Py.isdigit s = true ->
  Py.int s = Ok (Py.decimal_value s).
Proof.
  intros Ha Hd. unfold Py.int. now rewrite <- (isdigit_ascii s Ha), Hd.
Qed.

Example int_ex : Py.int "007" = Ok 7%Z /\ Py.isdigit "007" = true
                 /\ Py.isdigit "" = false /\ Py.isdigit "1a" = false.
Proof. repeat split. Qed.

Lemma startswith_app (p r : string) : Py.startswith (p ++ r) p = true.
Proof.
  induction p as [|c p IH]; simpl; [reflexivity|].
  now rewrite Ascii.eqb_refl, IH.
Qed.

Lemma startswith_inv (p s : string) :
  Py.startswith s p = true -> s = p ++ Py.drop (String.length p) s.
Proof.
  revert s; induction p as [|c p IH]; intros s H; simpl in *; [reflexivity|].
  destruct s as [|a s]; [discriminate|].
  apply andb_true_iff in H as [Hc Hs].
  apply Ascii.eqb_eq in Hc; subst a.
  simpl; f_equal; now apply IH.
Qed.

(** A string that lacks a prefix lacks every extension of it. *)
Lemma startswith_extend_false (p q s : string) :
  Py.startswith s p = false -> Py.startswith s (p ++ q) = false.
Proof.
  revert s; induction p as [|c p IH]; intros s H; simpl in *; [discriminate|].
  destruct s as [|a s]; [reflexivity|].
  destruct (Ascii.eqb a c); simpl in *; [now apply IH | reflexivity].
Qed.

Lemma drop_app (p r : string) : Py.drop (String.length p) (p ++ r) = r.
Proof. induction p; simpl; auto. Qed.

Lemma take_app (p r : string) : Py.take (String.length p) (p ++ r) = p.
Proof. induction p; simpl; [now destruct r | now f_equal]. Qed.

Lemma take_drop (n : nat) (s : string) : Py.take n s ++ Py.drop n s = s.
Proof.
  revert s; induction n as [|n IH]; intros [|c s]; simpl; auto.
  now rewrite IH.
Qed.

Lemma take_length_le (n : nat) (s : string) :
  String.length (Py.take n s) <= n.
Proof.
  revert s; induction n as [|n IH]; intros [|c s]; simpl; auto with arith.
Qed.

(** [s[:n] == p] for a [p] of [n] characters is [s.startswith(p)]. *)
Lemma take_eqb_inv (p s : string) :
  String.eqb (Py.take (String.length p) s) p = true ->
  s = p ++ Py.drop (String.length p) s.
Proof.
  intros H; apply String.eqb_eq in H.
  rewrite <- H at 1. symmetry; apply take_drop.
Qed.

Lemma append_nil_r (s : string) : s ++ "" = s.
Proof. induction s; simpl; congruence. Qed.

Lemma append_assoc (a b c : string) : (a ++ b) ++ c = a ++ (b ++ c).
Proof. induction a; simpl; congruence. Qed.

Lemma length_append (a b : string) :
  String.length (a ++ b) = String.length a + String.length b.
Proof. induction a; simpl; auto. Qed.

Lemma free_of_cons (c a : ascii) (s : string) :
  free_of c (String a s) <-> Ascii.eqb a c = false /\ free_of c s.
Proof.
  unfold free_of; simpl. destruct (Ascii.eqb a c); split.
  - discriminate.
  - intros [? _]; discriminate.
  - destruct (Py.index c s); [discriminate | auto].
  - intros [_ ->]; reflexivity.
Qed.

Lemma split_free (c : ascii) (s : string) :
  free_of c s -> Py.split c s = [s].
Proof.
  induction s as [|a s IH]; intros H; simpl; [reflexivity|].
  apply free_of_cons in H as [Ha Hs].
  now rewrite Ha, (IH Hs).
Qed.

Lemma split_app_sep (c : ascii) (s r : string) :
  free_of c s ->
  Py.split c (s ++ String c r) = s :: Py.split c r.
Proof.
  induction s as [|a s IH]; intros H; simpl.
  - now rewrite Ascii.eqb_refl.
  - apply free_of_cons in H as [Ha Hs].
    now rewrite Ha, (IH Hs).
Qed.

(** Splitting undoes joining when no item holds the separator. *)
Lemma split_join (c : ascii) (x : string) (l : list string) :
  Forall (free_of c) (x :: l) ->
  Py.split c (Py.join (String c "") (x :: l)) = x :: l.
Proof.
  revert x; induction l as [|y l IH]; intros x H.
  - simpl. apply split_free. now inversion H.
  - inversion H as [|? ? Hx Hl]; subst.
    change (Py.join (String c "") (x :: y :: l))
      with (x ++ String c (Py.join (String c "") (y :: l))).
    rewrite split_app_sep by assumption.
    now rewrite IH.
Qed.

Lemma split_not_nil (c : ascii) (s : string) : Py.split c s <> [].
Proof.
  induction s as [|a s IH]; simpl; [discriminate|].
  destruct (Ascii.eqb a c); [discriminate|].
  destruct (Py.split c s); discriminate.
Qed.

(** No component of a split holds the separator. *)
Lemma split_free_of (c : ascii) (s : string) :
  Forall (free_of c) (Py.split c s).
Proof.
  induction s as [|a s IH]; simpl.
  - constructor; [reflexivity | constructor].
  - destruct (Ascii.eqb a c) eqn:E.
    + constructor; [reflexivity | assumption].
    + destruct (Py.split c s) as [|w ws].
      * constructor; [|constructor]. apply free_of_cons; now split.
      * inversion IH; subst. constructor; [|assumption].
        apply free_of_cons; now split.
Qed.

Lemma fold_append {A B : Type} (f : B -> A) (l : list B) (acc : list A) :
  fold_left (fun acc x => Py.append acc (f x)) l acc = (acc ++ map f l)%list.
Proof.
  revert acc; induction l as [|x l IH]; intros acc; simpl.
  - now rewrite app_nil_r.
  - rewrite IH. unfold Py.append. now rewrite <- app_assoc.
Qed.

End PyFacts.

(** ** The argument translator *)

Module TranslatorFacts.

Import DmdLikeCompilerMixin.

Lemma startswith_dash (s q : string) :
  Py.startswith s "-" = false -> Py.startswith s (String "-" q) = false.
Proof. exact (PyFacts.startswith_extend_false "-" q s). Qed.

Lemma fold_cond_append {A B : Type} (c : B -> bool) (f : B -> A)
  (l : list B) (acc : list A) :
  fold_left (fun acc x => if c x then Py.append acc (f x) else acc) l acc
  = (acc ++ map f (filter c l))%list.
Proof.
  revert acc; induction l as [|x l IH]; intros acc; simpl.
  - now rewrite app_nil_r.
  - rewrite IH. destruct (c x); [|reflexivity].
    unfold Py.append; simpl. now rewrite <- app_assoc.
Qed.

(** Under the guard of the linker rule the comma is there, and the slice
    is what follows the prefix. *)
Lemma index_comma_Wl (r : string) :
  Py.index "," ("-Wl," ++ r) = Some 3
  /\ after_first_comma ("-Wl," ++ r) = r.
Proof. split; reflexivity. Qed.

Lemma after_first_comma_Wl (arg : string) :
  Py.startswith arg "-Wl," = true -> after_first_comma arg = Py.drop 4 arg.
Proof.
  intros H. pose proof (PyFacts.startswith_inv _ _ H) as E.
  change (String.length "-Wl,") with 4 in E.
  rewrite E at 1. reflexivity.
Qed.

(** An iteration only appends to [dcargs]. *)
Lemma translate_step_app host cls dcargs arg :
  translate_step host cls dcargs arg
  = (dcargs ++ translate_step host cls [] arg)%list.
Proof.
  unfold translate_step; cbv zeta.
  rewrite !PyFacts.fold_append.
  repeat match goal with
         | |- context [if ?b then _ else _] => destruct b
         end;
    unfold Py.append, Py.extend; simpl; now rewrite ?app_nil_r.
Qed.

Lemma translate_fold host cls args acc :
  fold_left (translate_step host cls) args acc
  = (acc ++ flat_map (translate_step host cls []) args)%list.
Proof.
  revert acc; induction args as [|a args IH]; intros acc; simpl.
  - now rewrite app_nil_r.
  - rewrite IH, (translate_step_app host cls acc a). now rewrite <- app_assoc.
Qed.

(** The translation is the concatenation, in order, of what each token
    yields on its own. *)
Lemma translate_flat_map host cls args :
  translate_args_to_nongnu host cls args
  = flat_map (translate_step host cls []) args.
Proof. unfold translate_args_to_nongnu. now rewrite translate_fold. Qed.

Lemma translate_at host cls pre arg post :
  translate_args_to_nongnu host cls (pre ++ arg :: post)%list
  = (translate_args_to_nongnu host cls pre
     ++ translate_step host cls [] arg
     ++ translate_args_to_nongnu host cls post)%list.
Proof. rewrite !translate_flat_map, flat_map_app. reflexivity. Qed.

Lemma is_nil_map_filter {A B : Type} (c : A -> bool) (f : A -> B)
  (l : list A) :
  PosixPath.is_nil (map f (filter c l)) = negb (existsb c l).
Proof.
  induction l as [|x l IH]; cbn [filter existsb]; [reflexivity|].
  destruct (c x); [reflexivity | exact IH].
Qed.

(** The platform rewrite yields tokens exactly for the tokens of rule 1. *)
Lemma os_specific_args_nil host cls arg :
  PosixPath.is_nil (os_specific_args host cls arg)
  = negb (platform_rule host arg).
Proof.
  unfold os_specific_args, platform_rule.
  destruct host; cbn [is_windows is_osx]; [| |reflexivity].
  - unfold translate_arg_to_windows; cbv zeta.
    destruct (Py.startswith arg "-Wl,") eqn:HW.
    + rewrite (after_first_comma_Wl arg HW).
      replace (Py.startswith arg "-mscrtlib=") with false
        by (rewrite (PyFacts.startswith_inv _ _ HW); reflexivity).
      rewrite fold_cond_append, orb_false_r. cbn [andb app].
      apply is_nil_map_filter.
    + cbn [andb orb]. destruct (Py.startswith arg "-mscrtlib="); [|reflexivity].
      destruct cls; cbn [is_LLVMDCompiler]; [|reflexivity].
      repeat match goal with
             | |- context [if ?b then _ else _] => destruct b
             end; reflexivity.
  - unfold translate_arg_to_osx.
    destruct (Py.startswith arg "-install_name"); reflexivity.
Qed.

Lemma os_specific_args_unmatched host cls arg :
  platform_rule host arg = false -> os_specific_args host cls arg = [].
Proof.
  intros H. pose proof (os_specific_args_nil host cls arg) as E.
  rewrite H in E. now destruct (os_specific_args host cls arg).
Qed.


(** Conditions of the chain that fail because of the way [arg] begins. *)
Ltac by_shape arg H :=
  repeat match goal with
    | |- context [Py.startswith arg ?q] =>
        let F := fresh "F" in
        assert (F : Py.startswith arg q = false)
          by (rewrite (PyFacts.startswith_inv _ _ H); reflexivity);
        rewrite F; clear F
    | |- context [String.eqb arg ?q] =>
        let F := fresh "F" in
        assert (F : String.eqb arg q = false)
          by (rewrite (PyFacts.startswith_inv _ _ H); reflexivity);
        rewrite F; clear F
    end.

Lemma platform_rule_shape host arg p :
  Py.startswith arg p = true ->
  (forall r, platform_rule Windows (p ++ r) = false) ->
  (forall r, platform_rule OSX (p ++ r) = false) ->
  platform_rule host arg = false.
Proof.
  intros H HW HO. rewrite (PyFacts.startswith_inv _ _ H).
  destruct host; [apply HW | apply HO | reflexivity].
Qed.

(** A token that no rule matches is appended as it is. *)
Lemma step_unmatched host cls arg :
  unmatched host arg = true -> translate_step host cls [] arg = [arg].
Proof.
  unfold unmatched, drop_rule, rewrite_rule. intros H.
  repeat (apply andb_true_iff in H; destruct H as [H ?]).
  repeat match goal with
         | X : negb _ = true |- _ => apply negb_true_iff in X
         | X : _ || _ = false |- _ => apply orb_false_iff in X; destruct X
         end.
  assert (Hb : negb (Py.startswith arg "-")
               && Py.endswith_any arg [".a"; ".lib"] = false).
  { unfold bare_static_library in *. cbn [Py.endswith_any existsb].
    now rewrite orb_false_r. }
  unfold translate_step; cbv zeta.
  rewrite (os_specific_args_unmatched host cls arg) by assumption.
  cbn [PosixPath.is_nil negb].
  repeat match goal with
         | X : ?c = false |- context [?c] => rewrite X
         end.
  reflexivity.
Qed.

(** A bare static library is handed to the linker, on every platform. *)
Lemma step_bare_static host cls arg :
  bare_static_library arg = true ->
  translate_step host cls [] arg = ["-L=" ++ arg].
Proof.
  unfold bare_static_library. intros H.
  apply andb_true_iff in H as [Hd He].
  apply negb_true_iff in Hd.
  assert (Hp : platform_rule host arg = false).
  { destruct host; cbn [platform_rule];
      now rewrite ?(startswith_dash arg _ Hd). }
  assert (Hq : String.eqb arg "-pthread" = false).
  { apply String.eqb_neq. intros ->. discriminate. }
  unfold translate_step; cbv zeta.
  rewrite (os_specific_args_unmatched host cls arg Hp).
  cbn [PosixPath.is_nil negb Py.startswith_any linker_control_prefixes existsb].
  rewrite Hq, !(startswith_dash arg _ Hd).
  cbn [orb negb andb Py.endswith_any existsb]. rewrite orb_false_r, He.
  reflexivity.
Qed.

(** Only the three drop rules leave a token without output. *)
Lemma step_not_dropped host cls arg :
  drop_rule arg = false -> translate_step host cls [] arg <> [].
Proof.
  unfold drop_rule. intros H.
  apply orb_false_iff in H as [H H3]. apply orb_false_iff in H as [H1 H2].
  unfold translate_step; cbv zeta. rewrite H1, H2, H3.
  rewrite PyFacts.fold_append.
  pose proof (PyFacts.split_not_nil "," (after_first_comma arg)) as Hs.
  destruct (os_specific_args host cls arg) as [|o os]; cbn [PosixPath.is_nil negb];
    [|discriminate].
  destruct (Py.split "," (after_first_comma arg)); [contradiction|].
  repeat match goal with
         | |- context [if ?b then _ else _] => destruct b
         end; discriminate.
Qed.

(** A linker-wrapped token the platform leaves alone is unwrapped into one
    linker-pass token per sub-argument. *)
Lemma step_linker_wrapped host cls a rest :
  Forall (free_of ",") (a :: rest) ->
  platform_rule host ("-Wl," ++ Py.join "," (a :: rest)) = false ->
  translate_step host cls [] ("-Wl," ++ Py.join "," (a :: rest))
  = map (fun la => "-L=" ++ Py.strip la) (a :: rest).
Proof.
  intros Hfree Hp.
  set (arg := "-Wl," ++ Py.join "," (a :: rest)) in *.
  assert (HW : Py.startswith arg "-Wl," = true)
    by apply PyFacts.startswith_app.
  unfold translate_step; cbv zeta.
  rewrite (os_specific_args_unmatched host cls arg Hp).
  cbn [PosixPath.is_nil negb].
  by_shape arg HW. rewrite HW.
  rewrite PyFacts.fold_append, (after_first_comma_Wl arg HW).
  unfold arg. change 4 with (String.length "-Wl,").
  rewrite PyFacts.drop_app.
  rewrite (PyFacts.split_join "," a rest Hfree). reflexivity.
Qed.

(** A short library flag is wrapped whole. *)
Lemma step_short_library host cls arg :
  Py.startswith arg "-l" = true ->
  Py.startswith_any arg linker_control_prefixes = false ->
  translate_step host cls [] arg = ["-L=" ++ arg].
Proof.
  intros Hl Hc.
  assert (Hp : platform_rule host arg = false)
    by (apply (platform_rule_shape host arg "-l" Hl); reflexivity).
  unfold translate_step; cbv zeta.
  rewrite (os_specific_args_unmatched host cls arg Hp), Hc.
  cbn [PosixPath.is_nil negb].
  by_shape arg Hl. rewrite Hl. reflexivity.
Qed.

(** A system-include flag yields one include token. *)
Lemma step_isystem host cls arg :
  Py.startswith arg "-isystem" = true ->
  translate_step host cls [] arg
  = [if Py.startswith arg "-isystem=" then "-I=" ++ Py.drop 9 arg else "-I"].
Proof.
  intros Hi.
  assert (Hp : platform_rule host arg = false)
    by (apply (platform_rule_shape host arg "-isystem" Hi); reflexivity).
  assert (Hc : Py.startswith_any arg linker_control_prefixes = false)
    by (rewrite (PyFacts.startswith_inv _ _ Hi); reflexivity).
  unfold translate_step; cbv zeta.
  rewrite (os_specific_args_unmatched host cls arg Hp), Hc.
  cbn [PosixPath.is_nil negb].
  by_shape arg Hi. rewrite Hi.
  destruct (Py.startswith arg "-isystem="); reflexivity.
Qed.

End TranslatorFacts.

(** C1. [translate_args_to_nongnu] never silently deletes a token.  On
    every host platform and for both classes of the mixin, wherever a token
    stands in the input vector: a token that none of the rewrite or drop
    rules matches appears unchanged at its place in the output; a bare
    static-library file name (no leading dash, ending in .a or .lib) is
    replaced at its place by the one token made of the linker-pass prefix
    -L= and the file name; and only the three drop rules make a token
    vanish, every other token yielding at least one output token. *)
Theorem translate_never_deletes_token
  (host : platform) (cls : dmd_like_class) (pre post : list string)
  (arg : string) :
  (unmatched host arg = true ->
   DmdLikeCompilerMixin.translate_args_to_nongnu host cls
     (pre ++ arg :: post)%list
   = (DmdLikeCompilerMixin.translate_args_to_nongnu host cls pre
      ++ arg
      :: DmdLikeCompilerMixin.translate_args_to_nongnu host cls post)%list)
  /\ (bare_static_library arg = true ->
      DmdLikeCompilerMixin.translate_args_to_nongnu host cls
        (pre ++ arg :: post)%list
      = (DmdLikeCompilerMixin.translate_args_to_nongnu host cls pre
         ++ ("-L=" ++ arg)%string
         :: DmdLikeCompilerMixin.translate_args_to_nongnu host cls post)%list)
  /\ (drop_rule arg = false ->
      DmdLikeCompilerMixin.translate_args_to_nongnu host cls [arg] <> []).
Proof.
  repeat split; intros H.
  - rewrite TranslatorFacts.translate_at.
    now rewrite (TranslatorFacts.step_unmatched host cls arg H).
  - rewrite TranslatorFacts.translate_at.
    now rewrite (TranslatorFacts.step_bare_static host cls arg H).
  - rewrite TranslatorFacts.translate_flat_map. cbn [flat_map].
    rewrite app_nil_r. now apply TranslatorFacts.step_not_dropped.
Qed.

Lemma translate_never_deletes_token_witness :
  DmdLikeCompilerMixin.translate_args_to_nongnu Windows LLVMDCompiler_cls
    ["-O"; "static.a"; "-pthread"; "-g"]
  = ["-O"; "-L=static.a"; "-g"]
  /\ DmdLikeCompilerMixin.translate_args_to_nongnu OSX DmdDCompiler_cls
       ["-DX"; "-release"; "x.lib"]
     = ["-release"; "-L=x.lib"]
  /\ DmdLikeCompilerMixin.translate_args_to_nongnu OtherPlatform
       DmdDCompiler_cls ["-Wl,"]
     <> [].
Proof.
  split; [|split].
  - exact (proj1 (proj2 (translate_never_deletes_token Windows
             LLVMDCompiler_cls ["-O"] ["-pthread"; "-g"] "static.a"))
             eq_refl).
  - exact (proj1 (translate_never_deletes_token OSX DmdDCompiler_cls
             ["-DX"] ["x.lib"] "-release") eq_refl).
  - exact (proj2 (proj2 (translate_never_deletes_token OtherPlatform
             DmdDCompiler_cls [] [] "-Wl,")) eq_refl).
Defined.

(** C2. In [translate_args_to_nongnu], a token -Wl,a1,...,an of ASCII
    sub-arguments that the platform rule does not consume is replaced, at
    its place, by the n tokens -L=a1 ... -L=an, each sub-argument stripped
    of surrounding white space and the order kept; a token that begins
    with -l and with
    none of the linker-control prefixes is replaced by the single token
    -L= followed by the whole token; so -lfoo alone yields -L=-lfoo. *)
Theorem linker_args_unwrapped_and_short_lib_wrapped
  (host : platform) (cls : dmd_like_class) (pre post : list string) :
  (forall (a : string) (rest : list string),
      Forall (free_of ",") (a :: rest) ->
      Forall ascii_text (a :: rest) ->
      platform_rule host ("-Wl," ++ Py.join "," (a :: rest)) = false ->
      DmdLikeCompilerMixin.translate_args_to_nongnu host cls
        (pre ++ ("-Wl," ++ Py.join "," (a :: rest))%string :: post)%list
      = (DmdLikeCompilerMixin.translate_args_to_nongnu host cls pre
         ++ map (fun la => ("-L=" ++ Py.strip la)%string) (a :: rest)
         ++ DmdLikeCompilerMixin.translate_args_to_nongnu host cls post)%list)
  /\ (forall arg : string,
         Py.startswith arg "-l" = true ->
         Py.startswith_any arg DmdLikeCompilerMixin.linker_control_prefixes
         = false ->
         DmdLikeCompilerMixin.translate_args_to_nongnu host cls
           (pre ++ arg :: post)%list
         = (DmdLikeCompilerMixin.translate_args_to_nongnu host cls pre
            ++ ("-L=" ++ arg)%string
            :: DmdLikeCompilerMixin.translate_args_to_nongnu host cls post)%list)
  /\ DmdLikeCompilerMixin.translate_args_to_nongnu host cls ["-lfoo"]
     = ["-L=-lfoo"].
Proof.
  repeat split.
  - intros a rest Hfree _ Hp. rewrite TranslatorFacts.translate_at.
    now rewrite (TranslatorFacts.step_linker_wrapped host cls a rest Hfree Hp).
  - intros arg Hl Hc. rewrite TranslatorFacts.translate_at.
    now rewrite (TranslatorFacts.step_short_library host cls arg Hl Hc).
  - rewrite TranslatorFacts.translate_flat_map. cbn [flat_map].
    rewrite app_nil_r.
    now apply TranslatorFacts.step_short_library.
Qed.

Lemma linker_args_unwrapped_and_short_lib_wrapped_witness :
  DmdLikeCompilerMixin.translate_args_to_nongnu Windows DmdDCompiler_cls
    ["-g"; "-Wl,-rpath, /opt/lib ,--as-needed"; "-O"]
  = ["-g"; "-L=-rpath"; "-L=/opt/lib"; "-L=--as-needed"; "-O"]
  /\ DmdLikeCompilerMixin.translate_args_to_nongnu OSX LLVMDCompiler_cls
       ["-g"; "-lz"; "-release"]
     = ["-g"; "-L=-lz"; "-release"].
Proof.
  split.
  - refine (proj1 (linker_args_unwrapped_and_short_lib_wrapped Windows
              DmdDCompiler_cls ["-g"] ["-O"])
              "-rpath" [" /opt/lib "; "--as-needed"] _ _ eq_refl);
      repeat constructor.
  - exact (proj1 (proj2 (linker_args_unwrapped_and_short_lib_wrapped OSX
              LLVMDCompiler_cls ["-g"] ["-release"]))
              "-lz" eq_refl eq_refl).
Defined.

(** C8. In [translate_args_to_nongnu], every token that begins with
    -isystem yields exactly one include token at its place: the equals
    form -isystem=path becomes -I=path, keeping the path, and every other
    spelling, the attached form -isystempath included, becomes the bare
    token -I. *)
Theorem system_include_rewritten
  (host : platform) (cls : dmd_like_class) (pre post : list string) :
  (forall path : string,
      DmdLikeCompilerMixin.translate_args_to_nongnu host cls
        (pre ++ ("-isystem=" ++ path)%string :: post)%list
      = (DmdLikeCompilerMixin.translate_args_to_nongnu host cls pre
         ++ ("-I=" ++ path)%string
         :: DmdLikeCompilerMixin.translate_args_to_nongnu host cls post)%list)
  /\ (forall arg : string,
         Py.startswith arg "-isystem" = true ->
         Py.startswith arg "-isystem=" = false ->
         DmdLikeCompilerMixin.translate_args_to_nongnu host cls
           (pre ++ arg :: post)%list
         = (DmdLikeCompilerMixin.translate_args_to_nongnu host cls pre
            ++ "-I"
            :: DmdLikeCompilerMixin.translate_args_to_nongnu host cls post)%list)
  /\ DmdLikeCompilerMixin.translate_args_to_nongnu host cls
       ["-isystem/usr/include"]
     = ["-I"].
Proof.
  repeat split.
  - intros path. rewrite TranslatorFacts.translate_at.
    rewrite TranslatorFacts.step_isystem
      by (exact (PyFacts.startswith_app "-isystem" ("=" ++ path))).
    rewrite (PyFacts.startswith_app "-isystem=" path).
    change 9 with (String.length "-isystem=").
    now rewrite PyFacts.drop_app.
  - intros arg Hi He. rewrite TranslatorFacts.translate_at.
    rewrite (TranslatorFacts.step_isystem host cls arg Hi), He.
    reflexivity.
  - rewrite TranslatorFacts.translate_flat_map. cbn [flat_map].
    rewrite app_nil_r.
    now rewrite TranslatorFacts.step_isystem.
Qed.

Lemma system_include_rewritten_witness :
  DmdLikeCompilerMixin.translate_args_to_nongnu OtherPlatform
    LLVMDCompiler_cls ["-g"; "-isystem/usr/include"; "-isystem"; "-O"]
  = ["-g"; "-I"; "-I"; "-O"].
Proof.
  exact (proj1 (proj2 (system_include_rewritten OtherPlatform
           LLVMDCompiler_cls ["-g"] ["-isystem"; "-O"]))
           "-isystem/usr/include" eq_refl eq_refl).
Defined.

(** ** Flag tables and capability gates *)

(** C4, as the specification states it, fails on the GNU table: level g is
    not mapped to the empty fragment there. *)
Lemma gnu_level_g_is_not_empty :
  GnuCompiler.get_optimization_args "g" = Ok ["-Og"]
  /\ GnuCompiler.get_optimization_args "g" <> Ok [].
Proof. split; [reflexivity | discriminate]. Qed.

(** C4 (amended). Level 0 maps to the empty fragment in the GNU, LDC and
    DMD tables; level g maps to the empty fragment in the LDC and DMD tables
    and to the one flag -Og in the GNU table; the DMD table maps each of the
    levels 1, 2, 3 and s to the same single flag -O, where the LDC and GNU
    tables keep one flag per level. *)
Theorem optimization_levels_by_family :
  (GnuCompiler.get_optimization_args "0" = Ok []
   /\ LLVMDCompiler.get_optimization_args "0" = Ok []
   /\ DmdDCompiler.get_optimization_args "0" = Ok [])
  /\ (GnuCompiler.get_optimization_args "g" = Ok ["-Og"]
      /\ LLVMDCompiler.get_optimization_args "g" = Ok []
      /\ DmdDCompiler.get_optimization_args "g" = Ok [])
  /\ (DmdDCompiler.get_optimization_args "1" = Ok ["-O"]
      /\ DmdDCompiler.get_optimization_args "2" = Ok ["-O"]
      /\ DmdDCompiler.get_optimization_args "3" = Ok ["-O"]
      /\ DmdDCompiler.get_optimization_args "s" = Ok ["-O"])
  /\ (map LLVMDCompiler.get_optimization_args ["1"; "2"; "3"; "s"]
      = [Ok ["-O1"]; Ok ["-O2"]; Ok ["-O3"]; Ok ["-Os"]]
      /\ map GnuCompiler.get_optimization_args ["1"; "2"; "3"; "s"]
         = [Ok ["-O1"]; Ok ["-O2"]; Ok ["-O3"]; Ok ["-Os"]]).
Proof. repeat split. Qed.

(** C5, as the specification states it, fails twice: the LDC adapter keeps
    its flag on Windows and on macOS, and the DMD adapter keeps -fPIC on
    macOS. *)
Lemma pic_args_kept_on_windows_and_osx :
  LLVMDCompiler.get_pic_args Windows = ["-relocation-model=pic"]
  /\ LLVMDCompiler.get_pic_args OSX = ["-relocation-model=pic"]
  /\ DmdDCompiler.get_pic_args OSX = ["-fPIC"]
  /\ LLVMDCompiler.get_pic_args Windows <> []
  /\ DmdDCompiler.get_pic_args OSX <> [].
Proof. repeat split; discriminate. Qed.

(** C5 (amended). A GNU-like compiler returns the empty vector when its
    compiler type is a Windows or a macOS one and -fPIC otherwise.  The DMD
    adapter and the D base class, whose method the GNU D front end uses,
    return the empty vector on a Windows host and -fPIC on every other
    host, macOS included.  The LDC adapter returns -relocation-model=pic on
    every host. *)
Theorem pic_args_by_family :
  (forall osx windows : bool,
      GnuLikeCompiler.get_pic_args
        {| is_osx_compiler := osx; is_windows_compiler := windows |}
      = if osx || windows then [] else ["-fPIC"])
  /\ (DmdDCompiler.get_pic_args Windows = []
      /\ DmdDCompiler.get_pic_args OSX = ["-fPIC"]
      /\ DmdDCompiler.get_pic_args OtherPlatform = ["-fPIC"])
  /\ (GnuDCompiler.get_pic_args Windows = []
      /\ GnuDCompiler.get_pic_args OSX = ["-fPIC"]
      /\ GnuDCompiler.get_pic_args OtherPlatform = ["-fPIC"])
  /\ (forall host : platform,
         LLVMDCompiler.get_pic_args host = ["-relocation-model=pic"]).
Proof. repeat split. Qed.

(** The GNU compiler proper gates the colour fragment on the version. *)
Lemma gnu_colorout_gated
  (version_compare : string -> string -> bool) (version : string) :
  (version_compare version ">=4.9.0" = true ->
   GnuCompiler.get_colorout_args version_compare version "auto"
   = Ok ["-fdiagnostics-color=auto"]
   /\ GnuCompiler.get_colorout_args version_compare version "always"
      = Ok ["-fdiagnostics-color=always"]
   /\ GnuCompiler.get_colorout_args version_compare version "never"
      = Ok ["-fdiagnostics-color=never"])
  /\ (version_compare version ">=4.9.0" = false ->
      forall colortype,
        GnuCompiler.get_colorout_args version_compare version colortype
        = Ok []).
Proof.
  unfold GnuCompiler.get_colorout_args.
  split; intros ->; [repeat split | reflexivity].
Qed.

(** C6. The GNU D front end never returns the colour fragment: whatever
    method [super()] resolves to and whatever the version allows, a call
    that returns at all returns the empty vector.  With colour support
    recorded and the GNU method as [super()], the mode always yields the
    empty vector where the claim requires -fdiagnostics-color=always. *)
Theorem gnud_colorout_always_empty
  (super_get_colorout_args : string -> result (list string))
  (self : GnuDCompiler.self_t) (colortype : string) :
  (GnuDCompiler.get_colorout_args super_get_colorout_args self colortype
   = Ok []
   \/ exists e,
       GnuDCompiler.get_colorout_args super_get_colorout_args self colortype
       = Err e)
  /\ GnuDCompiler.get_colorout_args
       (GnuCompiler.get_colorout_args (fun _ _ => true) "9.2.0")
       (GnuDCompiler.init (fun _ _ => true) "9.2.0") "always"
     = Ok []
  /\ GnuCompiler.get_colorout_args (fun _ _ => true) "9.2.0" "always"
     = Ok ["-fdiagnostics-color=always"].
Proof.
  split; [|split; reflexivity].
  unfold GnuDCompiler.get_colorout_args, bind.
  destruct (GnuDCompiler._has_color_support self);
    [destruct (super_get_colorout_args colortype)|]; eauto.
Qed.

(** C10. [get_crt_args] with the runtime table of [DCompiler]: off Windows
    the result is the empty vector whatever the runtime value and the build
    type; on Windows each explicit runtime value yields its one -mscrtlib=
    token whatever the build type, and the value from_buildtype yields the
    empty vector for plain, the debug runtime for debug, the release runtime
    for debugoptimized, release and minsize, and raises for custom. *)
Theorem crt_args_selection (crt_val buildtype : string) :
  (DmdLikeCompilerMixin.get_crt_args OSX DCompiler.mscrt_args crt_val
     buildtype = Ok []
   /\ DmdLikeCompilerMixin.get_crt_args OtherPlatform DCompiler.mscrt_args
        crt_val buildtype = Ok [])
  /\ (DmdLikeCompilerMixin.get_crt_args Windows DCompiler.mscrt_args "none"
        buildtype = Ok ["-mscrtlib="]
      /\ DmdLikeCompilerMixin.get_crt_args Windows DCompiler.mscrt_args "md"
           buildtype = Ok ["-mscrtlib=msvcrt"]
      /\ DmdLikeCompilerMixin.get_crt_args Windows DCompiler.mscrt_args "mdd"
           buildtype = Ok ["-mscrtlib=msvcrtd"]
      /\ DmdLikeCompilerMixin.get_crt_args Windows DCompiler.mscrt_args "mt"
           buildtype = Ok ["-mscrtlib=libcmt"]
      /\ DmdLikeCompilerMixin.get_crt_args Windows DCompiler.mscrt_args "mtd"
           buildtype = Ok ["-mscrtlib=libcmtd"])
  /\ (DmdLikeCompilerMixin.get_crt_args Windows DCompiler.mscrt_args
        "from_buildtype" "plain" = Ok []
      /\ DmdLikeCompilerMixin.get_crt_args Windows DCompiler.mscrt_args
           "from_buildtype" "debug" = Ok ["-mscrtlib=msvcrtd"]
      /\ DmdLikeCompilerMixin.get_crt_args Windows DCompiler.mscrt_args
           "from_buildtype" "debugoptimized" = Ok ["-mscrtlib=msvcrt"]
      /\ DmdLikeCompilerMixin.get_crt_args Windows DCompiler.mscrt_args
           "from_buildtype" "release" = Ok ["-mscrtlib=msvcrt"]
      /\ DmdLikeCompilerMixin.get_crt_args Windows DCompiler.mscrt_args
           "from_buildtype" "minsize" = Ok ["-mscrtlib=msvcrt"]
      /\ DmdLikeCompilerMixin.get_crt_args Windows DCompiler.mscrt_args
           "from_buildtype" "custom"
         = Err (EnvironmentException
                  ("Requested C runtime based on buildtype, but buildtype is "
                   ++ Py.dquote ++ "custom" ++ Py.dquote ++ "."))).
Proof. repeat split. Qed.

(** ** The feature argument builder *)

Module FeatureFacts.

Import DmdLikeCompilerMixin.

Section WithFormat.

Variable format_IncludeDirs : IncludeDirs -> string.
Variable ntpath : os_path_module.
Variable host : platform.

(** *** The level loop *)

Lemma gtb_max (n lv : Z) : (if Z.gtb n lv then n else lv) = Z.max lv n.
Proof. destruct (Z.gtb_spec n lv); lia. Qed.

Lemma level_loop (flag : string) (l : list dvalue) (res : list string)
  (lv : Z) :
  Forall ascii_dvalue l ->
  fold_result (level_step format_IncludeDirs flag) (map elem_of l)
    (res, Int lv)
  = Ok ((res ++ map (flag_token flag) (identifiers l))%list,
        Int (fold_left Z.max (numerics l) lv)).
Proof.
  intros Hl; revert res lv; induction Hl as [|d l Hd _ IH]; intros res lv.
  - simpl. now rewrite app_nil_r.
  - cbn [map fold_result]. destruct d as [n|s].
    + cbn [elem_of level_step int_value].
      replace (if Z.gtb n lv then Ok (res, Int n) else Ok (res, Int lv))
        with (Ok (A := list string * pyint) (res, Int (Z.max lv n)))
        by (rewrite <- gtb_max; now destruct (Z.gtb n lv)).
      cbn [bind]. rewrite IH. reflexivity.
    + cbn [elem_of level_step int_value]. cbn [ascii_dvalue] in Hd.
      unfold identifiers, numerics. cbn [flat_map numeric].
      fold (identifiers l). fold (numerics l).
      rewrite <- (PyFacts.isdigit_ascii s Hd).
      destruct (Py.isdigit s) eqn:E.
      * rewrite (PyFacts.int_ascii s Hd E). cbn [bind].
        replace (if Z.gtb (Py.decimal_value s) lv
                 then Ok (res, Int (Py.decimal_value s))
                 else Ok (res, Int lv))
          with (Ok (A := list string * pyint)
                  (res, Int (Z.max lv (Py.decimal_value s))))
          by (rewrite <- gtb_max;
              now destruct (Z.gtb (Py.decimal_value s) lv)).
        cbn [bind]. rewrite IH. reflexivity.
      * cbn [bind]. rewrite IH. unfold Py.append. cbn [app map fold_left].
        now rewrite <- app_assoc.
Qed.

Lemma fold_max_maximum (l : list Z) (lv : Z) :
  fold_left Z.max l lv
  = match maximum l with
    | Some m => Z.max lv m
    | None => lv
    end.
Proof.
  destruct l as [|n l]; [reflexivity|]. cbn [maximum fold_left].
  revert lv n; induction l as [|k l IH]; intros lv n; [reflexivity|].
  cbn [fold_left]. rewrite (IH (Z.max lv n) k), (IH n k). lia.
Qed.

(** The block guarded by the key emits the tokens the specification
    prescribes. *)
Lemma level_block_tokens (flag : string) (l : list dvalue)
  (res : list string) :
  Forall ascii_dvalue l ->
  level_block format_IncludeDirs flag res (map elem_of l)
  = Ok (res ++ level_tokens flag l)%list.
Proof.
  intros Hl. unfold level_block, level_tokens.
  rewrite (level_loop flag l res (-1) Hl), fold_max_maximum. cbn [bind].
  destruct (maximum (numerics l)) as [m|]; cbn [int_value].
  - destruct (Z.geb_spec (Z.max (-1) m) 0) as [H|H];
      destruct (Z.leb_spec 0 m) as [H'|H']; try lia.
    + unfold Py.append, format_pyint. rewrite <- app_assoc.
      now replace (Z.max (-1) m) with m by lia.
    + now rewrite app_nil_r.
  - cbn [Z.geb Z.compare]. now rewrite app_nil_r.
Qed.

(** The level loop raises nothing but the [ValueError] of [int]. *)
Lemma level_step_error (flag : string) (st : list string * pyint)
  (d : elem) (e : exn) :
  level_step format_IncludeDirs flag st d = Err e -> e = ValueError.
Proof.
  unfold level_step. destruct st as [res level].
  destruct d as [i|s|o]; [destruct (Z.gtb _ _); discriminate | | discriminate].
  destruct (Py.isdigit s); [|discriminate].
  unfold Py.int. destruct (Py.isdecimal s); cbn [bind].
  - destruct (Z.gtb _ _); discriminate.
  - now intros [= <-].
Qed.

Lemma level_block_error (flag : string) (res : list string)
  (values : list elem) (e : exn) :
  level_block format_IncludeDirs flag res values = Err e -> e = ValueError.
Proof.
  unfold level_block.
  generalize (res, Int (-1)). induction values as [|d l IH]; intros st;
    cbn [fold_result bind].
  - destruct st as [r lv]. destruct (Z.geb _ _); discriminate.
  - destruct (level_step format_IncludeDirs flag st d) as [st'|e'] eqn:E;
      cbn [bind].
    + apply IH.
    + intros [= <-]. exact (level_step_error _ _ _ _ E).
Qed.

(** On ASCII text it raises nothing. *)
Lemma level_step_ascii (flag : string) (st : list string * pyint)
  (d : elem) :
  ascii_elem d ->
  exists st', level_step format_IncludeDirs flag st d = Ok st'.
Proof.
  unfold level_step. destruct st as [res level].
  destruct d as [i|s|o]; cbn [ascii_elem]; intros Hd;
    [destruct (Z.gtb _ _); eauto | | eauto].
  destruct (Py.isdigit s) eqn:E; [|eauto].
  rewrite (PyFacts.int_ascii s Hd E). cbn [bind].
  destruct (Z.gtb _ _); eauto.
Qed.

Lemma level_block_ascii (flag : string) (res : list string)
  (values : list elem) :
  Forall ascii_elem values ->
  exists r, level_block format_IncludeDirs flag res values = Ok r.
Proof.
  unfold level_block. generalize (res, Int (-1)).
  intros st H; revert st; induction H as [|d l Hd _ IH]; intros st;
    cbn [fold_result bind].
  - destruct st as [r lv]. destruct (Z.geb _ _); eauto.
  - destruct (level_step_ascii flag st d Hd) as [st' ->]. cbn [bind].
    apply IH.
Qed.


(** *** The four guarded blocks

    Each block reads its key, pops it, and extends [res]; what it appends
    depends on the value under the key alone. *)

Definition unittest_tokens (self : DCompiler_self) (v : option value)
  (res : list string) : result (list string) :=
  match v with
  | Some unittest =>
      unittest_arg <- feature_arg self "unittest" ;;
      if String.eqb unittest_arg "" then
        Err (unsupported self
               ("the " ++ Py.dquote ++ "unittest" ++ Py.dquote
                ++ " feature."))
      else Ok (if truthy unittest then Py.append res unittest_arg else res)
  | None => Ok res
  end.

Definition debug_tokens (self : DCompiler_self) (v : option value)
  (res : list string) : result (list string) :=
  match v with
  | Some debugs =>
      debug_arg <- feature_arg self "debug" ;;
      if String.eqb debug_arg "" then
        Err (unsupported self "conditional debug identifiers.")
      else level_block format_IncludeDirs debug_arg res (as_list debugs)
  | None => Ok res
  end.

Definition versions_tokens (self : DCompiler_self) (v : option value)
  (res : list string) : result (list string) :=
  match v with
  | Some versions =>
      version_arg <- feature_arg self "version" ;;
      if String.eqb version_arg "" then
        Err (unsupported self "conditional version identifiers.")
      else level_block format_IncludeDirs version_arg res (as_list versions)
  | None => Ok res
  end.

Definition import_dirs_tokens (self : DCompiler_self) (build_to_src : string)
  (v : option value) (res : list string) : result (list string) :=
  match v with
  | Some import_dirs =>
      import_dir_arg <- feature_arg self "import_dir" ;;
      if String.eqb import_dir_arg "" then
        Err (unsupported self
               ("the " ++ Py.dquote ++ "string import directories"
                ++ Py.dquote ++ " feature."))
      else import_dirs_loop ntpath host import_dir_arg build_to_src res
             (as_list import_dirs)
  | None => Ok res
  end.

Lemma remove_absent (k : string) (d : kwargs_t) :
  Py.lookup k d = None -> Py.remove k d = d.
Proof.
  induction d as [|[k' v] d IH]; cbn [Py.lookup Py.remove filter fst];
    [reflexivity|].
  destruct (String.eqb k' k); [discriminate|].
  intros H. cbn [negb]. f_equal. now apply IH.
Qed.

Lemma lookup_singleton_same (k : string) (v : value) :
  Py.lookup k [(k, v)] = Some v.
Proof. cbn [Py.lookup]. now rewrite String.eqb_refl. Qed.

Lemma lookup_singleton_other (k k' : string) (v : value) :
  String.eqb k' k = false -> Py.lookup k [(k', v)] = None.
Proof. intros H. cbn [Py.lookup]. now rewrite H. Qed.

Lemma lookup_remove_other (k k' : string) (d : kwargs_t) :
  String.eqb k' k = false ->
  Py.lookup k (Py.remove k' d) = Py.lookup k d.
Proof.
  intros Hk. induction d as [|[k0 v] d IH];
    cbn [Py.lookup Py.remove filter fst]; [reflexivity|].
  destruct (String.eqb_spec k0 k') as [->|Hne]; cbn [negb Py.lookup].
  - rewrite Hk. exact IH.
  - destruct (String.eqb k0 k); [reflexivity | exact IH].
Qed.

Ltac block_cases :=
  match goal with
  | |- context [feature_arg ?self ?key] =>
      destruct (feature_arg self key) as [flag_arg|]; [|reflexivity];
      destruct (String.eqb flag_arg ""); [reflexivity|]
  end;
  repeat match goal with
    | |- context [if ?b then _ else _] => destruct b
    | |- context [level_block ?f ?a ?b ?c] =>
        destruct (level_block f a b c)
    | |- context [import_dirs_loop ?n ?h ?a ?b ?c ?d] =>
        destruct (import_dirs_loop n h a b c d)
    end; reflexivity.

Lemma unittest_block_eq self kwargs res :
  unittest_block self (kwargs, res)
  = (r <- unittest_tokens self (Py.lookup "unittest" kwargs) res ;;
     Ok (Py.remove "unittest" kwargs, r)).
Proof.
  unfold unittest_block, unittest_tokens.
  destruct (Py.lookup "unittest" kwargs) eqn:E.
  - unfold bind. block_cases.
  - cbn [bind]. now rewrite remove_absent.
Qed.

Lemma debug_block_eq self kwargs res :
  debug_block format_IncludeDirs self (kwargs, res)
  = (r <- debug_tokens self (Py.lookup "debug" kwargs) res ;;
     Ok (Py.remove "debug" kwargs, r)).
Proof.
  unfold debug_block, debug_tokens.
  destruct (Py.lookup "debug" kwargs) eqn:E.
  - unfold bind. block_cases.
  - cbn [bind]. now rewrite remove_absent.
Qed.

Lemma versions_block_eq self kwargs res :
  versions_block format_IncludeDirs self (kwargs, res)
  = (r <- versions_tokens self (Py.lookup "versions" kwargs) res ;;
     Ok (Py.remove "versions" kwargs, r)).
Proof.
  unfold versions_block, versions_tokens.
  destruct (Py.lookup "versions" kwargs) eqn:E.
  - unfold bind. block_cases.
  - cbn [bind]. now rewrite remove_absent.
Qed.

Lemma import_dirs_block_eq self build_to_src kwargs res :
  import_dirs_block ntpath host self build_to_src (kwargs, res)
  = (r <- import_dirs_tokens self build_to_src
            (Py.lookup "import_dirs" kwargs) res ;;
     Ok (Py.remove "import_dirs" kwargs, r)).
Proof.
  unfold import_dirs_block, import_dirs_tokens.
  destruct (Py.lookup "import_dirs" kwargs) eqn:E.
  - unfold bind. block_cases.
  - cbn [bind]. now rewrite remove_absent.
Qed.

(** The tokens of a request, from the values under its four keys. *)
Definition request_tokens (self : DCompiler_self) (build_to_src : string)
  (kwargs : kwargs_t) : result (list string) :=
  r <- unittest_tokens self (Py.lookup "unittest" kwargs) [] ;;
  r <- debug_tokens self (Py.lookup "debug" kwargs) r ;;
  r <- versions_tokens self (Py.lookup "versions" kwargs) r ;;
  import_dirs_tokens self build_to_src (Py.lookup "import_dirs" kwargs) r.

(** What the four pops leave of the dictionary. *)
Lemma four_pops (kwargs : kwargs_t) :
  Py.remove "import_dirs"
    (Py.remove "versions" (Py.remove "debug" (Py.remove "unittest" kwargs)))
  = filter (fun kv => negb (recognized (fst kv))) kwargs.
Proof.
  unfold Py.remove, recognized.
  induction kwargs as [|[k v] d IH]; [reflexivity|].
  cbn [filter fst existsb].
  destruct (String.eqb k "unittest"); cbn [negb orb filter fst];
    [exact IH|].
  destruct (String.eqb k "debug"); cbn [negb orb filter fst]; [exact IH|].
  destruct (String.eqb k "versions"); cbn [negb orb filter fst]; [exact IH|].
  destruct (String.eqb k "import_dirs"); cbn [negb orb filter fst];
    [exact IH|].
  now rewrite IH.
Qed.

Lemma keys_filter (P : string -> bool) (kwargs : kwargs_t) :
  Py.keys (filter (fun kv => P (fst kv)) kwargs) = filter P (Py.keys kwargs).
Proof.
  unfold Py.keys. induction kwargs as [|[k v] d IH]; cbn [filter map fst];
    [reflexivity|].
  destruct (P k); cbn [map fst]; now rewrite IH.
Qed.

(** The method, block by block: the tokens of the four keys, then the
    check on what was not popped. *)
Lemma get_feature_args_eq self kwargs build_to_src :
  get_feature_args format_IncludeDirs ntpath host self kwargs build_to_src
  = (r <- request_tokens self build_to_src kwargs ;;
     if PosixPath.is_nil (unrecognized_keys kwargs) then Ok r
     else Err (unknown_feature_error (unrecognized_keys kwargs))).
Proof.
  unfold get_feature_args, request_tokens.
  rewrite unittest_block_eq.
  destruct (unittest_tokens self (Py.lookup "unittest" kwargs) [])
    as [r1|e]; cbn [bind]; [|reflexivity].
  rewrite debug_block_eq, lookup_remove_other by reflexivity.
  destruct (debug_tokens self (Py.lookup "debug" kwargs) r1)
    as [r2|e]; cbn [bind]; [|reflexivity].
  rewrite versions_block_eq, !lookup_remove_other by reflexivity.
  destruct (versions_tokens self (Py.lookup "versions" kwargs) r2)
    as [r3|e]; cbn [bind]; [|reflexivity].
  rewrite import_dirs_block_eq, !lookup_remove_other by reflexivity.
  destruct (import_dirs_tokens self build_to_src
              (Py.lookup "import_dirs" kwargs) r3)
    as [r4|e]; cbn [bind]; [|reflexivity].
  unfold leftover_check, unknown_feature_error, unrecognized_keys.
  rewrite four_pops.
  rewrite <- (keys_filter (fun k => negb (recognized k)) kwargs).
  cbv beta.
  destruct (filter (fun kv => negb (recognized (fst kv))) kwargs);
    reflexivity.
Qed.

Lemma lookup_known_part (k : string) (kwargs : kwargs_t) :
  recognized k = true ->
  Py.lookup k (known_part kwargs) = Py.lookup k kwargs.
Proof.
  intros Hk. unfold known_part.
  induction kwargs as [|[k' v] d IH]; cbn [filter fst Py.lookup];
    [reflexivity|].
  destruct (recognized k') eqn:Hk'; cbn [Py.lookup].
  - destruct (String.eqb k' k); [reflexivity | exact IH].
  - destruct (String.eqb_spec k' k) as [->|_]; [congruence | exact IH].
Qed.

Lemma request_tokens_known_part self build_to_src kwargs :
  request_tokens self build_to_src (known_part kwargs)
  = request_tokens self build_to_src kwargs.
Proof.
  unfold request_tokens. now rewrite !lookup_known_part by reflexivity.
Qed.

Lemma unrecognized_keys_known_part (kwargs : kwargs_t) :
  unrecognized_keys (known_part kwargs) = [].
Proof.
  unfold unrecognized_keys, known_part. rewrite keys_filter.
  induction (Py.keys kwargs) as [|k l IH]; cbn [filter]; [reflexivity|].
  destruct (recognized k) eqn:E; cbn [filter]; [|exact IH].
  rewrite E. exact IH.
Qed.


(** *** Errors of the four blocks *)

(** An exception other than the report of unknown features. *)
Definition other_error (e : exn) : Prop :=
  forall keys, e <> unknown_feature_error keys.

Lemma unsupported_other self what : other_error (unsupported self what).
Proof. intros keys. unfold unsupported, unknown_feature_error. discriminate. Qed.

Lemma level_block_other flag res values e :
  level_block format_IncludeDirs flag res values = Err e -> other_error e.
Proof.
  intros H keys. rewrite (level_block_error _ _ _ _ H). discriminate.
Qed.

Lemma feature_arg_error self key e :
  feature_arg self key = Err e -> other_error e.
Proof.
  unfold feature_arg, Py.getitem, bind.
  destruct (Py.lookup (id self) d_feature_args) as [tbl|];
    [destruct (Py.lookup key tbl)|]; intros H keys; inversion H; subst;
    discriminate.
Qed.

Lemma import_dirs_loop_error flag build_to_src l res e :
  import_dirs_loop ntpath host flag build_to_src res l = Err e ->
  other_error e.
Proof.
  revert res; induction l as [|x l IH]; intros res; cbn [import_dirs_loop].
  - discriminate.
  - destruct x; try (intros H keys; inversion H; subst; discriminate).
    apply IH.
Qed.

Ltac handler_error :=
  match goal with
  | |- context [feature_arg ?self ?key] =>
      destruct (feature_arg self key) as [flag_arg|e0] eqn:Ef; cbn [bind];
      [ destruct (String.eqb flag_arg "");
        [ intros H; inversion H; subst; apply unsupported_other |]
      | intros H; inversion H; subst; eapply feature_arg_error; eassumption ]
  end.

Lemma request_tokens_error self build_to_src kwargs e :
  request_tokens self build_to_src kwargs = Err e -> other_error e.
Proof.
  unfold request_tokens.
  destruct (unittest_tokens self (Py.lookup "unittest" kwargs) [])
    as [r1|e1] eqn:E1; cbn [bind].
  2:{ intros X; inversion X; subst; clear X. revert E1. unfold unittest_tokens.
      destruct (Py.lookup "unittest" kwargs); [|discriminate].
      handler_error. discriminate. }
  destruct (debug_tokens self (Py.lookup "debug" kwargs) r1)
    as [r2|e2] eqn:E2; cbn [bind].
  2:{ intros X; inversion X; subst; clear X. revert E2. unfold debug_tokens.
      destruct (Py.lookup "debug" kwargs); [|discriminate].
      handler_error. apply level_block_other. }
  destruct (versions_tokens self (Py.lookup "versions" kwargs) r2)
    as [r3|e3] eqn:E3; cbn [bind].
  2:{ intros X; inversion X; subst; clear X. revert E3. unfold versions_tokens.
      destruct (Py.lookup "versions" kwargs); [|discriminate].
      handler_error. apply level_block_other. }
  unfold import_dirs_tokens.
  destruct (Py.lookup "import_dirs" kwargs); [|discriminate].
  handler_error. apply import_dirs_loop_error.
Qed.

(** *** Requests of the data model are processed to the end *)

Lemma feature_arg_known self key :
  In (id self) ["gcc"; "llvm"; "dmd"] ->
  In key ["unittest"; "debug"; "version"; "import_dir"] ->
  exists flag, feature_arg self key = Ok flag /\ String.eqb flag "" = false.
Proof.
  unfold feature_arg, Py.getitem. cbn [In].
  intros [<-|[<-|[<-|[]]]] [<-|[<-|[<-|[<-|[]]]]];
    eexists; split; reflexivity.
Qed.

Lemma import_dirs_loop_objects flag build_to_src l res :
  Forall (fun e => exists d, e = EObj d) l ->
  exists r, import_dirs_loop ntpath host flag build_to_src res l = Ok r.
Proof.
  intros H; revert res; induction H as [|x l [d ->] _ IH]; intros res;
    cbn [import_dirs_loop]; [eauto | apply IH].
Qed.

Lemma request_tokens_well_formed self build_to_src kwargs :
  well_formed_request self kwargs ->
  exists r, request_tokens self build_to_src kwargs = Ok r.
Proof.
  intros (Hid & Hdirs & Hdebug & Hversions). unfold request_tokens.
  destruct (feature_arg_known self "unittest" Hid) as (f1 & E1 & N1);
    [cbn; tauto|].
  destruct (feature_arg_known self "debug" Hid) as (f2 & E2 & N2);
    [cbn; tauto|].
  destruct (feature_arg_known self "version" Hid) as (f3 & E3 & N3);
    [cbn; tauto|].
  destruct (feature_arg_known self "import_dir" Hid) as (f4 & E4 & N4);
    [cbn; tauto|].
  assert (U : forall res, exists r,
             unittest_tokens self (Py.lookup "unittest" kwargs) res = Ok r).
  { intros res. unfold unittest_tokens.
    destruct (Py.lookup "unittest" kwargs); [|eauto].
    rewrite E1. cbn [bind]. rewrite N1. eauto. }
  assert (D : forall res, exists r,
             debug_tokens self (Py.lookup "debug" kwargs) res = Ok r).
  { intros res. unfold debug_tokens.
    destruct (Py.lookup "debug" kwargs) as [v|] eqn:L; [|eauto].
    rewrite E2. cbn [bind]. rewrite N2.
    apply level_block_ascii. now apply Hdebug. }
  assert (V : forall res, exists r,
             versions_tokens self (Py.lookup "versions" kwargs) res = Ok r).
  { intros res. unfold versions_tokens.
    destruct (Py.lookup "versions" kwargs) as [v|] eqn:L; [|eauto].
    rewrite E3. cbn [bind]. rewrite N3.
    apply level_block_ascii. now apply Hversions. }
  destruct (U []) as [r1 ->]. cbn [bind].
  destruct (D r1) as [r2 ->]. cbn [bind].
  destruct (V r2) as [r3 ->]. cbn [bind].
  unfold import_dirs_tokens.
  destruct (Py.lookup "import_dirs" kwargs) as [dirs|] eqn:L; [|eauto].
  rewrite E4. cbn [bind]. rewrite N4.
  apply import_dirs_loop_objects. now apply Hdirs.
Qed.

End WithFormat.

End FeatureFacts.

(** C3. For a family whose debug flag exists, and for every list of values
    or single value under the key debug whose strings are ASCII text,
    [get_feature_args] emits one FLAG=identifier token per non-numeric
    value, in input order, and then, only if a numeric value (an integer or
    a digit-string) is present and the maximum of the numeric values is not
    negative, exactly one trailing token FLAG=max; numeric values emit no
    token of their own, so the values 1, 3 and foo yield FLAG=foo followed
    by FLAG=3.  The same holds for the key versions and the version flag of
    the family.  This holds on every host. *)
Theorem debug_and_version_values_folded
  (format_IncludeDirs : IncludeDirs -> string) (ntpath : os_path_module)
  (host : platform) (self : DCompiler_self)
  (build_to_src : string) (tbl : list (string * string)) (flag : string)
  (l : list dvalue) (d : dvalue) :
  Py.lookup (id self) d_feature_args = Some tbl ->
  flag <> "" ->
  Forall ascii_dvalue l ->
  ascii_dvalue d ->
  (Py.lookup "debug" tbl = Some flag ->
   DmdLikeCompilerMixin.get_feature_args format_IncludeDirs ntpath host self
     [("debug", VList (map elem_of l))] build_to_src
   = Ok (level_tokens flag l)
   /\ DmdLikeCompilerMixin.get_feature_args format_IncludeDirs ntpath host
        self [("debug", VOne (elem_of d))] build_to_src
      = Ok (level_tokens flag [d])
   /\ DmdLikeCompilerMixin.get_feature_args format_IncludeDirs ntpath host
        self [("debug", VList [ENum (Int 1); ENum (Int 3); EStr "foo"])]
        build_to_src
      = Ok [flag_token flag "foo"; flag_token flag "3"])
  /\ (Py.lookup "version" tbl = Some flag ->
      DmdLikeCompilerMixin.get_feature_args format_IncludeDirs ntpath host
        self [("versions", VList (map elem_of l))] build_to_src
      = Ok (level_tokens flag l)
      /\ DmdLikeCompilerMixin.get_feature_args format_IncludeDirs ntpath host
           self [("versions", VOne (elem_of d))] build_to_src
         = Ok (level_tokens flag [d])
      /\ DmdLikeCompilerMixin.get_feature_args format_IncludeDirs ntpath host
           self
           [("versions", VList [ENum (Int 1); ENum (Int 3); EStr "foo"])]
           build_to_src
         = Ok [flag_token flag "foo"; flag_token flag "3"]).
Proof.
  intros Htbl Hflag Hl Hd.
  assert (Hne : String.eqb flag "" = false) by now apply String.eqb_neq.
  assert (Hone : forall key fkey (values : list dvalue),
             In (key, fkey) [("debug", "debug"); ("versions", "version")] ->
             Py.lookup fkey tbl = Some flag ->
             Forall ascii_dvalue values ->
             DmdLikeCompilerMixin.get_feature_args format_IncludeDirs
                                                     ntpath host self
               [(key, VList (map elem_of values))] build_to_src
             = Ok (level_tokens flag values)).
  { intros key fkey values Hkey Hlook Hvalues.
    rewrite FeatureFacts.get_feature_args_eq.
    unfold FeatureFacts.request_tokens.
    destruct Hkey as [E|[E|[]]]; inversion E; subst key fkey;
      rewrite ?FeatureFacts.lookup_singleton_same,
        ?FeatureFacts.lookup_singleton_other by reflexivity;
      cbn [FeatureFacts.unittest_tokens FeatureFacts.debug_tokens
           FeatureFacts.versions_tokens FeatureFacts.import_dirs_tokens
           bind as_list];
      unfold DmdLikeCompilerMixin.feature_arg, Py.getitem;
      rewrite Htbl; cbn [bind]; rewrite Hlook; cbn [bind]; rewrite Hne;
      cbn [bind];
      rewrite (FeatureFacts.level_block_tokens _ _ _ _ Hvalues);
      reflexivity. }
  assert (Hfoo : Forall ascii_dvalue [DInt 1; DInt 3; DStr "foo"])
    by (repeat constructor).
  assert (Hd' : Forall ascii_dvalue [d]) by (repeat constructor; exact Hd).
  split; intros Hlook; repeat split.
  - apply (Hone "debug" "debug" l); [now left | assumption ..].
  - apply (Hone "debug" "debug" [d]); [now left | assumption ..].
  - apply (Hone "debug" "debug" [DInt 1; DInt 3; DStr "foo"]);
      [now left | assumption ..].
  - apply (Hone "versions" "version" l); [now right; left | assumption ..].
  - apply (Hone "versions" "version" [d]);
      [now right; left | assumption ..].
  - apply (Hone "versions" "version" [DInt 1; DInt 3; DStr "foo"]);
      [now right; left | assumption ..].
Qed.

Lemma debug_and_version_values_folded_witness :
  DmdLikeCompilerMixin.get_feature_args (fun _ => "") posixpath
    OtherPlatform
    {| exelist := ["dmd"]; version := "2.088"; arch := "x86_64";
       id := "dmd" |}
    [("debug", VList [ENum (Int 2); EStr "alpha"; EStr "10"; EStr "beta";
                      ENum (Int (-4))])] ".."
  = Ok ["-debug=alpha"; "-debug=beta"; "-debug=10"]
  /\ DmdLikeCompilerMixin.get_feature_args (fun _ => "") posixpath
       OtherPlatform
       {| exelist := ["gdc"]; version := "9.2.0"; arch := "x86_64";
          id := "gcc" |}
       [("versions", VOne (EStr "7"))] ".."
     = Ok ["-fversion=7"].
Proof.
  split.
  - refine (proj1 (proj1 (debug_and_version_values_folded (fun _ => "")
              posixpath OtherPlatform
              {| exelist := ["dmd"]; version := "2.088"; arch := "x86_64";
                 id := "dmd" |} ".."
              [("unittest", "-unittest"); ("debug", "-debug");
               ("version", "-version"); ("import_dir", "-J")]
              "-debug"
              [DInt 2; DStr "alpha"; DStr "10"; DStr "beta"; DInt (-4)]
              (DInt 0) eq_refl _ _ I) eq_refl)).
    + discriminate.
    + repeat constructor.
  - refine (proj1 (proj2 (proj2 (debug_and_version_values_folded
              (fun _ => "") posixpath OtherPlatform
              {| exelist := ["gdc"]; version := "9.2.0"; arch := "x86_64";
                 id := "gcc" |} ".."
              [("unittest", "-funittest"); ("debug", "-fdebug");
               ("version", "-fversion"); ("import_dir", "-J")]
              "-fversion" [] (DStr "7") eq_refl _ (Forall_nil _) eq_refl)
              eq_refl))).
    discriminate.
Defined.

(** C7. [get_feature_args] consumes exactly the keys unittest, debug,
    versions and import_dirs.  The other keys of a request change nothing
    in the processing of those four; once it is done, a request that holds
    any other key raises one error whose message names all of them, in the
    order of the request; and a request of recognized keys only never
    raises that error.  A request of the data model, whose identifiers and
    levels are ASCII text, is always processed to that point, so there the
    error is raised exactly when another key is present.  This holds on
    every host. *)
Theorem unknown_features_reported_together
  (format_IncludeDirs : IncludeDirs -> string) (ntpath : os_path_module)
  (host : platform) (self : DCompiler_self)
  (kwargs : kwargs_t) (build_to_src : string) :
  DmdLikeCompilerMixin.get_feature_args format_IncludeDirs ntpath host self
    kwargs build_to_src
  = match DmdLikeCompilerMixin.get_feature_args format_IncludeDirs ntpath
            host self (known_part kwargs) build_to_src with
    | Ok res =>
        if PosixPath.is_nil (unrecognized_keys kwargs) then Ok res
        else Err (unknown_feature_error (unrecognized_keys kwargs))
    | Err e => Err e
    end
  /\ (unrecognized_keys kwargs = [] ->
      forall keys,
        DmdLikeCompilerMixin.get_feature_args format_IncludeDirs ntpath host
          self kwargs build_to_src
        <> Err (unknown_feature_error keys))
  /\ (well_formed_request self kwargs ->
      (unrecognized_keys kwargs <> [] ->
       DmdLikeCompilerMixin.get_feature_args format_IncludeDirs ntpath host
         self kwargs build_to_src
       = Err (unknown_feature_error (unrecognized_keys kwargs)))
      /\ (unrecognized_keys kwargs = [] ->
          exists res,
            DmdLikeCompilerMixin.get_feature_args format_IncludeDirs ntpath
              host self kwargs build_to_src
            = Ok res))
  /\ DmdLikeCompilerMixin.get_feature_args format_IncludeDirs ntpath host self
       [("bogus", VOne (ENum (Int 1)))] build_to_src
     = Err (unknown_feature_error ["bogus"]).
Proof.
  repeat split.
  - rewrite !FeatureFacts.get_feature_args_eq.
    rewrite FeatureFacts.request_tokens_known_part,
      FeatureFacts.unrecognized_keys_known_part.
    now destruct (FeatureFacts.request_tokens format_IncludeDirs ntpath host
                    self build_to_src kwargs).
  - intros Hnone keys. rewrite FeatureFacts.get_feature_args_eq, Hnone.
    destruct (FeatureFacts.request_tokens format_IncludeDirs ntpath host self
                build_to_src kwargs) as [r|e] eqn:E; cbn [bind PosixPath.is_nil].
    + discriminate.
    + intros H; inversion H; subst.
      now apply (FeatureFacts.request_tokens_error _ _ _ _ _ _ _ E keys).
  - intros Hrest.
    destruct (FeatureFacts.request_tokens_well_formed format_IncludeDirs
                ntpath host self build_to_src kwargs H) as [r E].
    rewrite FeatureFacts.get_feature_args_eq, E. cbn [bind].
    now destruct (unrecognized_keys kwargs).
  - intros Hnone.
    destruct (FeatureFacts.request_tokens_well_formed format_IncludeDirs
                ntpath host self build_to_src kwargs H) as [r E].
    rewrite FeatureFacts.get_feature_args_eq, E, Hnone. cbn. eauto.
Qed.

Lemma unknown_features_reported_together_witness :
  DmdLikeCompilerMixin.get_feature_args (fun _ => "") posixpath
    OtherPlatform
    {| exelist := ["ldc2"]; version := "1.18"; arch := "x86_64";
       id := "llvm" |}
    [("colour", VOne (EStr "red")); ("unittest", VOne (ENum (Bool true)));
     ("bogus", VOne (ENum (Int 1)));
     ("import_dirs",
      VOne (EObj {| get_curdir := "src"; get_incdirs := ["."; "data"] |}))]
    ".."
  = Err (EnvironmentException
           "Unknown D compiler feature(s) selected: colour, bogus")
  /\ exists res,
      DmdLikeCompilerMixin.get_feature_args (fun _ => "") posixpath
        OtherPlatform
        {| exelist := ["ldc2"]; version := "1.18"; arch := "x86_64";
           id := "llvm" |}
        [("unittest", VOne (ENum (Bool true)));
         ("debug", VList [EStr "10"; EStr "trace"]);
         ("import_dirs",
          VOne (EObj {| get_curdir := "src";
                        get_incdirs := ["."; "data"] |}))]
        ".."
      = Ok res.
Proof.
  split.
  - refine (proj1 (proj1 (proj2 (proj2 (unknown_features_reported_together
              (fun _ => "") posixpath OtherPlatform
              {| exelist := ["ldc2"]; version := "1.18"; arch := "x86_64";
                 id := "llvm" |}
              [("colour", VOne (EStr "red"));
               ("unittest", VOne (ENum (Bool true)));
               ("bogus", VOne (ENum (Int 1)));
               ("import_dirs",
                VOne (EObj {| get_curdir := "src";
                              get_incdirs := ["."; "data"] |}))]
              ".."))) _) _).
    + split; [cbn; tauto|].
      split; [|split; intros v Hv; inversion Hv].
      intros v Hv. inversion Hv; subst.
      constructor; [eexists; reflexivity | constructor].
    + discriminate.
  - refine (proj2 (proj1 (proj2 (proj2 (unknown_features_reported_together
              (fun _ => "") posixpath OtherPlatform
              {| exelist := ["ldc2"]; version := "1.18"; arch := "x86_64";
                 id := "llvm" |}
              [("unittest", VOne (ENum (Bool true)));
               ("debug", VList [EStr "10"; EStr "trace"]);
               ("import_dirs",
                VOne (EObj {| get_curdir := "src";
                              get_incdirs := ["."; "data"] |}))]
              ".."))) _) eq_refl).
    split; [cbn; tauto|].
    split; [|split; intros v Hv; inversion Hv; subst; repeat constructor].
    intros v Hv. inversion Hv; subst.
    constructor; [eexists; reflexivity | constructor].
Defined.

(** ** The path normaliser *)

Module PathFacts.

Import PosixPath.

Example normpath_ex :
  normpath "a/../../b/./c//d/.." = "../b/c"
  /\ normpath "//x/../y/" = "//y" /\ normpath "///x" = "/x"
  /\ normpath "/.." = "/" /\ normpath "" = ".".
Proof. repeat split. Qed.

Example join_ex :
  join "/b" "x" = "/b/x" /\ join "/b/" "x" = "/b/x" /\ join "/b" "/x" = "/x"
  /\ join "/b" "" = "/b/".
Proof. repeat split. Qed.

(** *** Components *)

Lemma clean_step (k : nat) (acc : list string) (comp : string) :
  clean comp -> normpath_step k acc comp = (acc ++ [comp])%list.
Proof.
  intros (H0 & H1 & H2 & _). unfold normpath_step.
  apply String.eqb_neq in H0, H1, H2. now rewrite H0, H1, H2.
Qed.

Lemma clean_fold (k : nat) (comps acc : list string) :
  Forall clean comps ->
  fold_left (normpath_step k) comps acc = (acc ++ comps)%list.
Proof.
  intros H; revert acc; induction H as [|c comps Hc _ IH]; intros acc;
    cbn [fold_left].
  - now rewrite app_nil_r.
  - rewrite (clean_step k acc c Hc), IH. now rewrite <- app_assoc.
Qed.

Lemma last_in (l : list string) (d : string) : l <> [] -> In (last l d) l.
Proof.
  induction l as [|x l IH]; [congruence|]. intros _.
  destruct l as [|y l]; [now left|].
  right. apply IH. discriminate.
Qed.

Lemma Forall_removelast {A : Type} (P : A -> Prop) (l : list A) :
  Forall P l -> Forall P (removelast l).
Proof.
  induction 1 as [|x l Hx Hl IH]; cbn [removelast]; [constructor|].
  destruct l; [constructor | now constructor].
Qed.

(** With leading slashes the stack of components stays clean: two dots
    at the root are dropped, elsewhere they pop a component. *)
Lemma step_keeps_clean (k : nat) (acc : list string) (comp : string) :
  k <> 0 -> free_of "/" comp -> Forall clean acc ->
  Forall clean (normpath_step k acc comp).
Proof.
  intros Hk Hfree Hacc. unfold normpath_step.
  destruct (String.eqb_spec comp "") as [|H0]; [assumption|].
  destruct (String.eqb_spec comp ".") as [|H1]; [assumption|].
  cbn [orb].
  destruct (String.eqb_spec comp "..") as [->|H2]; cbn [negb orb].
  - replace (Nat.eqb k 0) with false
      by (symmetry; now apply Nat.eqb_neq).
    cbn [andb orb].
    destruct acc as [|x acc]; cbn [is_nil negb andb]; [constructor|].
    destruct (String.eqb_spec (last (x :: acc) "") "..") as [E|_].
    + exfalso.
      assert (Hin : In ".." (x :: acc))
        by (rewrite <- E; apply last_in; discriminate).
      rewrite Forall_forall in Hacc.
      destruct (Hacc _ Hin) as (_ & _ & Hdd & _). now apply Hdd.
    + now apply Forall_removelast.
  - unfold Py.append. apply Forall_app; split; [assumption|].
    constructor; [|constructor]. repeat split; assumption.
Qed.

Lemma fold_keeps_clean (k : nat) (comps acc : list string) :
  k <> 0 -> Forall (free_of "/") comps -> Forall clean acc ->
  Forall clean (fold_left (normpath_step k) comps acc).
Proof.
  intros Hk H; revert acc; induction H as [|c comps Hc _ IH]; intros acc Hacc;
    cbn [fold_left]; [assumption|].
  apply IH. now apply step_keeps_clean.
Qed.

(** *** [normpath] on absolute paths *)

Lemma clean_not_slash (c : string) :
  clean c -> Py.startswith c "/" = false.
Proof.
  intros (H0 & _ & _ & Hfree). destruct c as [|a c]; [congruence|].
  apply PyFacts.free_of_cons in Hfree as [Ha _].
  cbn [Py.startswith]. now rewrite Ha.
Qed.

Lemma startswith_append_nonempty (c r p : string) :
  c <> "" -> Py.startswith c p = false -> String.length p = 1 ->
  Py.startswith (c ++ r) p = false.
Proof.
  intros Hc Hp Hlen. destruct c as [|a c]; [congruence|].
  destruct p as [|b [|? ?]]; try discriminate.
  cbn [Py.startswith append] in *. now destruct (Ascii.eqb a b).
Qed.

(** The joined components do not begin with a slash. *)
Lemma join_clean_no_slash (comps : list string) :
  Forall clean comps -> Py.startswith (Py.join "/" comps) "/" = false.
Proof.
  intros H. destruct H as [|c comps Hc Hcs]; [reflexivity|].
  unfold Py.join. cbn [concat].
  destruct comps as [|c' comps].
  - now apply clean_not_slash.
  - apply startswith_append_nonempty;
      [apply Hc | now apply clean_not_slash | reflexivity].
Qed.

(** Splitting the joined components and running the loop gives them
    back. *)
Lemma loop_split_join (k : nat) (comps : list string) :
  Forall clean comps ->
  fold_left (normpath_step k) (Py.split "/" (Py.join "/" comps)) [] = comps.
Proof.
  intros H. destruct comps as [|c comps]; [reflexivity|].
  rewrite (PyFacts.split_join "/" c comps).
  - now rewrite clean_fold.
  - eapply Forall_impl; [|exact H]. now intros a (_ & _ & _ & Ha).
Qed.

Lemma initial_slashes_absolute (path : string) :
  Py.startswith path "/" = true ->
  initial_slashes path = 1 \/ initial_slashes path = 2.
Proof.
  intros H. unfold initial_slashes. rewrite H.
  destruct (Py.startswith path "//" && negb (Py.startswith path "///"));
    auto.
Qed.

Lemma slashes_string_absolute (k : nat) (rest : string) :
  k = 1 \/ k = 2 ->
  Py.startswith (slashes_string k ++ rest) "/" = true
  /\ String.eqb (slashes_string k ++ rest) "" = false.
Proof. intros [->| ->]; split; reflexivity. Qed.

(** The normal form of an absolute path is a normalized absolute path. *)
Lemma normpath_absolute (path : string) :
  Py.startswith path "/" = true -> normal_absolute (normpath path).
Proof.
  intros H. unfold normpath.
  replace (String.eqb path "") with false
    by (destruct path; [discriminate | reflexivity]).
  cbv zeta.
  pose proof (initial_slashes_absolute path H) as Hk.
  set (k := initial_slashes path) in *.
  set (comps := fold_left (normpath_step k) (Py.split "/" path) []).
  destruct (slashes_string_absolute k (Py.join "/" comps) Hk) as [_ ->].
  exists k, comps. repeat split; [assumption|].
  apply fold_keeps_clean;
    [destruct Hk; lia | apply PyFacts.split_free_of | constructor].
Qed.

Lemma step_empty (k : nat) (acc : list string) :
  normpath_step k acc "" = acc.
Proof. reflexivity. Qed.

Lemma split_slash (r : string) :
  Py.split "/" (String "/" r) = "" :: Py.split "/" r.
Proof. reflexivity. Qed.

Lemma initial_slashes_normal (k : nat) (J : string) :
  k = 1 \/ k = 2 -> Py.startswith J "/" = false ->
  initial_slashes (slashes_string k ++ J) = k.
Proof.
  intros Hk HJ. unfold initial_slashes.
  destruct J as [|a J']; [destruct Hk as [-> | ->]; reflexivity|].
  cbn [Py.startswith] in HJ. rewrite andb_true_r in HJ.
  destruct Hk as [-> | ->];
    cbn [slashes_string append Py.startswith];
    rewrite Ascii.eqb_refl, HJ; reflexivity.
Qed.

(** A normalized absolute path is its own normal form. *)
Lemma normpath_fixed (path : string) :
  normal_absolute path -> normpath path = path.
Proof.
  intros (k & comps & Hk & Hclean & ->).
  pose proof (join_clean_no_slash comps Hclean) as HJ.
  pose proof (loop_split_join k comps Hclean) as HL.
  set (J := Py.join "/" comps) in *.
  unfold normpath.
  destruct (slashes_string_absolute k J Hk) as [_ E]. rewrite E.
  cbv zeta.
  rewrite (initial_slashes_normal k J Hk HJ).
  assert (Hs : fold_left (normpath_step k)
                 (Py.split "/" (slashes_string k ++ J)) [] = comps).
  { destruct Hk as [-> | ->]; cbn [slashes_string append];
      repeat (rewrite split_slash; cbn [fold_left]; rewrite step_empty);
      exact HL. }
  rewrite Hs. fold J. now rewrite E.
Qed.

(** *** [join] with an absolute build directory *)

Lemma join_absolute_right (a b : string) :
  Py.startswith b "/" = true -> join a b = b.
Proof. intros H. unfold join. now rewrite H. Qed.

Lemma join_absolute_left (a b : string) :
  Py.startswith a "/" = true -> Py.startswith (join a b) "/" = true.
Proof.
  intros H. unfold join.
  destruct (Py.startswith b "/") eqn:Hb; [assumption|].
  destruct a as [|c a]; [discriminate|].
  cbn [Py.startswith] in H.
  destruct (String.eqb (String c a) "" || Py.endswith (String c a) "/");
    cbn [append Py.startswith]; exact H.
Qed.

Lemma normal_absolute_starts (path : string) :
  normal_absolute path -> Py.startswith path "/" = true.
Proof.
  intros (k & comps & Hk & _ & ->).
  now destruct (slashes_string_absolute k (Py.join "/" comps) Hk).
Qed.

(** The path a rewritten token carries is a fixed point of the rewrite. *)
Lemma absolute_path_stable (build_dir rest : string) :
  Py.startswith build_dir "/" = true ->
  normpath (join build_dir (normpath (join build_dir rest)))
  = normpath (join build_dir rest).
Proof.
  intros H.
  pose proof (normpath_absolute _ (join_absolute_left build_dir rest H)) as N.
  rewrite (join_absolute_right build_dir _ (normal_absolute_starts _ N)).
  now apply normpath_fixed.
Qed.

(** *** The loop over the parameter list *)

Lemma setitem_at {A : Type} (pre : list A) (x v : A) (l : list A) :
  Py.setitem (pre ++ x :: l)%list (List.length pre) v = (pre ++ v :: l)%list.
Proof. induction pre as [|y pre IH]; cbn; [reflexivity | now rewrite IH]. Qed.

(** A loop whose iteration at index [idx] rewrites the element it was
    handed is the map of the rewrite. *)
Lemma loop_is_map (step : list string -> nat * string -> list string)
  (token : string -> string) :
  (forall pre i l,
      step (pre ++ i :: l)%list (List.length pre, i)
      = (pre ++ token i :: l)%list) ->
  forall parameter_list,
    fold_left step (Py.enumerate parameter_list) parameter_list
    = map token parameter_list.
Proof.
  intros Hstep parameter_list.
  enough (G : forall l pre,
             fold_left step (Py.enumerate_from (List.length pre) l)
               (pre ++ l)%list
             = (pre ++ map token l)%list)
    by exact (G parameter_list []).
  induction l as [|i l IH]; intros pre; cbn [Py.enumerate_from fold_left map].
  - reflexivity.
  - rewrite Hstep.
    replace (S (List.length pre)) with (List.length (pre ++ [token i])%list)
      by (rewrite length_app; cbn; lia).
    replace (pre ++ token i :: l)%list with ((pre ++ [token i]) ++ l)%list
      by (now rewrite <- app_assoc).
    rewrite IH. now rewrite <- app_assoc.
Qed.

(** What the body of the DMD-like loop leaves at the index it visits. *)
Definition dmd_token (build_dir i : string) : string :=
  let v := i in
  let v := if String.eqb (Py.take 3 i) "-I="
           then Py.take 3 i ++ normpath (join build_dir (Py.drop 3 i))
           else v in
  let v := if String.eqb (Py.take 4 i) "-L-L"
           then Py.take 4 i ++ normpath (join build_dir (Py.drop 4 i))
           else v in
  let v := if String.eqb (Py.take 5 i) "-L=-L"
           then Py.take 5 i ++ normpath (join build_dir (Py.drop 5 i))
           else v in
  let v := if String.eqb (Py.take 6 i) "-Wl,-L"
           then Py.take 6 i ++ normpath (join build_dir (Py.drop 6 i))
           else v in
  v.

(** What the body of the GNU-like loop leaves at the index it visits. *)
Definition gnu_token (build_dir i : string) : string :=
  if String.eqb (Py.take 2 i) "-I" || String.eqb (Py.take 2 i) "-L"
  then Py.take 2 i ++ normpath (join build_dir (Py.drop 2 i))
  else i.

(** Off Windows [os.path] is [posixpath]. *)
Lemma os_path_posix (ntpath : os_path_module) (host : platform) :
  is_windows host = false -> os_path ntpath host = posixpath.
Proof. unfold os_path. now intros ->. Qed.

Lemma dmd_step_at ntpath host build_dir pre i l :
  is_windows host = false ->
  DmdLikeCompilerMixin.absolute_paths_step ntpath host build_dir
    (pre ++ i :: l)%list (List.length pre, i)
  = (pre ++ dmd_token build_dir i :: l)%list.
Proof.
  intros Hhost.
  unfold DmdLikeCompilerMixin.absolute_paths_step, dmd_token.
  rewrite (os_path_posix ntpath host Hhost).
  cbn [path_join path_normpath posixpath]. cbv zeta.
  destruct (String.eqb (Py.take 3 i) "-I=");
    destruct (String.eqb (Py.take 4 i) "-L-L");
    destruct (String.eqb (Py.take 5 i) "-L=-L");
    destruct (String.eqb (Py.take 6 i) "-Wl,-L");
    now rewrite ?setitem_at.
Qed.

Lemma gnu_step_at ntpath host build_dir pre i l :
  is_windows host = false ->
  GnuLikeCompiler.absolute_paths_step ntpath host build_dir
    (pre ++ i :: l)%list (List.length pre, i)
  = (pre ++ gnu_token build_dir i :: l)%list.
Proof.
  intros Hhost.
  unfold GnuLikeCompiler.absolute_paths_step, gnu_token.
  rewrite (os_path_posix ntpath host Hhost).
  cbn [path_join path_normpath posixpath].
  destruct (String.eqb (Py.take 2 i) "-I" || String.eqb (Py.take 2 i) "-L");
    now rewrite ?setitem_at.
Qed.

Lemma dmd_loop_map ntpath host parameter_list build_dir :
  is_windows host = false ->
  DmdLikeCompilerMixin.compute_parameters_with_absolute_paths ntpath host
    parameter_list build_dir
  = map (dmd_token build_dir) parameter_list.
Proof.
  intros Hhost.
  unfold DmdLikeCompilerMixin.compute_parameters_with_absolute_paths.
  apply loop_is_map. intros pre i l. now apply dmd_step_at.
Qed.

Lemma gnu_loop_map ntpath host parameter_list build_dir :
  is_windows host = false ->
  GnuLikeCompiler.compute_parameters_with_absolute_paths ntpath host
    parameter_list build_dir
  = map (gnu_token build_dir) parameter_list.
Proof.
  intros Hhost.
  unfold GnuLikeCompiler.compute_parameters_with_absolute_paths.
  apply loop_is_map. intros pre i l. now apply gnu_step_at.
Qed.

(** *** Tokens *)

(** [s[:n] == p], for [p] of [n] characters, is [s.startswith(p)]. *)
Lemma take_eqb_startswith (p s : string) :
  String.eqb (Py.take (String.length p) s) p = Py.startswith s p.
Proof.
  revert s; induction p as [|c p IH]; intros s; cbn [String.length].
  - now destruct s.
  - destruct s as [|a s]; cbn [Py.take Py.startswith String.eqb];
      [reflexivity|].
    now rewrite IH.
Qed.

Lemma dmd_token_unflagged build_dir i :
  dmd_path_flag i = false -> dmd_token build_dir i = i.
Proof.
  unfold dmd_path_flag, dmd_token. intros H.
  repeat (apply orb_false_iff in H; destruct H as [H ?]).
  pose proof (take_eqb_startswith "-I=" i) as T3.
  pose proof (take_eqb_startswith "-L-L" i) as T4.
  pose proof (take_eqb_startswith "-L=-L" i) as T5.
  pose proof (take_eqb_startswith "-Wl,-L" i) as T6.
  cbn [String.length] in T3, T4, T5, T6.
  rewrite T3, T4, T5, T6.
  repeat match goal with X : _ = false |- _ => rewrite X; clear X end.
  reflexivity.
Qed.

Lemma gnu_token_unflagged build_dir i :
  gnu_path_flag i = false -> gnu_token build_dir i = i.
Proof.
  unfold gnu_path_flag, gnu_token. intros H.
  pose proof (take_eqb_startswith "-I" i) as TI.
  pose proof (take_eqb_startswith "-L" i) as TL.
  cbn [String.length] in TI, TL.
  now rewrite TI, TL, H.
Qed.

(** A rewritten token is a path-flag prefix followed by the normal form of
    an absolute path; any other token is left as it was. *)
Lemma dmd_token_cases build_dir i :
  dmd_token build_dir i = i
  \/ exists p rest,
      In p ["-I="; "-L-L"; "-L=-L"; "-Wl,-L"]
      /\ dmd_token build_dir i = p ++ normpath (join build_dir rest).
Proof.
  unfold dmd_token. cbv zeta.
  destruct (String.eqb_spec (Py.take 6 i) "-Wl,-L") as [E6|_].
  { right. exists "-Wl,-L", (Py.drop 6 i). rewrite E6. cbn; tauto. }
  destruct (String.eqb_spec (Py.take 5 i) "-L=-L") as [E5|_].
  { right. exists "-L=-L", (Py.drop 5 i). rewrite E5. cbn; tauto. }
  destruct (String.eqb_spec (Py.take 4 i) "-L-L") as [E4|_].
  { right. exists "-L-L", (Py.drop 4 i). rewrite E4. cbn; tauto. }
  destruct (String.eqb_spec (Py.take 3 i) "-I=") as [E3|_].
  { right. exists "-I=", (Py.drop 3 i). rewrite E3. cbn; tauto. }
  now left.
Qed.

Lemma gnu_token_cases build_dir i :
  gnu_token build_dir i = i
  \/ exists p rest,
      In p ["-I"; "-L"]
      /\ gnu_token build_dir i = p ++ normpath (join build_dir rest).
Proof.
  unfold gnu_token.
  destruct (String.eqb_spec (Py.take 2 i) "-I") as [E|_].
  { right. exists "-I", (Py.drop 2 i). rewrite E. cbn; tauto. }
  destruct (String.eqb_spec (Py.take 2 i) "-L") as [E|_].
  { right. exists "-L", (Py.drop 2 i). rewrite E. cbn; tauto. }
  now left.
Qed.

Ltac prefix_tests :=
  cbn [Py.take Py.drop append String.eqb Ascii.eqb Bool.eqb andb orb].

Lemma dmd_token_fixed build_dir p path :
  In p ["-I="; "-L-L"; "-L=-L"; "-Wl,-L"] ->
  normal_absolute path ->
  dmd_token build_dir (p ++ path) = p ++ path.
Proof.
  intros Hp N.
  pose proof (join_absolute_right build_dir path
                (normal_absolute_starts path N)) as J.
  pose proof (normpath_fixed path N) as F.
  unfold dmd_token.
  destruct Hp as [<-|[<-|[<-|[<-|[]]]]]; prefix_tests;
    now rewrite J, F.
Qed.

Lemma gnu_token_fixed build_dir p path :
  In p ["-I"; "-L"] ->
  normal_absolute path ->
  gnu_token build_dir (p ++ path) = p ++ path.
Proof.
  intros Hp N.
  pose proof (join_absolute_right build_dir path
                (normal_absolute_starts path N)) as J.
  pose proof (normpath_fixed path N) as F.
  unfold gnu_token.
  destruct Hp as [<-|[<-|[]]]; prefix_tests; now rewrite J, F.
Qed.

Lemma dmd_token_idempotent build_dir i :
  Py.startswith build_dir "/" = true ->
  dmd_token build_dir (dmd_token build_dir i) = dmd_token build_dir i.
Proof.
  intros H. destruct (dmd_token_cases build_dir i) as [E|(p & rest & Hp & E)].
  - now rewrite !E.
  - rewrite E. apply dmd_token_fixed; [assumption|].
    apply normpath_absolute. now apply join_absolute_left.
Qed.

Lemma gnu_token_idempotent build_dir i :
  Py.startswith build_dir "/" = true ->
  gnu_token build_dir (gnu_token build_dir i) = gnu_token build_dir i.
Proof.
  intros H. destruct (gnu_token_cases build_dir i) as [E|(p & rest & Hp & E)].
  - now rewrite !E.
  - rewrite E. apply gnu_token_fixed; [assumption|].
    apply normpath_absolute. now apply join_absolute_left.
Qed.

End PathFacts.

(** C9. On a host other than Windows, where [os.path] is [posixpath],
    [compute_parameters_with_absolute_paths] is idempotent: for every
    argument vector and every absolute build directory, applying it twice
    gives what applying it once gives, for the DMD-like mixin, the GNU-like
    mixin and the GNU D front end alike.  A token without a path-flag prefix
    of the family comes back unchanged at its place, and the order of the
    tokens is kept: the vector keeps its length, and the result for a
    concatenation is the concatenation of the results. *)
Theorem absolute_paths_idempotent
  (ntpath : os_path_module) (host : platform)
  (build_dir : string) (args : list string) :
  is_windows host = false ->
  Py.startswith build_dir "/" = true ->
  (DmdLikeCompilerMixin.compute_parameters_with_absolute_paths ntpath host
     (DmdLikeCompilerMixin.compute_parameters_with_absolute_paths ntpath host
        args build_dir) build_dir
   = DmdLikeCompilerMixin.compute_parameters_with_absolute_paths ntpath host
       args build_dir
   /\ GnuLikeCompiler.compute_parameters_with_absolute_paths ntpath host
        (GnuLikeCompiler.compute_parameters_with_absolute_paths ntpath host
           args build_dir) build_dir
      = GnuLikeCompiler.compute_parameters_with_absolute_paths ntpath host
          args build_dir
   /\ GnuDCompiler.compute_parameters_with_absolute_paths ntpath host
        (GnuDCompiler.compute_parameters_with_absolute_paths ntpath host
           args build_dir) build_dir
      = GnuDCompiler.compute_parameters_with_absolute_paths ntpath host
          args build_dir)
  /\ (forall pre arg post,
         dmd_path_flag arg = false ->
         DmdLikeCompilerMixin.compute_parameters_with_absolute_paths ntpath
           host (pre ++ arg :: post)%list build_dir
         = (DmdLikeCompilerMixin.compute_parameters_with_absolute_paths
              ntpath host pre build_dir
            ++ arg
            :: DmdLikeCompilerMixin.compute_parameters_with_absolute_paths
                 ntpath host post build_dir)%list)
  /\ (forall pre arg post,
         gnu_path_flag arg = false ->
         GnuLikeCompiler.compute_parameters_with_absolute_paths ntpath host
           (pre ++ arg :: post)%list build_dir
         = (GnuLikeCompiler.compute_parameters_with_absolute_paths ntpath
              host pre build_dir
            ++ arg
            :: GnuLikeCompiler.compute_parameters_with_absolute_paths ntpath
                 host post build_dir)%list)
  /\ (forall pre post,
         DmdLikeCompilerMixin.compute_parameters_with_absolute_paths ntpath
           host (pre ++ post)%list build_dir
         = (DmdLikeCompilerMixin.compute_parameters_with_absolute_paths
              ntpath host pre build_dir
            ++ DmdLikeCompilerMixin.compute_parameters_with_absolute_paths
                 ntpath host post build_dir)%list
         /\ GnuLikeCompiler.compute_parameters_with_absolute_paths ntpath host
              (pre ++ post)%list build_dir
            = (GnuLikeCompiler.compute_parameters_with_absolute_paths ntpath
                 host pre build_dir
               ++ GnuLikeCompiler.compute_parameters_with_absolute_paths
                    ntpath host post build_dir)%list)
  /\ (List.length
        (DmdLikeCompilerMixin.compute_parameters_with_absolute_paths ntpath
           host args build_dir) = List.length args
      /\ List.length
           (GnuLikeCompiler.compute_parameters_with_absolute_paths ntpath
              host args build_dir) = List.length args).
Proof.
  intros Hhost Habs.
  unfold GnuDCompiler.compute_parameters_with_absolute_paths.
  repeat split; intros;
    rewrite ?PathFacts.dmd_loop_map, ?PathFacts.gnu_loop_map by assumption.
  - rewrite map_map. apply map_ext. intros i.
    now apply PathFacts.dmd_token_idempotent.
  - rewrite map_map. apply map_ext. intros i.
    now apply PathFacts.gnu_token_idempotent.
  - rewrite map_map. apply map_ext. intros i.
    now apply PathFacts.gnu_token_idempotent.
  - rewrite map_app. cbn [map].
    now rewrite PathFacts.dmd_token_unflagged.
  - rewrite map_app. cbn [map].
    now rewrite PathFacts.gnu_token_unflagged.
  - apply map_app.
  - apply map_app.
  - apply length_map.
  - apply length_map.
Qed.

Lemma absolute_paths_idempotent_witness :
  DmdLikeCompilerMixin.compute_parameters_with_absolute_paths
    posixpath OtherPlatform
    ["-I=../inc"; "-O"; "-L-Llib//x/"; "-I=/usr/include"; "-L=-L."] "/build"
  = ["-I=/inc"; "-O"; "-L-L/build/lib/x"; "-I=/usr/include"; "-L=-L/build"]
  /\ DmdLikeCompilerMixin.compute_parameters_with_absolute_paths
       posixpath OtherPlatform
       ["-I=/inc"; "-O"; "-L-L/build/lib/x"; "-I=/usr/include";
        "-L=-L/build"] "/build"
     = ["-I=/inc"; "-O"; "-L-L/build/lib/x"; "-I=/usr/include";
        "-L=-L/build"]
  /\ GnuLikeCompiler.compute_parameters_with_absolute_paths
       posixpath OtherPlatform
       ["-Iinc"; "-g"] "/build"
     = ["-I/build/inc"; "-g"].
Proof.
  split; [reflexivity|]. split.
  - exact (proj1 (proj1 (absolute_paths_idempotent posixpath OtherPlatform
             "/build"
             ["-I=../inc"; "-O"; "-L-Llib//x/"; "-I=/usr/include"; "-L=-L."]
             eq_refl eq_refl))).
  - exact (proj1 (proj2 (proj2 (absolute_paths_idempotent posixpath
             OtherPlatform "/build" [] eq_refl eq_refl)))
             ["-Iinc"] "-g" [] eq_refl).
Defined.

(** ** More on the argument translator *)

Module TranslatorMore.

Import DmdLikeCompilerMixin.

(** A token the translator maps to itself. *)
Definition fixed (host : platform) (cls : dmd_like_class) (t : string)
  : Prop :=
  translate_step host cls [] t = [t].

Lemma fixed_linker_pass host cls x : fixed host cls ("-L=" ++ x).
Proof. unfold fixed. destruct host; reflexivity. Qed.

Lemma fixed_include_eq host cls x : fixed host cls ("-I=" ++ x).
Proof. unfold fixed. destruct host; reflexivity. Qed.

Lemma fixed_include host cls : fixed host cls "-I".
Proof. unfold fixed. destruct host; reflexivity. Qed.

Lemma flat_map_fixed host cls (l : list string) :
  Forall (fixed host cls) l -> flat_map (translate_step host cls []) l = l.
Proof.
  induction 1 as [|t l Ht _ IH]; cbn [flat_map]; [reflexivity|].
  rewrite Ht, IH. reflexivity.
Qed.

Lemma Forall_map_fixed host cls (f : string -> string) (l : list string) :
  (forall x, fixed host cls (f x)) -> Forall (fixed host cls) (map f l).
Proof. intros H. induction l; cbn [map]; constructor; auto. Qed.

(** What the platform rule emits is left alone by a second pass, the
    runtime rule of LDC on Windows excepted. *)
Lemma os_args_fixed host cls arg :
  is_windows host && is_LLVMDCompiler cls = false ->
  Forall (fixed host cls) (os_specific_args host cls arg).
Proof.
  intros Hc. unfold os_specific_args.
  destruct host; cbn [is_windows is_osx] in *.
  - destruct cls; [discriminate|]. unfold translate_arg_to_windows.
    cbv zeta.
    destruct (Py.startswith arg "-Wl,") eqn:HW.
    + rewrite TranslatorFacts.fold_cond_append. cbn [app].
      apply Forall_map_fixed. intros x.
      exact (fixed_linker_pass Windows DmdDCompiler_cls
               ("/IMPLIB:" ++ Py.strip (Py.drop 13 x))).
    + destruct (Py.startswith arg "-mscrtlib=") eqn:HM; [|constructor].
      cbn [is_LLVMDCompiler]. constructor; [|constructor].
      unfold fixed, translate_step, os_specific_args.
      cbn [is_windows]. unfold translate_arg_to_windows.
      rewrite HW, HM. reflexivity.
  - unfold translate_arg_to_osx.
    destruct (Py.startswith arg "-install_name"); [|constructor].
    constructor; [apply fixed_linker_pass | constructor].
  - constructor.
Qed.

(** Every token an iteration emits is left alone by a second pass. *)
Lemma step_emits_fixed host cls arg :
  is_windows host && is_LLVMDCompiler cls = false ->
  Forall (fixed host cls) (translate_step host cls [] arg).
Proof.
  intros Hc.
  pose proof (os_args_fixed host cls arg Hc) as Hos.
  pose proof (eq_refl (translate_step host cls [] arg)) as E.
  unfold translate_step in E at 2. cbv zeta in E.
  destruct (os_specific_args host cls arg) as [|o os];
    cbn [PosixPath.is_nil negb] in E.
  2:{ rewrite E. exact Hos. }
  rewrite PyFacts.fold_append in E.
  repeat match type of E with
         | context [if ?b then _ else _] => destruct b
         end;
    rewrite E; unfold Py.append; cbn [app];
    try (constructor; [|constructor]);
    try exact E;
    try apply fixed_linker_pass;
    try apply fixed_include_eq;
    try apply fixed_include;
    try constructor.
  apply Forall_map_fixed. intros x. apply fixed_linker_pass.
Qed.

Lemma translate_idempotent host cls args :
  is_windows host && is_LLVMDCompiler cls = false ->
  translate_args_to_nongnu host cls (translate_args_to_nongnu host cls args)
  = translate_args_to_nongnu host cls args.
Proof.
  intros Hc. rewrite !TranslatorFacts.translate_flat_map.
  induction args as [|a args IH]; cbn [flat_map]; [reflexivity|].
  rewrite flat_map_app, IH.
  now rewrite (flat_map_fixed host cls _ (step_emits_fixed host cls a Hc)).
Qed.


Import TranslatorFacts.

Lemma startswith_weaken (p q s : string) :
  Py.startswith s (p ++ q) = true -> Py.startswith s p = true.
Proof.
  destruct (Py.startswith s p) eqn:E; [reflexivity|].
  now rewrite (PyFacts.startswith_extend_false p q s E).
Qed.

Lemma free_of_append (c : ascii) (a b : string) :
  free_of c a -> free_of c b -> free_of c (a ++ b).
Proof.
  induction a as [|x a IH]; intros Ha Hb; cbn [append]; [assumption|].
  apply PyFacts.free_of_cons in Ha as [Hx Ha].
  apply PyFacts.free_of_cons. split; [assumption | now apply IH].
Qed.

(** The three drop rules leave nothing, on every host. *)
Lemma step_dropped host cls arg :
  drop_rule arg = true -> translate_step host cls [] arg = [].
Proof.
  unfold drop_rule. intros H.
  apply orb_true_iff in H as [H|HD];
    [apply orb_true_iff in H as [HP|HS]|].
  - apply String.eqb_eq in HP. subst arg. destruct host; reflexivity.
  - assert (Hp : platform_rule host arg = false)
      by (apply (platform_rule_shape host arg _ HS); reflexivity).
    unfold translate_step; cbv zeta.
    rewrite (os_specific_args_unmatched host cls arg Hp).
    cbn [PosixPath.is_nil negb].
    by_shape arg HS. now rewrite HS.
  - assert (Hp : platform_rule host arg = false)
      by (apply (platform_rule_shape host arg _ HD); reflexivity).
    unfold translate_step; cbv zeta.
    rewrite (os_specific_args_unmatched host cls arg Hp).
    cbn [PosixPath.is_nil negb].
    by_shape arg HD. now rewrite HD.
Qed.

(** The prefixes of rule 4 all begin like a short library flag. *)
Lemma linker_control_is_dash_l (arg : string) :
  Py.startswith_any arg linker_control_prefixes = true ->
  Py.startswith arg "-l" = true.
Proof.
  unfold Py.startswith_any, linker_control_prefixes. cbn [existsb].
  intros H.
  repeat (apply orb_true_iff in H; destruct H as [H|H]);
    try discriminate.
  - exact (startswith_weaken "-l" "ink-defaultlib" arg H).
  - exact (startswith_weaken "-l" "inker" arg H).
  - exact (startswith_weaken "-l" "ink-internally" arg H).
  - exact (startswith_weaken "-l" "inkonce-templates" arg H).
  - exact (startswith_weaken "-l" "ib" arg H).
Qed.

Lemma step_linker_control host cls arg :
  Py.startswith_any arg linker_control_prefixes = true ->
  translate_step host cls [] arg = [arg].
Proof.
  intros Hc. pose proof (linker_control_is_dash_l arg Hc) as Hl.
  assert (Hp : platform_rule host arg = false)
    by (apply (platform_rule_shape host arg "-l" Hl); reflexivity).
  unfold translate_step; cbv zeta.
  rewrite (os_specific_args_unmatched host cls arg Hp), Hc.
  cbn [PosixPath.is_nil negb].
  by_shape arg Hl. reflexivity.
Qed.

(** Rule 7: a search-path token is wrapped whole, unless it names an
    archive, in which case the path after the two characters of the flag is
    handed over. *)
Lemma step_search_path host cls arg :
  Py.startswith arg "-L/" || Py.startswith arg "-L./" = true ->
  translate_step host cls [] arg
  = [if Py.endswith arg ".a" || Py.endswith arg ".lib"
     then "-L=" ++ Py.drop 2 arg else "-L=" ++ arg].
Proof.
  intros H.
  assert (HL : Py.startswith arg "-L" = true).
  { apply orb_true_iff in H as [H|H];
      [exact (startswith_weaken "-L" "/" arg H)
      | exact (startswith_weaken "-L" "./" arg H)]. }
  assert (Hp : platform_rule host arg = false)
    by (apply (platform_rule_shape host arg "-L" HL); reflexivity).
  assert (Hf : Nat.ltb 0 (String.length (Py.drop 2 arg))
               && negb (Py.startswith (Py.drop 2 arg) "-") = true).
  { apply orb_true_iff in H as [H|H];
      rewrite (PyFacts.startswith_inv _ _ H); reflexivity. }
  assert (He : Py.startswith arg "-L=" = false).
  { apply orb_true_iff in H as [H|H];
      rewrite (PyFacts.startswith_inv _ _ H); reflexivity. }
  assert (Hc : Py.startswith_any arg linker_control_prefixes = false)
    by (rewrite (PyFacts.startswith_inv _ _ HL); reflexivity).
  unfold translate_step; cbv zeta.
  rewrite (os_specific_args_unmatched host cls arg Hp), Hc, He.
  cbn [PosixPath.is_nil negb].
  by_shape arg HL. rewrite H, Hf.
  destruct (Py.endswith arg ".a" || Py.endswith arg ".lib"); reflexivity.
Qed.

(** The install-name flag is a macOS matter. *)
Lemma step_install_name host cls arg :
  Py.startswith arg "-install_name" = true ->
  translate_step host cls [] arg
  = [if is_osx host then "-L=" ++ arg else arg].
Proof.
  intros H.
  assert (Hd : Py.startswith arg "-" = true)
    by exact (startswith_weaken "-" "install_name" arg H).
  assert (Hc : Py.startswith_any arg linker_control_prefixes = false)
    by (rewrite (PyFacts.startswith_inv _ _ H); reflexivity).
  unfold translate_step, os_specific_args; cbv zeta.
  destruct host; cbn [is_windows is_osx].
  - assert (Hw : translate_arg_to_windows cls arg = [])
      by (unfold translate_arg_to_windows;
          rewrite (PyFacts.startswith_inv _ _ H); reflexivity).
    rewrite Hw, Hc. cbn [PosixPath.is_nil negb].
    by_shape arg H. rewrite Hd. reflexivity.
  - unfold translate_arg_to_osx. rewrite H. reflexivity.
  - rewrite Hc. cbn [PosixPath.is_nil negb].
    by_shape arg H. rewrite Hd. reflexivity.
Qed.

(** The import-library flag the adapter generates, as the Windows rule
    reads it. *)
Lemma windows_import_library cls (implibname : string) :
  free_of "," implibname ->
  translate_step Windows cls [] ("-Wl,--out-implib=" ++ implibname)
  = ["-L=/IMPLIB:" ++ Py.strip implibname].
Proof.
  intros Hfree.
  assert (Hs : Py.split "," ("--out-implib=" ++ implibname)
               = ["--out-implib=" ++ implibname]).
  { apply PyFacts.split_free. apply free_of_append; [reflexivity|assumption]. }
  unfold translate_step, os_specific_args; cbv zeta. cbn [is_windows].
  assert (Hw : translate_arg_to_windows cls
                 ("-Wl,--out-implib=" ++ implibname)
               = ["-L=/IMPLIB:" ++ Py.strip implibname]).
  { unfold translate_arg_to_windows.
    change (Py.startswith ("-Wl,--out-implib=" ++ implibname) "-Wl,")
      with true.
    change (after_first_comma ("-Wl,--out-implib=" ++ implibname))
      with ("--out-implib=" ++ implibname).
    cbv iota. rewrite Hs. reflexivity. }
  rewrite Hw. reflexivity.
Qed.

End TranslatorMore.

(** X1. Translating an already translated vector changes nothing, on every
    host for the DMD class and off Windows for the LDC class: every token
    the translator emits is one it maps to itself. *)
Theorem translate_args_idempotent
  (host : platform) (cls : dmd_like_class) (args : list string) :
  host <> Windows \/ cls = DmdDCompiler_cls ->
  DmdLikeCompilerMixin.translate_args_to_nongnu host cls
    (DmdLikeCompilerMixin.translate_args_to_nongnu host cls args)
  = DmdLikeCompilerMixin.translate_args_to_nongnu host cls args.
Proof.
  intros H. apply TranslatorMore.translate_idempotent.
  destruct H as [H| ->]; [|now destruct host].
  destruct host; [congruence | reflexivity | reflexivity].
Qed.

Lemma translate_args_idempotent_witness :
  DmdLikeCompilerMixin.translate_args_to_nongnu OSX LLVMDCompiler_cls
    (DmdLikeCompilerMixin.translate_args_to_nongnu OSX LLVMDCompiler_cls
       ["-lz"; "-Wl,-rpath,/opt"; "-install_name x"; "-L/usr/lib";
        "libm.a"; "-isystem=/inc"; "-O"])
  = ["-L=-lz"; "-L=-rpath"; "-L=/opt"; "-L=-install_name x";
     "-L=-L/usr/lib"; "-L=libm.a"; "-I=/inc"; "-O"].
Proof.
  refine (translate_args_idempotent OSX LLVMDCompiler_cls
            ["-lz"; "-Wl,-rpath,/opt"; "-install_name x"; "-L/usr/lib";
             "libm.a"; "-isystem=/inc"; "-O"] _).
  left; discriminate.
Defined.

(** X2. A token leaves no output exactly when it is -pthread, begins with
    -fstack-protector or begins with -D; such a token disappears from the
    vector without disturbing its neighbours, on every host. *)
Theorem dropped_tokens_vanish
  (host : platform) (cls : dmd_like_class) (arg : string) :
  (DmdLikeCompilerMixin.translate_args_to_nongnu host cls [arg] = []
   <-> drop_rule arg = true)
  /\ (drop_rule arg = true ->
      forall pre post,
        DmdLikeCompilerMixin.translate_args_to_nongnu host cls
          (pre ++ arg :: post)%list
        = (DmdLikeCompilerMixin.translate_args_to_nongnu host cls pre
           ++ DmdLikeCompilerMixin.translate_args_to_nongnu host cls post)%list).
Proof.
  split; [split|].
  - intros H. destruct (drop_rule arg) eqn:E; [reflexivity|].
    exfalso. revert H. rewrite TranslatorFacts.translate_flat_map.
    cbn [flat_map]. rewrite app_nil_r.
    now apply TranslatorFacts.step_not_dropped.
  - intros H. rewrite TranslatorFacts.translate_flat_map. cbn [flat_map].
    now rewrite (TranslatorMore.step_dropped host cls arg H).
  - intros H pre post. rewrite TranslatorFacts.translate_at.
    now rewrite (TranslatorMore.step_dropped host cls arg H).
Qed.

Lemma dropped_tokens_vanish_witness :
  DmdLikeCompilerMixin.translate_args_to_nongnu Windows LLVMDCompiler_cls
    ["-g"; "-fstack-protector-strong"; "-O"]
  = ["-g"; "-O"].
Proof.
  exact (proj2 (dropped_tokens_vanish Windows LLVMDCompiler_cls
           "-fstack-protector-strong") eq_refl ["-g"] ["-O"]).
Defined.

(** X3. A token that begins with -L/ or -L./ always yields exactly one
    token: the path without the two characters of the flag, behind -L=,
    when the token ends in .a or .lib, and the whole token behind -L=
    otherwise. *)
Theorem search_path_token_wrapped
  (host : platform) (cls : dmd_like_class) (pre post : list string)
  (arg : string) :
  Py.startswith arg "-L/" || Py.startswith arg "-L./" = true ->
  DmdLikeCompilerMixin.translate_args_to_nongnu host cls
    (pre ++ arg :: post)%list
  = (DmdLikeCompilerMixin.translate_args_to_nongnu host cls pre
     ++ (if Py.endswith arg ".a" || Py.endswith arg ".lib"
         then "-L=" ++ Py.drop 2 arg else "-L=" ++ arg)%string
     :: DmdLikeCompilerMixin.translate_args_to_nongnu host cls post)%list.
Proof.
  intros H. rewrite TranslatorFacts.translate_at.
  now rewrite (TranslatorMore.step_search_path host cls arg H).
Qed.

Lemma search_path_token_wrapped_witness :
  DmdLikeCompilerMixin.translate_args_to_nongnu OtherPlatform
    DmdDCompiler_cls ["-L/usr/lib"; "-L/usr/lib/libz.a"; "-L./x.lib"]
  = ["-L=-L/usr/lib"; "-L=/usr/lib/libz.a"; "-L=./x.lib"].
Proof.
  exact (search_path_token_wrapped OtherPlatform DmdDCompiler_cls
           ["-L/usr/lib"] ["-L./x.lib"] "-L/usr/lib/libz.a" eq_refl).
Defined.

(** X4. A token that begins with one of the linker-control prefixes
    (-link-defaultlib, -linker, -link-internally, -linkonce-templates,
    -lib) is passed through verbatim on every host, although it begins
    like a short library flag. *)
Theorem linker_control_tokens_verbatim
  (host : platform) (cls : dmd_like_class) (pre post : list string)
  (arg : string) :
  Py.startswith_any arg DmdLikeCompilerMixin.linker_control_prefixes = true ->
  Py.startswith arg "-l" = true
  /\ DmdLikeCompilerMixin.translate_args_to_nongnu host cls
       (pre ++ arg :: post)%list
     = (DmdLikeCompilerMixin.translate_args_to_nongnu host cls pre
        ++ arg
        :: DmdLikeCompilerMixin.translate_args_to_nongnu host cls post)%list.
Proof.
  intros H. split; [now apply TranslatorMore.linker_control_is_dash_l|].
  rewrite TranslatorFacts.translate_at.
  now rewrite (TranslatorMore.step_linker_control host cls arg H).
Qed.

Lemma linker_control_tokens_verbatim_witness :
  DmdLikeCompilerMixin.translate_args_to_nongnu Windows LLVMDCompiler_cls
    ["-lz"; "-link-defaultlib-shared"; "-libfoo"]
  = ["-L=-lz"; "-link-defaultlib-shared"; "-libfoo"].
Proof.
  exact (proj2 (linker_control_tokens_verbatim Windows LLVMDCompiler_cls
           ["-lz"] ["-libfoo"] "-link-defaultlib-shared" eq_refl)).
Defined.

(** X5. The import-library argument the adapter generates for a file name
    of ASCII text without a comma is translated, on Windows, into the one
    native token
    -L=/IMPLIB: followed by the name stripped of surrounding white space;
    on the other hosts it is unwrapped like any linker argument. *)
Theorem import_library_translated
  (cls : dmd_like_class) (implibname : string) :
  free_of "," implibname ->
  ascii_text implibname ->
  DmdLikeCompilerMixin.translate_args_to_nongnu Windows cls
    (DmdLikeCompilerMixin.gen_import_library_args implibname)
  = ["-L=/IMPLIB:" ++ Py.strip implibname]
  /\ DmdLikeCompilerMixin.translate_args_to_nongnu OSX cls
       (DmdLikeCompilerMixin.gen_import_library_args implibname)
     = ["-L=" ++ Py.strip ("--out-implib=" ++ implibname)]
  /\ DmdLikeCompilerMixin.translate_args_to_nongnu OtherPlatform cls
       (DmdLikeCompilerMixin.gen_import_library_args implibname)
     = ["-L=" ++ Py.strip ("--out-implib=" ++ implibname)].
Proof.
  intros Hfree _.
  assert (Hf : Forall (free_of ",") ["--out-implib=" ++ implibname]).
  { constructor; [|constructor].
    apply TranslatorMore.free_of_append; [reflexivity | assumption]. }
  unfold DmdLikeCompilerMixin.gen_import_library_args.
  rewrite !TranslatorFacts.translate_flat_map. cbn [flat_map].
  rewrite !app_nil_r. repeat split.
  - now apply TranslatorMore.windows_import_library.
  - exact (TranslatorFacts.step_linker_wrapped OSX cls
             ("--out-implib=" ++ implibname) [] Hf eq_refl).
  - exact (TranslatorFacts.step_linker_wrapped OtherPlatform cls
             ("--out-implib=" ++ implibname) [] Hf eq_refl).
Qed.

Lemma import_library_translated_witness :
  DmdLikeCompilerMixin.translate_args_to_nongnu Windows DmdDCompiler_cls
    (DmdLikeCompilerMixin.gen_import_library_args "x.lib")
  = ["-L=/IMPLIB:x.lib"].
Proof.
  exact (proj1 (import_library_translated DmdDCompiler_cls "x.lib" eq_refl
                  eq_refl)).
Defined.

(** X6. A token that begins with -install_name is wrapped as a linker-pass
    token on macOS and passed through unchanged on every other host. *)
Theorem install_name_by_host
  (host : platform) (cls : dmd_like_class) (pre post : list string)
  (arg : string) :
  Py.startswith arg "-install_name" = true ->
  DmdLikeCompilerMixin.translate_args_to_nongnu host cls
    (pre ++ arg :: post)%list
  = (DmdLikeCompilerMixin.translate_args_to_nongnu host cls pre
     ++ (if is_osx host then "-L=" ++ arg else arg)%string
     :: DmdLikeCompilerMixin.translate_args_to_nongnu host cls post)%list.
Proof.
  intros H. rewrite TranslatorFacts.translate_at.
  now rewrite (TranslatorMore.step_install_name host cls arg H).
Qed.

Lemma install_name_by_host_witness :
  DmdLikeCompilerMixin.translate_args_to_nongnu OSX DmdDCompiler_cls
    ["-g"; "-install_name @rpath/libx.dylib"]
  = ["-g"; "-L=-install_name @rpath/libx.dylib"]
  /\ DmdLikeCompilerMixin.translate_args_to_nongnu Windows DmdDCompiler_cls
       ["-g"; "-install_name @rpath/libx.dylib"]
     = ["-g"; "-install_name @rpath/libx.dylib"].
Proof.
  split.
  - exact (install_name_by_host OSX DmdDCompiler_cls ["-g"] []
             "-install_name @rpath/libx.dylib" eq_refl).
  - exact (install_name_by_host Windows DmdDCompiler_cls ["-g"] []
             "-install_name @rpath/libx.dylib" eq_refl).
Defined.

(** ** The run-path argument *)

Module RpathFacts.

Import DmdLikeCompilerMixin.

Lemma length_repeat_char (c : ascii) (n : nat) :
  String.length (Py.repeat_char c n) = n.
Proof. induction n; cbn; auto. Qed.

Lemma free_of_repeat_char (c x : ascii) (n : nat) :
  Ascii.eqb x c = false -> free_of c (Py.repeat_char x n).
Proof.
  intros H. induction n as [|n IH]; cbn [Py.repeat_char]; [reflexivity|].
  apply PyFacts.free_of_cons. now split.
Qed.

Lemma free_of_posix_join (c : ascii) (a b : string) :
  Ascii.eqb "/" c = false -> free_of c a -> free_of c b ->
  free_of c (PosixPath.join a b).
Proof.
  intros Hc Ha Hb. unfold PosixPath.join.
  destruct (Py.startswith b "/"); [assumption|].
  destruct (String.eqb a "" || Py.endswith a "/").
  - now apply TranslatorMore.free_of_append.
  - apply TranslatorMore.free_of_append; [assumption|].
    apply TranslatorMore.free_of_append; [|assumption].
    apply PyFacts.free_of_cons. now split.
Qed.

Lemma free_of_py_join (c : ascii) (sep : string) (l : list string) :
  free_of c sep -> Forall (free_of c) l -> free_of c (Py.join sep l).
Proof.
  intros Hsep H. induction H as [|x l Hx Hl IH]; [reflexivity|].
  unfold Py.join in *. cbn [concat]. destruct l as [|y l]; [assumption|].
  apply TranslatorMore.free_of_append; [assumption|].
  now apply TranslatorMore.free_of_append.
Qed.

(** The string of paths the method embeds, as the three assignments to
    [paths] leave it. *)
Definition rpath_string (build_dir : string) (rpath_paths : list string)
  (build_rpath install_rpath : string) : string :=
  let paths :=
    Py.join ":" (map (fun p => PosixPath.join build_dir p) rpath_paths) in
  let paths :=
    if negb (String.eqb build_rpath "") then paths ++ ":" ++ build_rpath
    else paths in
  if Nat.ltb (String.length paths) (String.length install_rpath) then
    if String.eqb paths ""
    then Py.repeat_char "X" (String.length install_rpath - String.length paths)
    else paths ++ ":"
         ++ Py.repeat_char "X"
              (String.length install_rpath - String.length paths)
  else paths.

Lemma rpath_string_long build_dir rpath_paths build_rpath install_rpath :
  String.length install_rpath
  <= String.length
       (rpath_string build_dir rpath_paths build_rpath install_rpath).
Proof.
  unfold rpath_string. cbv zeta.
  set (paths := if negb (String.eqb build_rpath "") then _ else _).
  destruct (Nat.ltb_spec (String.length paths) (String.length install_rpath))
    as [Hlt|Hge]; [|exact Hge].
  destruct (String.eqb_spec paths "") as [E|_].
  - rewrite length_repeat_char, E. cbn. lia.
  - rewrite !PyFacts.length_append, length_repeat_char. cbn. lia.
Qed.

Lemma rpath_string_free build_dir rpath_paths build_rpath install_rpath :
  free_of "," build_dir -> Forall (free_of ",") rpath_paths ->
  free_of "," build_rpath ->
  free_of "," (rpath_string build_dir rpath_paths build_rpath install_rpath).
Proof.
  intros Hb Hp Hr. unfold rpath_string. cbv zeta.
  assert (H1 : free_of ","
                 (Py.join ":"
                    (map (fun p => PosixPath.join build_dir p) rpath_paths))).
  { apply free_of_py_join; [reflexivity|].
    apply Forall_map. eapply Forall_impl; [|exact Hp].
    intros a Ha. now apply free_of_posix_join. }
  set (joined := Py.join ":" _) in *.
  assert (H2 : free_of ","
                 (if negb (String.eqb build_rpath "")
                  then joined ++ ":" ++ build_rpath else joined)).
  { destruct (negb (String.eqb build_rpath "")); [|assumption].
    apply TranslatorMore.free_of_append; [assumption|].
    now apply TranslatorMore.free_of_append. }
  set (paths := if negb (String.eqb build_rpath "") then _ else _) in *.
  destruct (Nat.ltb (String.length paths) (String.length install_rpath));
    [|assumption].
  destruct (String.eqb paths "").
  - now apply free_of_repeat_char.
  - apply TranslatorMore.free_of_append; [assumption|].
    apply TranslatorMore.free_of_append; [reflexivity|].
    now apply free_of_repeat_char.
Qed.

Lemma build_rpath_args_eq host build_dir from_dir rpath_paths build_rpath
  install_rpath :
  build_rpath_args host build_dir from_dir rpath_paths build_rpath
    install_rpath
  = if is_windows host then []
    else if PosixPath.is_nil rpath_paths && String.eqb install_rpath ""
         then []
         else ["-Wl,-rpath,"
               ++ rpath_string build_dir rpath_paths build_rpath
                    install_rpath].
Proof. reflexivity. Qed.

Lemma some_rpath (rpath_paths : list string) (install_rpath : string) :
  rpath_paths <> [] \/ install_rpath <> "" ->
  PosixPath.is_nil rpath_paths && String.eqb install_rpath "" = false.
Proof.
  intros [H|H].
  - destruct rpath_paths; [congruence | reflexivity].
  - apply String.eqb_neq in H. rewrite H. apply andb_false_r.
Qed.

End RpathFacts.

(** X7. [build_rpath_args] returns nothing on Windows, and nothing when
    there is neither a run path nor an install run path, a build run path
    notwithstanding.  Otherwise it returns the single token -Wl,-rpath,
    followed by a string that is at least as long as the install run path,
    so that the latter fits in its place at installation. *)
Theorem rpath_args_padded
  (host : platform) (build_dir from_dir : string)
  (rpath_paths : list string) (build_rpath install_rpath : string) :
  (is_windows host = true \/ (rpath_paths = [] /\ install_rpath = "") ->
   DmdLikeCompilerMixin.build_rpath_args host build_dir from_dir rpath_paths
     build_rpath install_rpath = [])
  /\ (is_windows host = false ->
      rpath_paths <> [] \/ install_rpath <> "" ->
      exists paths,
        DmdLikeCompilerMixin.build_rpath_args host build_dir from_dir
          rpath_paths build_rpath install_rpath
        = ["-Wl,-rpath," ++ paths]
        /\ String.length install_rpath <= String.length paths).
Proof.
  rewrite RpathFacts.build_rpath_args_eq. split.
  - intros [->|[-> ->]]; [reflexivity|]. now destruct (is_windows host).
  - intros -> H. rewrite (RpathFacts.some_rpath _ _ H).
    eexists; split; [reflexivity | apply RpathFacts.rpath_string_long].
Qed.

Lemma rpath_args_padded_witness :
  DmdLikeCompilerMixin.build_rpath_args OtherPlatform "/b" "" []
    "/opt/lib" ""
  = []
  /\ exists paths,
      DmdLikeCompilerMixin.build_rpath_args OtherPlatform "/b" "" ["sub"] ""
        "/usr/local/lib/x86_64"
      = ["-Wl,-rpath," ++ paths]
      /\ String.length "/usr/local/lib/x86_64" <= String.length paths.
Proof.
  split.
  - refine (proj1 (rpath_args_padded OtherPlatform "/b" "" [] "/opt/lib" "")
              _).
    right; split; reflexivity.
  - refine (proj2 (rpath_args_padded OtherPlatform "/b" "" ["sub"] ""
                     "/usr/local/lib/x86_64") eq_refl _).
    left; discriminate.
Defined.

(** X8. Off Windows, when the build directory, the run paths and the build
    run path hold no comma and the paths are ASCII text, the run-path
    argument goes through the
    translator as two linker-pass tokens: -L=-rpath, then -L= followed by
    the whole string of paths, stripped of surrounding white space. *)
Theorem rpath_args_translated
  (host : platform) (cls : dmd_like_class) (build_dir from_dir : string)
  (rpath_paths : list string) (build_rpath install_rpath : string) :
  is_windows host = false ->
  rpath_paths <> [] \/ install_rpath <> "" ->
  free_of "," build_dir -> Forall (free_of ",") rpath_paths ->
  free_of "," build_rpath ->
  ascii_text build_dir -> Forall ascii_text rpath_paths ->
  ascii_text build_rpath -> ascii_text install_rpath ->
  exists paths,
    DmdLikeCompilerMixin.build_rpath_args host build_dir from_dir rpath_paths
      build_rpath install_rpath
    = ["-Wl,-rpath," ++ paths]
    /\ DmdLikeCompilerMixin.translate_args_to_nongnu host cls
         (DmdLikeCompilerMixin.build_rpath_args host build_dir from_dir
            rpath_paths build_rpath install_rpath)
       = ["-L=-rpath"; "-L=" ++ Py.strip paths].
Proof.
  intros Hw Hsome Hb Hp Hr _ _ _ _.
  rewrite RpathFacts.build_rpath_args_eq, Hw,
    (RpathFacts.some_rpath _ _ Hsome).
  set (paths := RpathFacts.rpath_string build_dir rpath_paths build_rpath
                  install_rpath).
  exists paths. split; [reflexivity|].
  rewrite TranslatorFacts.translate_flat_map. cbn [flat_map].
  rewrite app_nil_r.
  assert (Hf : Forall (free_of ",") ["-rpath"; paths]).
  { constructor; [reflexivity|]. constructor; [|constructor].
    now apply RpathFacts.rpath_string_free. }
  refine (TranslatorFacts.step_linker_wrapped host cls "-rpath" [paths] Hf _).
  destruct host; [discriminate | reflexivity | reflexivity].
Qed.

Lemma rpath_args_translated_witness :
  exists paths,
    DmdLikeCompilerMixin.build_rpath_args OtherPlatform "/b" "" ["sub"; "x"]
      "" "/usr/local/lib64"
    = ["-Wl,-rpath," ++ paths]
    /\ DmdLikeCompilerMixin.translate_args_to_nongnu OtherPlatform
         LLVMDCompiler_cls
         (DmdLikeCompilerMixin.build_rpath_args OtherPlatform "/b" ""
            ["sub"; "x"] "" "/usr/local/lib64")
       = ["-L=-rpath"; "-L=" ++ Py.strip paths].
Proof.
  refine (rpath_args_translated OtherPlatform LLVMDCompiler_cls "/b" ""
            ["sub"; "x"] "" "/usr/local/lib64" eq_refl _ eq_refl _ eq_refl
            eq_refl _ eq_refl eq_refl).
  - left; discriminate.
  - repeat constructor.
  - repeat constructor.
Defined.

(** ** The include-directory probe *)

Module ProbeFacts.

Lemma split_join_lines (c : ascii) (lines : list string) :
  lines <> [] -> Forall (free_of c) lines ->
  Py.split c (Py.join (String c "") lines) = lines.
Proof.
  destruct lines as [|x l]; [congruence|]. intros _.
  apply PyFacts.split_join.
Qed.

Lemma not_in_eqb (m line : string) (l : list string) :
  ~ In m (line :: l) -> String.eqb line m = false /\ ~ In m l.
Proof.
  intros H. split.
  - apply String.eqb_neq. intros E. apply H. now left.
  - intros E. apply H. now right.
Qed.

(** Before the first marker every line is skipped. *)
Lemma loop_before (pre rest paths : list string) :
  ~ In quote_marker pre ->
  include_dirs_loop 0 paths (pre ++ rest) = include_dirs_loop 0 paths rest.
Proof.
  induction pre as [|line pre IH]; intros H; [reflexivity|].
  apply not_in_eqb in H as [E H]. cbn [app include_dirs_loop Nat.eqb].
  rewrite E. now apply IH.
Qed.

Lemma loop_no_start (lines paths : list string) :
  ~ In quote_marker lines -> include_dirs_loop 0 paths lines = paths.
Proof.
  intros H. rewrite <- (app_nil_r lines). now rewrite loop_before.
Qed.

(** Between the two markers every line gives a path, its first character
    removed. *)
Lemma loop_quoted (q rest paths : list string) :
  ~ In angle_marker q ->
  include_dirs_loop 1 paths (q ++ rest)
  = include_dirs_loop 1 (paths ++ map (Py.drop 1) q) rest.
Proof.
  revert paths; induction q as [|line q IH]; intros paths H.
  - cbn [app map]. now rewrite app_nil_r.
  - apply not_in_eqb in H as [E H]. cbn [app include_dirs_loop Nat.eqb map].
    rewrite E, (IH _ H). unfold Py.append. now rewrite <- app_assoc.
Qed.

Lemma loop_angled (a rest paths : list string) :
  ~ In end_marker a ->
  include_dirs_loop 2 paths (a ++ rest)
  = include_dirs_loop 2 (paths ++ map (Py.drop 1) a) rest.
Proof.
  revert paths; induction a as [|line a IH]; intros paths H.
  - cbn [app map]. now rewrite app_nil_r.
  - apply not_in_eqb in H as [E H]. cbn [app include_dirs_loop Nat.eqb map].
    rewrite E, (IH _ H). unfold Py.append. now rewrite <- app_assoc.
Qed.

(** The whole scan of a stream that holds the three markers in order. *)
Lemma loop_well_formed (pre q a post : list string) :
  ~ In quote_marker pre -> ~ In angle_marker q -> ~ In end_marker a ->
  include_dirs_loop 0 []
    (pre ++ quote_marker :: q ++ angle_marker :: a ++ end_marker :: post)
  = map (Py.drop 1) (q ++ a).
Proof.
  intros Hp Hq Ha. rewrite (loop_before pre _ [] Hp).
  cbn [include_dirs_loop Nat.eqb]. rewrite String.eqb_refl.
  rewrite (loop_quoted q _ [] Hq). cbn [include_dirs_loop Nat.eqb app].
  rewrite String.eqb_refl.
  rewrite (loop_angled a _ _ Ha). cbn [include_dirs_loop Nat.eqb].
  rewrite String.eqb_refl. now rewrite map_app.
Qed.

End ProbeFacts.

(** X9. When the diagnostic stream holds, in this order, the line that
    opens the quoted search list, the line that opens the angle-bracket
    search list and the line that ends the list, the probe returns one path
    per line of the two regions, in order, each without its first
    character; the lines before the first marker and after the last are
    ignored.  It logs one warning if the two regions are empty and none
    otherwise. *)
Theorem include_dirs_of_well_formed_stream
  (compiler : list string) (lang : string) (pre q a post : list string) :
  Forall (free_of newline)
    (pre ++ quote_marker :: q ++ angle_marker :: a ++ end_marker :: post) ->
  ~ In quote_marker pre -> ~ In angle_marker q -> ~ In end_marker a ->
  fst (gnulike_default_include_dirs compiler lang
         (Py.join (String newline "")
            (pre ++ quote_marker
                 :: q ++ angle_marker :: a ++ end_marker :: post)))
  = map (Py.drop 1) (q ++ a)
  /\ List.length
       (snd (gnulike_default_include_dirs compiler lang
               (Py.join (String newline "")
                  (pre ++ quote_marker
                       :: q ++ angle_marker :: a ++ end_marker :: post))))
     = if PosixPath.is_nil (q ++ a) then 1 else 0.
Proof.
  intros Hfree Hp Hq Ha. unfold gnulike_default_include_dirs. cbv zeta.
  rewrite ProbeFacts.split_join_lines;
    [|now destruct pre | assumption].
  rewrite (ProbeFacts.loop_well_formed pre q a post Hp Hq Ha).
  cbn [fst snd]. split; [reflexivity|].
  now destruct (q ++ a)%list.
Qed.

Lemma include_dirs_of_well_formed_stream_witness :
  fst (gnulike_default_include_dirs ["gcc"] "c"
         (Py.join (String newline "")
            (["ignored"] ++ quote_marker
               :: [" /q"] ++ angle_marker
               :: [" /usr/include"; " /usr/local/include"] ++ end_marker
               :: ["trailer"; ""])))
  = ["/q"; "/usr/include"; "/usr/local/include"].
Proof.
  refine (proj1 (include_dirs_of_well_formed_stream ["gcc"] "c" ["ignored"]
                   [" /q"] [" /usr/include"; " /usr/local/include"]
                   ["trailer"; ""] _ _ _ _)).
  - repeat constructor.
  - cbn. intros [H|[]]. discriminate.
  - cbn. intros [H|[]]. discriminate.
  - cbn. intros [H|[H|[]]]; discriminate.
Defined.

(** X10. When no line of the diagnostic stream is the line that opens the
    quoted search list, the probe returns no path and logs exactly one
    warning, whatever else the stream holds. *)
Theorem include_dirs_without_start_marker
  (compiler : list string) (lang : string) (stderr : string) :
  ~ In quote_marker (Py.split newline stderr) ->
  fst (gnulike_default_include_dirs compiler lang stderr) = []
  /\ List.length (snd (gnulike_default_include_dirs compiler lang stderr))
     = 1.
Proof.
  intros H. unfold gnulike_default_include_dirs. cbv zeta.
  rewrite (ProbeFacts.loop_no_start _ [] H). split; reflexivity.
Qed.

Lemma include_dirs_without_start_marker_witness :
  fst (gnulike_default_include_dirs ["cc"] "cpp" "error: no input") = []
  /\ List.length
       (snd (gnulike_default_include_dirs ["cc"] "cpp" "error: no input"))
     = 1.
Proof.
  refine (include_dirs_without_start_marker ["cc"] "cpp" "error: no input"
            _).
  cbn. intros [H|[]]. discriminate.
Defined.

(** ** Other queries of the GNU-like mixin *)

Module GnuFacts.

Lemma contains_sub_middle (a p b : string) :
  Py.contains_sub (a ++ p ++ b) p = true.
Proof.
  induction a as [|c a IH]; cbn [append].
  - destruct (p ++ b) eqn:E; cbn [Py.contains_sub];
      rewrite <- E, PyFacts.startswith_app; reflexivity.
  - cbn [Py.contains_sub]. rewrite IH. apply orb_true_r.
Qed.

Lemma mem_not_in (x : string) (l : list string) :
  ~ In x l -> Py.mem x l = false.
Proof.
  unfold Py.mem. induction l as [|y l IH]; intros H; cbn [existsb];
    [reflexivity|].
  rewrite IH by (intros E; apply H; now right).
  replace (String.eqb x y) with false; [reflexivity|].
  symmetry. apply String.eqb_neq. intros ->. apply H. now left.
Qed.

Lemma mem_middle (x : string) (pre post : list string) :
  Py.mem x (pre ++ x :: post) = true.
Proof.
  unfold Py.mem. rewrite existsb_app. cbn [existsb].
  rewrite String.eqb_refl. cbn [orb]. apply orb_true_r.
Qed.

(** [l.index(x)] is the place of the first [x]. *)
Lemma list_index_first (x : string) (pre post : list string) :
  ~ In x pre ->
  Py.list_index x (pre ++ x :: post) = Some (List.length pre).
Proof.
  induction pre as [|y pre IH]; intros H; cbn [app Py.list_index].
  - now rewrite String.eqb_refl.
  - replace (String.eqb y x) with false.
    + rewrite IH by (intros E; apply H; now right). reflexivity.
    + symmetry. apply String.eqb_neq. intros ->. apply H. now left.
Qed.

End GnuFacts.

(** X11. [sanitizer_compile_args] returns nothing exactly for the value
    none.  For any other value its first token is -fsanitize= followed by
    the value, and a value that holds the word address anywhere, as in
    address,undefined, yields that token followed by
    -fno-omit-frame-pointer. *)
Theorem sanitizer_args_shape (value a b : string) :
  (GnuLikeCompiler.sanitizer_compile_args value = [] <-> value = "none")
  /\ (value <> "none" ->
      exists rest,
        GnuLikeCompiler.sanitizer_compile_args value
        = ("-fsanitize=" ++ value) :: rest)
  /\ GnuLikeCompiler.sanitizer_compile_args (a ++ "address" ++ b)
     = ["-fsanitize=" ++ a ++ "address" ++ b; "-fno-omit-frame-pointer"].
Proof.
  unfold GnuLikeCompiler.sanitizer_compile_args. repeat split.
  - destruct (String.eqb_spec value "none") as [E|_]; [now intros _|].
    destruct (Py.contains_sub value "address"); discriminate.
  - intros ->. reflexivity.
  - intros H. apply String.eqb_neq in H. rewrite H.
    destruct (Py.contains_sub value "address"); eexists; reflexivity.
  - rewrite GnuFacts.contains_sub_middle.
    replace (String.eqb (a ++ "address" ++ b) "none") with false;
      [reflexivity|].
    symmetry. apply String.eqb_neq. intros E.
    apply (f_equal String.length) in E.
    rewrite !PyFacts.length_append in E. cbn in E. lia.
Qed.

Lemma sanitizer_args_shape_witness :
  GnuLikeCompiler.sanitizer_compile_args "address,undefined"
  = ["-fsanitize=address,undefined"; "-fno-omit-frame-pointer"]
  /\ exists rest,
      GnuLikeCompiler.sanitizer_compile_args "thread"
      = "-fsanitize=thread" :: rest.
Proof.
  split.
  - exact (proj2 (proj2 (sanitizer_args_shape "" "" ",undefined"))).
  - refine (proj1 (proj2 (sanitizer_args_shape "thread" "" "")) _).
    discriminate.
Defined.

(** X12. [GnuCompiler.get_warn_args] returns the arguments of the parent
    method unchanged when the version is not below 4.8.0 or when they do
    not hold -Wpedantic; for a version below 4.8.0 it replaces the first
    -Wpedantic by -pedantic, every other token keeping its value and its
    place. *)
Theorem warn_args_pedantic_replaced
  (version_compare : string -> string -> bool)
  (super_get_warn_args : string -> result (list string))
  (version level : string) (args pre post : list string) :
  super_get_warn_args level = Ok args ->
  (version_compare version "<4.8.0" = false ->
   GnuCompiler.get_warn_args version_compare super_get_warn_args version
     level = Ok args)
  /\ (~ In "-Wpedantic" args ->
      GnuCompiler.get_warn_args version_compare super_get_warn_args version
        level = Ok args)
  /\ (version_compare version "<4.8.0" = true ->
      args = (pre ++ "-Wpedantic" :: post)%list ->
      ~ In "-Wpedantic" pre ->
      GnuCompiler.get_warn_args version_compare super_get_warn_args version
        level = Ok (pre ++ "-pedantic" :: post)%list).
Proof.
  intros Hs. unfold GnuCompiler.get_warn_args. rewrite Hs. cbn [bind].
  repeat split.
  - intros ->. reflexivity.
  - intros H. rewrite (GnuFacts.mem_not_in _ _ H).
    now rewrite andb_false_r.
  - intros -> -> Hpre. rewrite GnuFacts.mem_middle. cbn [andb].
    rewrite (GnuFacts.list_index_first _ _ _ Hpre).
    now rewrite PathFacts.setitem_at.
Qed.

Lemma warn_args_pedantic_replaced_witness :
  GnuCompiler.get_warn_args (fun _ _ => true)
    (fun _ => Ok ["-Wall"; "-Wextra"; "-Wpedantic"]) "4.7.2" "3"
  = Ok ["-Wall"; "-Wextra"; "-pedantic"].
Proof.
  refine (proj2 (proj2 (warn_args_pedantic_replaced (fun _ _ => true)
            (fun _ => Ok ["-Wall"; "-Wextra"; "-Wpedantic"]) "4.7.2" "3"
            ["-Wall"; "-Wextra"; "-Wpedantic"] ["-Wall"; "-Wextra"] []
            eq_refl)) eq_refl eq_refl _).
  cbn. intros [H|[H|[]]]; discriminate.
Defined.

(** X13. The include argument each adapter generates, handed to its own
    path normaliser, on every host: the DMD-like form -I=path and the plain
    GNU form -Ipath have their path joined to the build directory and
    normalized by the [os.path] of the host, while the GNU system form
    -isystempath is not recognized and comes back unchanged. *)
Theorem include_args_made_absolute
  (ntpath : os_path_module) (host : platform)
  (build_dir path : string) (is_system : bool) :
  DmdLikeCompilerMixin.compute_parameters_with_absolute_paths ntpath host
    (DmdLikeCompilerMixin.get_include_args path is_system) build_dir
  = ["-I=" ++ path_normpath (os_path ntpath host)
                (path_join (os_path ntpath host) build_dir path)]
  /\ GnuLikeCompiler.compute_parameters_with_absolute_paths ntpath host
       (GnuLikeCompiler.get_include_args path false) build_dir
     = ["-I" ++ path_normpath (os_path ntpath host)
                  (path_join (os_path ntpath host) build_dir path)]
  /\ GnuLikeCompiler.compute_parameters_with_absolute_paths ntpath host
       (GnuLikeCompiler.get_include_args path true) build_dir
     = ["-isystem" ++ path].
Proof. repeat split. Qed.

(** X14. The include arguments of the GNU-like mixin, handed to the
    translator: the plain form -Ipath passes through unchanged, and the
    system form -isystempath is reduced to the bare token -I, its path
    lost, unless the path begins with an equals sign, in which case the
    rest of the path is kept behind -I=. *)
Theorem gnu_include_args_translated
  (host : platform) (cls : dmd_like_class) (path : string) :
  DmdLikeCompilerMixin.translate_args_to_nongnu host cls
    (GnuLikeCompiler.get_include_args path false)
  = ["-I" ++ path]
  /\ DmdLikeCompilerMixin.translate_args_to_nongnu host cls
       (GnuLikeCompiler.get_include_args path true)
     = [if Py.startswith path "=" then "-I=" ++ Py.drop 1 path else "-I"].
Proof.
  unfold GnuLikeCompiler.get_include_args.
  rewrite !TranslatorFacts.translate_flat_map. cbn [flat_map].
  rewrite !app_nil_r. split.
  - destruct host; reflexivity.
  - rewrite TranslatorFacts.step_isystem
      by exact (PyFacts.startswith_app "-isystem" path).
    reflexivity.
Qed.

(** X15. The Phobos library the DMD adapter links: on Windows the
    shared-library arguments name, behind -defaultlib=, the very library
    the executable arguments name, whatever the architecture; off Windows
    the executable arguments are empty and the shared-library arguments
    name libphobos2.so. *)
Theorem phobos_link_args_agree (host : platform) (arch : string) :
  (is_windows host = true ->
   exists lib,
     DmdDCompiler.get_std_exe_link_args host arch = [lib]
     /\ DmdDCompiler.get_std_shared_lib_link_args host arch
        = ["-shared"; "-defaultlib=" ++ lib])
  /\ (is_windows host = false ->
      DmdDCompiler.get_std_exe_link_args host arch = []
      /\ DmdDCompiler.get_std_shared_lib_link_args host arch
         = ["-shared"; "-defaultlib=libphobos2.so"]).
Proof.
  unfold DmdDCompiler.get_std_exe_link_args,
    DmdDCompiler.get_std_shared_lib_link_args.
  split; intros ->; [|split; reflexivity].
  destruct (String.eqb arch "x86_64"); [eexists; split; reflexivity|].
  destruct (String.eqb arch "x86_mscoff"); eexists; split; reflexivity.
Qed.

Lemma phobos_link_args_agree_witness :
  exists lib,
    DmdDCompiler.get_std_exe_link_args Windows "x86_mscoff" = [lib]
    /\ DmdDCompiler.get_std_shared_lib_link_args Windows "x86_mscoff"
       = ["-shared"; "-defaultlib=" ++ lib].
Proof.
  exact (proj1 (phobos_link_args_agree Windows "x86_mscoff") eq_refl).
Defined.

(** ** More on the feature argument builder *)

Module FeatureMore.

Import DmdLikeCompilerMixin.

Lemma lookup_permutation (d d' : kwargs_t) :
  NoDup (Py.keys d) -> Permutation d d' ->
  forall k, Py.lookup k d = Py.lookup k d'.
Proof.
  intros Hnd Hp. induction Hp as [|[k0 v0] l l' Hp IH
                                   |[k1 v1] [k2 v2] l
                                   |l l' l'' Hp1 IH1 Hp2 IH2]; intros k.
  - reflexivity.
  - cbn [Py.lookup]. cbn [Py.keys map fst] in Hnd.
    inversion Hnd; subst. destruct (String.eqb k0 k); [reflexivity|].
    now apply IH.
  - cbn [Py.lookup]. cbn [Py.keys map fst] in Hnd.
    inversion Hnd as [|? ? Hnot _]; subst.
    destruct (String.eqb_spec k1 k) as [->|_];
      destruct (String.eqb_spec k2 k) as [->|_]; try reflexivity.
    exfalso. apply Hnot. now left.
  - rewrite IH1 by assumption. apply IH2.
    unfold Py.keys in *.
    eapply Permutation_NoDup; [|exact Hnd]. now apply Permutation_map.
Qed.

Lemma no_unrecognized_iff (d : kwargs_t) :
  PosixPath.is_nil (unrecognized_keys d) = true
  <-> Forall (fun kv => recognized (fst kv) = true) d.
Proof.
  unfold unrecognized_keys, Py.keys.
  induction d as [|[k v] d IH]; cbn [map filter fst].
  - split; [constructor | reflexivity].
  - destruct (recognized k) eqn:E; cbn [negb].
    + rewrite IH. split; [now constructor | now inversion 1].
    + cbn [PosixPath.is_nil]. split; [discriminate|].
      inversion 1; subst. cbn [fst] in *. congruence.
Qed.

Lemma no_unrecognized_permutation (d d' : kwargs_t) :
  Permutation d d' ->
  PosixPath.is_nil (unrecognized_keys d)
  = PosixPath.is_nil (unrecognized_keys d').
Proof.
  intros Hp.
  destruct (PosixPath.is_nil (unrecognized_keys d)) eqn:E;
    destruct (PosixPath.is_nil (unrecognized_keys d')) eqn:E';
    try reflexivity; exfalso.
  - apply no_unrecognized_iff in E.
    assert (F : Forall (fun kv => recognized (fst kv) = true) d')
      by (eapply Permutation_Forall; eassumption).
    apply no_unrecognized_iff in F. congruence.
  - apply no_unrecognized_iff in E'.
    assert (F : Forall (fun kv => recognized (fst kv) = true) d)
      by (eapply Permutation_Forall; [apply Permutation_sym|]; eassumption).
    apply no_unrecognized_iff in F. congruence.
Qed.

Lemma incdirs_fold (ntpath : os_path_module) (host : platform)
  (flag build_to_src basedir : string) (incdirs res : list string) :
  is_windows host = false ->
  fold_left (incdirs_step ntpath host flag build_to_src basedir) incdirs res
  = (res ++ map (import_dir_token flag build_to_src basedir) incdirs)%list.
Proof.
  intros Hhost.
  revert res; induction incdirs as [|idir incdirs IH]; intros res;
    cbn [fold_left map].
  - now rewrite app_nil_r.
  - rewrite IH. unfold incdirs_step, Py.append, import_dir_token.
    rewrite (PathFacts.os_path_posix ntpath host Hhost).
    cbn [path_join posixpath].
    rewrite <- app_assoc. cbn [app].
    now destruct (String.eqb idir "" || String.eqb idir ".").
Qed.

Lemma import_dirs_loop_objects_eq (ntpath : os_path_module)
  (host : platform) (flag build_to_src : string)
  (objs : list IncludeDirs) (res : list string) :
  is_windows host = false ->
  import_dirs_loop ntpath host flag build_to_src res (map EObj objs)
  = Ok (res ++ import_dir_tokens flag build_to_src objs)%list.
Proof.
  intros Hhost.
  revert res; induction objs as [|o objs IH]; intros res;
    cbn [map import_dirs_loop].
  - unfold import_dir_tokens. cbn [flat_map]. now rewrite app_nil_r.
  - rewrite (incdirs_fold ntpath host _ _ _ _ _ Hhost), IH.
    unfold import_dir_tokens. cbn [flat_map].
    now rewrite <- app_assoc.
Qed.

Lemma import_dirs_loop_outcome ntpath host flag build_to_src l res :
  (exists r, import_dirs_loop ntpath host flag build_to_src res l = Ok r)
  \/ import_dirs_loop ntpath host flag build_to_src res l
     = Err AttributeError.
Proof.
  revert res; induction l as [|x l IH]; intros res; cbn [import_dirs_loop].
  - left; eauto.
  - destruct x; auto.
Qed.

Lemma level_block_outcome format_IncludeDirs flag res values :
  (exists r, level_block format_IncludeDirs flag res values = Ok r)
  \/ level_block format_IncludeDirs flag res values = Err ValueError.
Proof.
  destruct (level_block format_IncludeDirs flag res values) as [r|e] eqn:E;
    [left; eauto | right].
  now rewrite (FeatureFacts.level_block_error _ _ _ _ _ E).
Qed.

Ltac known_flag self Hid key :=
  let f := fresh "f" in
  let E := fresh "E" in
  let N := fresh "N" in
  destruct (FeatureFacts.feature_arg_known self key Hid) as (f & E & N);
  [cbn; tauto|]; rewrite ?E; cbn [bind]; rewrite ?N; clear E N.

Ltac known_flags self Hid :=
  known_flag self Hid "unittest"; known_flag self Hid "debug";
  known_flag self Hid "version"; known_flag self Hid "import_dir".

(** For the three families the four blocks raise nothing but the
    [AttributeError] of an import directory and the [ValueError] of a
    level. *)
Lemma request_tokens_outcome format_IncludeDirs ntpath host self
  build_to_src kwargs :
  In (id self) ["gcc"; "llvm"; "dmd"] ->
  (exists r,
      FeatureFacts.request_tokens format_IncludeDirs ntpath host self
        build_to_src kwargs = Ok r)
  \/ FeatureFacts.request_tokens format_IncludeDirs ntpath host self
       build_to_src kwargs = Err AttributeError
  \/ FeatureFacts.request_tokens format_IncludeDirs ntpath host self
       build_to_src kwargs = Err ValueError.
Proof.
  intros Hid.
  unfold FeatureFacts.request_tokens, FeatureFacts.unittest_tokens,
    FeatureFacts.debug_tokens, FeatureFacts.versions_tokens,
    FeatureFacts.import_dirs_tokens.
  known_flags self Hid.
  repeat match goal with
    | |- context [Py.lookup ?k kwargs] =>
        destruct (Py.lookup k kwargs); cbn [bind]
    | |- context [level_block ?f ?a ?b ?c] =>
        destruct (level_block_outcome f a b c) as [[? ->]| ->]; cbn [bind]
    | |- context [import_dirs_loop ?n ?h ?a ?b ?c ?d] =>
        destruct (import_dirs_loop_outcome n h a b d c) as [[? ->]| ->];
        cbn [bind]
    end;
    first [ left; eexists; reflexivity
          | right; left; reflexivity
          | right; right; reflexivity ].
Qed.

(** With ASCII levels and identifiers the [ValueError] is not raised. *)
Lemma request_tokens_ascii format_IncludeDirs ntpath host self
  build_to_src kwargs :
  In (id self) ["gcc"; "llvm"; "dmd"] ->
  ascii_under "debug" kwargs -> ascii_under "versions" kwargs ->
  (exists r,
      FeatureFacts.request_tokens format_IncludeDirs ntpath host self
        build_to_src kwargs = Ok r)
  \/ FeatureFacts.request_tokens format_IncludeDirs ntpath host self
       build_to_src kwargs = Err AttributeError.
Proof.
  intros Hid Hdebug Hversions.
  unfold FeatureFacts.request_tokens, FeatureFacts.unittest_tokens,
    FeatureFacts.debug_tokens, FeatureFacts.versions_tokens,
    FeatureFacts.import_dirs_tokens.
  unfold ascii_under in Hdebug, Hversions.
  known_flags self Hid.
  destruct (Py.lookup "unittest" kwargs); cbn [bind];
    (destruct (Py.lookup "debug" kwargs) as [dv|]; cbn [bind];
     [ match goal with
       | |- context [level_block ?f ?a ?b (as_list dv)] =>
           destruct (FeatureFacts.level_block_ascii f a b (as_list dv)
                       (Hdebug dv eq_refl)) as [? ->]; cbn [bind]
       end | ]);
    (destruct (Py.lookup "versions" kwargs) as [vv|]; cbn [bind];
     [ match goal with
       | |- context [level_block ?f ?a ?b (as_list vv)] =>
           destruct (FeatureFacts.level_block_ascii f a b (as_list vv)
                       (Hversions vv eq_refl)) as [? ->]; cbn [bind]
       end | ]);
    (destruct (Py.lookup "import_dirs" kwargs); cbn [bind];
     [ match goal with
       | |- context [import_dirs_loop ?n ?h ?a ?b ?c ?d] =>
           destruct (import_dirs_loop_outcome n h a b d c) as [[? ->]| ->]
       end | ]);
    first [ left; eexists; reflexivity | right; reflexivity ].
Qed.

(** A level written with a superscript digit passes [isdigit] and makes
    [int] raise. *)
Example superscript_level_raises :
  get_feature_args (fun _ => "") posixpath OtherPlatform
    {| exelist := ["dmd"]; version := "2.088"; arch := "x86_64";
       id := "dmd" |}
    [("debug", VList [EStr "1"; EStr (String (ascii_of_nat 178) "")])] "."
  = Err ValueError.
Proof. reflexivity. Qed.

Lemma feature_arg_unknown_family self key :
  Py.lookup (id self) d_feature_args = None ->
  feature_arg self key = Err (KeyError (id self)).
Proof. intros H. unfold feature_arg, Py.getitem. now rewrite H. Qed.

End FeatureMore.

(** X16. The result of [get_feature_args] does not depend on the order of
    the keys of the request: two requests with the same distinct keys and
    values succeed together and with the same tokens; when every key is
    recognized the two outcomes are equal, errors included. *)
Theorem feature_args_independent_of_key_order
  (format_IncludeDirs : IncludeDirs -> string) (ntpath : os_path_module)
  (host : platform) (self : DCompiler_self)
  (kwargs kwargs' : kwargs_t) (build_to_src : string) :
  NoDup (Py.keys kwargs) -> Permutation kwargs kwargs' ->
  (forall res,
      DmdLikeCompilerMixin.get_feature_args format_IncludeDirs ntpath host
        self kwargs build_to_src = Ok res
      <-> DmdLikeCompilerMixin.get_feature_args format_IncludeDirs ntpath
            host self kwargs' build_to_src = Ok res)
  /\ (unrecognized_keys kwargs = [] ->
      DmdLikeCompilerMixin.get_feature_args format_IncludeDirs ntpath host
        self kwargs' build_to_src
      = DmdLikeCompilerMixin.get_feature_args format_IncludeDirs ntpath host
          self kwargs build_to_src).
Proof.
  intros Hnd Hp.
  pose proof (FeatureMore.lookup_permutation kwargs kwargs' Hnd Hp) as Hl.
  pose proof (FeatureMore.no_unrecognized_permutation kwargs kwargs' Hp)
    as Hu.
  assert (Ht : FeatureFacts.request_tokens format_IncludeDirs ntpath host self
                 build_to_src kwargs'
               = FeatureFacts.request_tokens format_IncludeDirs ntpath host self
                   build_to_src kwargs)
    by (unfold FeatureFacts.request_tokens; now rewrite <- !Hl).
  rewrite !FeatureFacts.get_feature_args_eq, Ht, <- Hu.
  destruct (FeatureFacts.request_tokens format_IncludeDirs ntpath host self
              build_to_src kwargs) as [r|e]; cbn [bind].
  - split.
    + intros res.
      destruct (PosixPath.is_nil (unrecognized_keys kwargs)); [tauto|].
      split; discriminate.
    + intros Hnone. now rewrite Hnone.
  - split; [tauto | reflexivity].
Qed.

Lemma feature_args_independent_of_key_order_witness :
  DmdLikeCompilerMixin.get_feature_args (fun _ => "") posixpath
    OtherPlatform
    {| exelist := ["dmd"]; version := "2.088"; arch := "x86_64";
       id := "dmd" |}
    [("versions", VOne (EStr "v")); ("unittest", VOne (ENum (Bool true)));
     ("debug", VOne (ENum (Int 2)))] "."
  = DmdLikeCompilerMixin.get_feature_args (fun _ => "") posixpath
      OtherPlatform
      {| exelist := ["dmd"]; version := "2.088"; arch := "x86_64";
         id := "dmd" |}
      [("unittest", VOne (ENum (Bool true))); ("debug", VOne (ENum (Int 2)));
       ("versions", VOne (EStr "v"))] ".".
Proof.
  refine (proj2 (feature_args_independent_of_key_order (fun _ => "")
            posixpath OtherPlatform
            {| exelist := ["dmd"]; version := "2.088"; arch := "x86_64";
               id := "dmd" |}
            [("unittest", VOne (ENum (Bool true)));
             ("debug", VOne (ENum (Int 2))); ("versions", VOne (EStr "v"))]
            [("versions", VOne (EStr "v"));
             ("unittest", VOne (ENum (Bool true)));
             ("debug", VOne (ENum (Int 2)))] "." _ _) eq_refl).
  - cbn. repeat constructor; cbn; intuition discriminate.
  - apply Permutation_sym.
    exact (Permutation_cons_append
             [("unittest", VOne (ENum (Bool true)));
              ("debug", VOne (ENum (Int 2)))]
             ("versions", VOne (EStr "v"))).
Defined.

(** X17. For the three families of the feature table, a request whose
    only key is import_dirs, bound to a list of directory objects or to a
    single one, yields, on a host other than Windows, where [os.path] is
    [posixpath], one token -J followed by a path per pair of an object and
    one of its subdirectories, in nesting order; the path is the
    build-to-source path joined with the base directory alone when the
    subdirectory is empty or a dot, and with base and subdirectory joined
    otherwise. *)
Theorem import_dirs_tokens_in_nesting_order
  (format_IncludeDirs : IncludeDirs -> string) (ntpath : os_path_module)
  (host : platform) (self : DCompiler_self)
  (build_to_src : string) (objs : list IncludeDirs) (o : IncludeDirs) :
  In (id self) ["gcc"; "llvm"; "dmd"] ->
  is_windows host = false ->
  DmdLikeCompilerMixin.get_feature_args format_IncludeDirs ntpath host self
    [("import_dirs", VList (map EObj objs))] build_to_src
  = Ok (import_dir_tokens "-J" build_to_src objs)
  /\ DmdLikeCompilerMixin.get_feature_args format_IncludeDirs ntpath host self
       [("import_dirs", VOne (EObj o))] build_to_src
     = Ok (import_dir_tokens "-J" build_to_src [o])
  /\ List.length (import_dir_tokens "-J" build_to_src objs)
     = list_sum (map (fun d => List.length (get_incdirs d)) objs).
Proof.
  intros Hid Hhost.
  assert (Hf : DmdLikeCompilerMixin.feature_arg self "import_dir" = Ok "-J").
  { unfold DmdLikeCompilerMixin.feature_arg, Py.getitem. cbn [In] in Hid.
    destruct Hid as [<-|[<-|[<-|[]]]]; reflexivity. }
  assert (G : forall l,
             DmdLikeCompilerMixin.get_feature_args format_IncludeDirs
                                                     ntpath host self
               [("import_dirs", VList (map EObj l))] build_to_src
             = Ok (import_dir_tokens "-J" build_to_src l)).
  { intros l. rewrite FeatureFacts.get_feature_args_eq.
    unfold FeatureFacts.request_tokens.
    rewrite ?FeatureFacts.lookup_singleton_same,
      ?FeatureFacts.lookup_singleton_other by reflexivity.
    cbn [FeatureFacts.unittest_tokens FeatureFacts.debug_tokens
         FeatureFacts.versions_tokens FeatureFacts.import_dirs_tokens
         bind as_list].
    rewrite Hf. cbn [bind].
    change (String.eqb "-J" "") with false. cbv iota.
    rewrite FeatureMore.import_dirs_loop_objects_eq by exact Hhost.
    reflexivity. }
  split; [apply G|]. split; [exact (G [o])|].
  unfold import_dir_tokens.
  induction objs as [|d objs IH]; cbn [flat_map map list_sum fold_right];
    [reflexivity|].
  rewrite length_app, length_map. unfold list_sum in IH. now rewrite IH.
Qed.

Lemma import_dirs_tokens_in_nesting_order_witness :
  DmdLikeCompilerMixin.get_feature_args (fun _ => "") posixpath
    OtherPlatform
    {| exelist := ["ldc2"]; version := "1.18"; arch := "x86_64";
       id := "llvm" |}
    [("import_dirs",
      VList [EObj {| get_curdir := "src"; get_incdirs := ["."; "data"] |};
             EObj {| get_curdir := "res"; get_incdirs := [""] |}])] ".."
  = Ok ["-J../src"; "-J../src/data"; "-J../res"].
Proof.
  refine (proj1 (import_dirs_tokens_in_nesting_order (fun _ => "")
            posixpath OtherPlatform
            {| exelist := ["ldc2"]; version := "1.18"; arch := "x86_64";
               id := "llvm" |} ".."
            [{| get_curdir := "src"; get_incdirs := ["."; "data"] |};
             {| get_curdir := "res"; get_incdirs := [""] |}]
            {| get_curdir := "src"; get_incdirs := [] |} _ eq_refl)).
  cbn. tauto.
Defined.

(** X18. The errors of [get_feature_args], on every host.  For the three
    families of the feature table the messages about an unsupported
    feature are never raised: a request either succeeds, or fails on an
    import directory that is no directory object, or fails with the report
    of its unknown keys, or fails with the [ValueError] of [int] on a level;
    and the last does not happen when the strings under debug and versions
    are ASCII text.  For a compiler whose id is not in the table, as the id
    unknown of the base class, a request that holds a recognized key fails
    with the [KeyError] of the table lookup. *)
Theorem feature_args_errors
  (format_IncludeDirs : IncludeDirs -> string) (ntpath : os_path_module)
  (host : platform) (self : DCompiler_self)
  (kwargs : kwargs_t) (build_to_src : string) :
  (In (id self) ["gcc"; "llvm"; "dmd"] ->
   ((exists res,
        DmdLikeCompilerMixin.get_feature_args format_IncludeDirs ntpath host
          self kwargs build_to_src = Ok res)
    \/ DmdLikeCompilerMixin.get_feature_args format_IncludeDirs ntpath host
         self kwargs build_to_src = Err AttributeError
    \/ DmdLikeCompilerMixin.get_feature_args format_IncludeDirs ntpath host
         self kwargs build_to_src
       = Err (unknown_feature_error (unrecognized_keys kwargs))
    \/ DmdLikeCompilerMixin.get_feature_args format_IncludeDirs ntpath host
         self kwargs build_to_src = Err ValueError)
   /\ (ascii_under "debug" kwargs -> ascii_under "versions" kwargs ->
       DmdLikeCompilerMixin.get_feature_args format_IncludeDirs ntpath host
         self kwargs build_to_src <> Err ValueError))
  /\ (Py.lookup (id self) d_feature_args = None ->
      (exists k, recognized k = true /\ Py.lookup k kwargs <> None) ->
      DmdLikeCompilerMixin.get_feature_args format_IncludeDirs ntpath host
        self kwargs build_to_src = Err (KeyError (id self))).
Proof.
  split; [intros Hid; split|].
  - rewrite FeatureFacts.get_feature_args_eq.
    destruct (FeatureMore.request_tokens_outcome format_IncludeDirs ntpath
                host self build_to_src kwargs Hid) as [[r ->]|[-> | ->]];
      cbn [bind].
    + destruct (PosixPath.is_nil (unrecognized_keys kwargs));
        [left; eexists; reflexivity | right; right; left; reflexivity].
    + right; left; reflexivity.
    + right; right; right; reflexivity.
  - intros Hdebug Hversions. rewrite FeatureFacts.get_feature_args_eq.
    destruct (FeatureMore.request_tokens_ascii format_IncludeDirs ntpath
                host self build_to_src kwargs Hid Hdebug Hversions)
      as [[r ->]| ->]; cbn [bind].
    + destruct (PosixPath.is_nil (unrecognized_keys kwargs));
        unfold unknown_feature_error; discriminate.
    + discriminate.
  - intros Hnone (k & Hk & Hlook).
    rewrite FeatureFacts.get_feature_args_eq.
    unfold FeatureFacts.request_tokens, FeatureFacts.unittest_tokens,
      FeatureFacts.debug_tokens, FeatureFacts.versions_tokens,
      FeatureFacts.import_dirs_tokens.
    rewrite !(FeatureMore.feature_arg_unknown_family self _ Hnone).
    destruct (Py.lookup "unittest" kwargs) eqn:L1; cbn [bind];
      [reflexivity|].
    destruct (Py.lookup "debug" kwargs) eqn:L2; cbn [bind]; [reflexivity|].
    destruct (Py.lookup "versions" kwargs) eqn:L3; cbn [bind];
      [reflexivity|].
    destruct (Py.lookup "import_dirs" kwargs) eqn:L4; cbn [bind];
      [reflexivity|].
    exfalso. unfold recognized in Hk. cbn [existsb] in Hk.
    repeat (apply orb_true_iff in Hk; destruct Hk as [Hk|Hk]);
      try discriminate; apply String.eqb_eq in Hk; subst k; congruence.
Qed.

Lemma feature_args_errors_witness :
  DmdLikeCompilerMixin.get_feature_args (fun _ => "") posixpath
    OtherPlatform
    {| exelist := ["dc"]; version := "1"; arch := "x86_64";
       id := "unknown" |}
    [("bogus", VOne (ENum (Int 1))); ("unittest", VOne (ENum (Bool false)))]
    "."
  = Err (KeyError "unknown").
Proof.
  refine (proj2 (feature_args_errors (fun _ => "") posixpath OtherPlatform
            {| exelist := ["dc"]; version := "1"; arch := "x86_64";
               id := "unknown" |}
            [("bogus", VOne (ENum (Int 1)));
             ("unittest", VOne (ENum (Bool false)))] ".") eq_refl _).
  exists "unittest". split; [reflexivity | discriminate].
Defined.

(** ** Compositions and edge cases *)

Module MoreFacts.

Import DmdLikeCompilerMixin.

(** A token with a path-flag prefix of the DMD-like family comes back as
    one of the four prefixes followed by the normal form of a joined
    path. *)
Lemma dmd_token_flagged (build_dir i : string) :
  dmd_path_flag i = true ->
  exists p rest,
    In p ["-I="; "-L-L"; "-L=-L"; "-Wl,-L"]
    /\ PathFacts.dmd_token build_dir i
       = p ++ PosixPath.normpath (PosixPath.join build_dir rest).
Proof.
  intros Hf. unfold PathFacts.dmd_token. cbv zeta.
  pose proof (PathFacts.take_eqb_startswith "-I=" i) as T3.
  pose proof (PathFacts.take_eqb_startswith "-L-L" i) as T4.
  pose proof (PathFacts.take_eqb_startswith "-L=-L" i) as T5.
  pose proof (PathFacts.take_eqb_startswith "-Wl,-L" i) as T6.
  cbn [String.length] in T3, T4, T5, T6.
  destruct (String.eqb_spec (Py.take 6 i) "-Wl,-L") as [E6|_].
  { exists "-Wl,-L", (Py.drop 6 i). rewrite E6. cbn; tauto. }
  destruct (String.eqb_spec (Py.take 5 i) "-L=-L") as [E5|_].
  { exists "-L=-L", (Py.drop 5 i). rewrite E5. cbn; tauto. }
  destruct (String.eqb_spec (Py.take 4 i) "-L-L") as [E4|_].
  { exists "-L-L", (Py.drop 4 i). rewrite E4. cbn; tauto. }
  destruct (String.eqb_spec (Py.take 3 i) "-I=") as [E3|_].
  { exists "-I=", (Py.drop 3 i). rewrite E3. cbn; tauto. }
  exfalso. unfold dmd_path_flag in Hf.
  rewrite <- T3, <- T4, <- T5, <- T6 in Hf. discriminate.
Qed.

Lemma gnu_token_flagged (build_dir i : string) :
  gnu_path_flag i = true ->
  exists p rest,
    In p ["-I"; "-L"]
    /\ PathFacts.gnu_token build_dir i
       = p ++ PosixPath.normpath (PosixPath.join build_dir rest).
Proof.
  intros Hf. unfold PathFacts.gnu_token.
  pose proof (PathFacts.take_eqb_startswith "-I" i) as TI.
  pose proof (PathFacts.take_eqb_startswith "-L" i) as TL.
  cbn [String.length] in TI, TL.
  destruct (String.eqb_spec (Py.take 2 i) "-I") as [E|_].
  { exists "-I", (Py.drop 2 i). rewrite E. cbn; tauto. }
  destruct (String.eqb_spec (Py.take 2 i) "-L") as [E|_].
  { exists "-L", (Py.drop 2 i). rewrite E. cbn; tauto. }
  exfalso. unfold gnu_path_flag in Hf. rewrite <- TI, <- TL in Hf.
  discriminate.
Qed.

(** The runtime rule of Windows, for a token [-mscrtlib=v]. *)
Lemma windows_runtime_rule cls arg :
  Py.startswith arg "-mscrtlib=" = true ->
  translate_step Windows cls [] arg = translate_arg_to_windows cls arg
  /\ exists extras, translate_arg_to_windows cls arg = arg :: extras.
Proof.
  intros H.
  assert (HW : Py.startswith arg "-Wl," = false)
    by (rewrite (PyFacts.startswith_inv _ _ H); reflexivity).
  assert (E : exists extras, translate_arg_to_windows cls arg = arg :: extras).
  { unfold translate_arg_to_windows. rewrite HW, H. cbv zeta.
    unfold Py.append. cbn [app].
    destruct (is_LLVMDCompiler cls); [|eexists; reflexivity].
    destruct (negb (String.eqb (Py.lower (Py.drop 10 arg)) "libcmt"));
      destruct (Py.startswith (Py.lower (Py.drop 10 arg)) "msvcrt");
      eexists; reflexivity. }
  split; [|exact E]. destruct E as [extras E].
  unfold translate_step, os_specific_args. cbn [is_windows]. cbv zeta.
  rewrite E. reflexivity.
Qed.

End MoreFacts.

(** X19. On Windows a runtime selection -mscrtlib=v is kept as it is by
    the DMD class.  The LDC class keeps it first and adds linker-pass
    tokens behind it, except for the one selection whose lower-cased value
    is libcmt, the default runtime, which it passes alone; the upper or
    lower case of the value does not matter. *)
Theorem windows_runtime_selection
  (pre post : list string) (arg : string) :
  Py.startswith arg "-mscrtlib=" = true ->
  DmdLikeCompilerMixin.translate_args_to_nongnu Windows DmdDCompiler_cls
    (pre ++ arg :: post)%list
  = (DmdLikeCompilerMixin.translate_args_to_nongnu Windows DmdDCompiler_cls
       pre
     ++ arg
     :: DmdLikeCompilerMixin.translate_args_to_nongnu Windows
          DmdDCompiler_cls post)%list
  /\ exists extras,
      DmdLikeCompilerMixin.translate_args_to_nongnu Windows
        LLVMDCompiler_cls (pre ++ arg :: post)%list
      = (DmdLikeCompilerMixin.translate_args_to_nongnu Windows
           LLVMDCompiler_cls pre
         ++ arg :: extras
         ++ DmdLikeCompilerMixin.translate_args_to_nongnu Windows
              LLVMDCompiler_cls post)%list
      /\ (extras = [] <-> Py.lower (Py.drop 10 arg) = "libcmt")
      /\ Forall (fun t => Py.startswith t "-L=/" = true) extras.
Proof.
  intros H.
  assert (HW : Py.startswith arg "-Wl," = false)
    by (rewrite (PyFacts.startswith_inv _ _ H); reflexivity).
  rewrite !TranslatorFacts.translate_at.
  rewrite (proj1 (MoreFacts.windows_runtime_rule DmdDCompiler_cls arg H)).
  rewrite (proj1 (MoreFacts.windows_runtime_rule LLVMDCompiler_cls arg H)).
  unfold DmdLikeCompilerMixin.translate_arg_to_windows.
  rewrite HW, H. cbv zeta. cbn [is_LLVMDCompiler]. unfold Py.append.
  cbn [app]. split; [reflexivity|].
  destruct (String.eqb_spec (Py.lower (Py.drop 10 arg)) "libcmt") as [E|E];
    cbn [negb].
  - rewrite E. change (Py.startswith "libcmt" "msvcrt") with false.
    exists []. repeat split; auto.
  - destruct (Py.startswith (Py.lower (Py.drop 10 arg)) "msvcrt");
      [exists ["-L=/NODEFAULTLIB:libcmt"; "-L=/NODEFAULTLIB:libvcruntime";
               "-L=/DEFAULTLIB:legacy_stdio_definitions.lib"]
      |exists ["-L=/NODEFAULTLIB:libcmt"; "-L=/NODEFAULTLIB:libvcruntime"]];
      (split; [reflexivity|]);
      (split; [split; [discriminate | congruence]|]);
      repeat constructor.
Qed.

Lemma windows_runtime_selection_witness :
  DmdLikeCompilerMixin.translate_args_to_nongnu Windows DmdDCompiler_cls
    ["-g"; "-mscrtlib=msvcrt"]
  = ["-g"; "-mscrtlib=msvcrt"].
Proof.
  exact (proj1 (windows_runtime_selection ["-g"] [] "-mscrtlib=msvcrt"
                  eq_refl)).
Defined.

(** X20. On a host other than Windows, where [os.path] is [posixpath],
    and for an absolute build directory, every token that carries a
    path-flag prefix of the family comes back, at its place, as one of the
    prefixes of the family followed by a normalized absolute path: one or
    two leading slashes, then components that are neither empty nor a dot
    nor two dots, separated by single slashes. *)
Theorem flagged_tokens_get_normal_absolute_paths
  (ntpath : os_path_module) (host : platform)
  (build_dir : string) (pre post : list string) (arg : string) :
  is_windows host = false ->
  Py.startswith build_dir "/" = true ->
  (dmd_path_flag arg = true ->
   exists p path,
     In p ["-I="; "-L-L"; "-L=-L"; "-Wl,-L"] /\ normal_absolute path
     /\ DmdLikeCompilerMixin.compute_parameters_with_absolute_paths ntpath
          host (pre ++ arg :: post)%list build_dir
        = (DmdLikeCompilerMixin.compute_parameters_with_absolute_paths
             ntpath host pre build_dir
           ++ (p ++ path)%string
           :: DmdLikeCompilerMixin.compute_parameters_with_absolute_paths
                ntpath host post build_dir)%list)
  /\ (gnu_path_flag arg = true ->
      exists p path,
        In p ["-I"; "-L"] /\ normal_absolute path
        /\ GnuLikeCompiler.compute_parameters_with_absolute_paths ntpath
             host (pre ++ arg :: post)%list build_dir
           = (GnuLikeCompiler.compute_parameters_with_absolute_paths ntpath
                host pre build_dir
              ++ (p ++ path)%string
              :: GnuLikeCompiler.compute_parameters_with_absolute_paths
                   ntpath host post build_dir)%list).
Proof.
  intros Hhost Hb. split; intros Hf.
  - destruct (MoreFacts.dmd_token_flagged build_dir arg Hf)
      as (p & rest & Hp & E).
    exists p, (PosixPath.normpath (PosixPath.join build_dir rest)).
    split; [assumption|]. split.
    + apply PathFacts.normpath_absolute.
      now apply PathFacts.join_absolute_left.
    + rewrite !PathFacts.dmd_loop_map, map_app by exact Hhost.
      cbn [map]. now rewrite E.
  - destruct (MoreFacts.gnu_token_flagged build_dir arg Hf)
      as (p & rest & Hp & E).
    exists p, (PosixPath.normpath (PosixPath.join build_dir rest)).
    split; [assumption|]. split.
    + apply PathFacts.normpath_absolute.
      now apply PathFacts.join_absolute_left.
    + rewrite !PathFacts.gnu_loop_map, map_app by exact Hhost.
      cbn [map]. now rewrite E.
Qed.

Lemma flagged_tokens_get_normal_absolute_paths_witness :
  exists p path,
    In p ["-I="; "-L-L"; "-L=-L"; "-Wl,-L"] /\ normal_absolute path
    /\ DmdLikeCompilerMixin.compute_parameters_with_absolute_paths
         posixpath OtherPlatform
         (["-O"] ++ "-Wl,-L../a/./b//c/.." :: ["-g"])%list "/build/dir"
       = (DmdLikeCompilerMixin.compute_parameters_with_absolute_paths
            posixpath OtherPlatform ["-O"] "/build/dir"
          ++ (p ++ path)%string
          :: DmdLikeCompilerMixin.compute_parameters_with_absolute_paths
               posixpath OtherPlatform ["-g"] "/build/dir")%list.
Proof.
  exact (proj1 (flagged_tokens_get_normal_absolute_paths posixpath
                  OtherPlatform "/build/dir" ["-O"] ["-g"]
                  "-Wl,-L../a/./b//c/.." eq_refl eq_refl) eq_refl).
Defined.

(** X21. On Windows [get_crt_args] checks its arguments by assertion: a
    runtime value that is neither a key of the runtime table nor
    from_buildtype fails the first assertion, and with from_buildtype a
    build type outside plain, debug, debugoptimized, release, minsize and
    custom fails the second; off Windows neither is checked. *)
Theorem crt_args_assertions (crt_val buildtype : string) :
  (~ In crt_val ["none"; "md"; "mdd"; "mt"; "mtd"; "from_buildtype"] ->
   DmdLikeCompilerMixin.get_crt_args Windows DCompiler.mscrt_args crt_val
     buildtype = Err AssertionError)
  /\ (~ In buildtype ["plain"; "debug"; "debugoptimized"; "release";
                      "minsize"; "custom"] ->
      DmdLikeCompilerMixin.get_crt_args Windows DCompiler.mscrt_args
        "from_buildtype" buildtype = Err AssertionError)
  /\ DmdLikeCompilerMixin.get_crt_args OtherPlatform DCompiler.mscrt_args
       crt_val buildtype = Ok [].
Proof.
  unfold DmdLikeCompilerMixin.get_crt_args, Py.contains, Py.getitem,
    DCompiler.mscrt_args.
  cbn [is_windows negb Py.lookup]. repeat split.
  - intros H.
    repeat match goal with
           | |- context [String.eqb ?a crt_val] =>
               destruct (String.eqb_spec a crt_val) as [<-|_];
               [exfalso; apply H; cbn; tauto|]
           end.
    destruct (String.eqb_spec crt_val "from_buildtype") as [->|_];
      [exfalso; apply H; cbn; tauto | reflexivity].
  - intros H. change (String.eqb "none" "from_buildtype") with false.
    change (String.eqb "md" "from_buildtype") with false.
    change (String.eqb "mdd" "from_buildtype") with false.
    change (String.eqb "mt" "from_buildtype") with false.
    change (String.eqb "mtd" "from_buildtype") with false.
    change (String.eqb "from_buildtype" "from_buildtype") with true.
    cbv iota. cbn [negb].
    repeat match goal with
           | |- context [String.eqb buildtype ?a] =>
               destruct (String.eqb_spec buildtype a) as [->|_];
               [exfalso; apply H; cbn; tauto|]
           end.
    reflexivity.
Qed.

Lemma crt_args_assertions_witness :
  DmdLikeCompilerMixin.get_crt_args Windows DCompiler.mscrt_args "static"
    "debug" = Err AssertionError
  /\ DmdLikeCompilerMixin.get_crt_args Windows DCompiler.mscrt_args
       "from_buildtype" "fast" = Err AssertionError.
Proof.
  split.
  - refine (proj1 (crt_args_assertions "static" "debug") _).
    cbn. intuition discriminate.
  - refine (proj1 (proj2 (crt_args_assertions "static" "fast")) _).
    cbn. intuition discriminate.
Defined.

(** X22. On a host other than Windows, where [os.path] is [posixpath]: a
    search-path token -L/dir or -L./dir, translated and then handed to
    the path normaliser of the DMD-like mixin on that host: a directory comes
    out as -L=-L followed by its absolute, normalized path; an archive
    (.a or .lib) comes out as -L= followed by its path as written, a
    relative one staying relative. *)
Theorem search_path_translated_then_normalized
  (ntpath : os_path_module) (host : platform) (cls : dmd_like_class)
  (build_dir arg : string) :
  is_windows host = false ->
  Py.startswith arg "-L/" || Py.startswith arg "-L./" = true ->
  DmdLikeCompilerMixin.compute_parameters_with_absolute_paths ntpath host
    (DmdLikeCompilerMixin.translate_args_to_nongnu host cls [arg]) build_dir
  = [if Py.endswith arg ".a" || Py.endswith arg ".lib"
     then "-L=" ++ Py.drop 2 arg
     else "-L=-L"
          ++ PosixPath.normpath (PosixPath.join build_dir (Py.drop 2 arg))].
Proof.
  intros Hhost H.
  rewrite TranslatorFacts.translate_flat_map. cbn [flat_map].
  rewrite app_nil_r, (TranslatorMore.step_search_path host cls arg H).
  rewrite PathFacts.dmd_loop_map by exact Hhost. cbn [map]. f_equal.
  destruct (Py.endswith arg ".a" || Py.endswith arg ".lib").
  - apply PathFacts.dmd_token_unflagged.
    apply orb_true_iff in H as [H|H];
      rewrite (PyFacts.startswith_inv _ _ H); reflexivity.
  - assert (HL : Py.startswith arg "-L" = true).
    { apply orb_true_iff in H as [H|H];
        [exact (TranslatorMore.startswith_weaken "-L" "/" arg H)
        | exact (TranslatorMore.startswith_weaken "-L" "./" arg H)]. }
    pose proof (PyFacts.startswith_inv _ _ HL) as E.
    cbn [String.length] in E. rewrite E at 1. reflexivity.
Qed.

Lemma search_path_translated_then_normalized_witness :
  DmdLikeCompilerMixin.compute_parameters_with_absolute_paths
    posixpath OtherPlatform
    (DmdLikeCompilerMixin.translate_args_to_nongnu OtherPlatform
       LLVMDCompiler_cls ["-L./sub/../lib"]) "/build"
  = ["-L=-L/build/lib"]
  /\ DmdLikeCompilerMixin.compute_parameters_with_absolute_paths
       posixpath OtherPlatform
       (DmdLikeCompilerMixin.translate_args_to_nongnu OtherPlatform
          LLVMDCompiler_cls ["-L./sub/libz.a"]) "/build"
     = ["-L=./sub/libz.a"].
Proof.
  split.
  - exact (search_path_translated_then_normalized posixpath OtherPlatform
             LLVMDCompiler_cls "/build" "-L./sub/../lib" eq_refl eq_refl).
  - exact (search_path_translated_then_normalized posixpath OtherPlatform
             LLVMDCompiler_cls "/build" "-L./sub/libz.a" eq_refl eq_refl).
Defined.
